(** * Voice-call support agent: session store, turn taking and action tags

    A shallow embedding of the per-call coordination core of the agent
    ([src/app/state.py], [src/app/groq.py], [src/app/voice.py],
    [src/app/main.py] and the older variant under [src/voice-agent/app/]),
    with the properties of its specification stated and settled on it.

    Conventions of the embedding.
    - Text is a Rocq [string]; one character is one code point below 128 as
      far as the character classes go: [\s], [\w], [\d], [str.lower] and
      friends act on ASCII and leave every other character alone.
    - A Python [dict] used as a record of a call is a [gmap string Val];
      [ConversationState.calls] maps a call id to a reference into a heap of
      such dicts, because the handlers mutate the dict they fetched and store
      the same object back.
    - A coroutine is a function in a state-and-exception monad.  Logging,
      wall-clock measurements and [print] are left out. *)

From Stdlib Require Import ZArith NArith Ascii String List Bool Lia.
From stdpp Require Import base option list gmap strings fin_maps.

Open Scope string_scope.

(** ** Python text primitives *)

Module Py.

Definition chars (s : string) : list ascii := list_ascii_of_string s.
Definition str (l : list ascii) : string := string_of_list_ascii l.

Definition code (c : ascii) : N := N_of_ascii c.

Definition between (lo hi : N) (c : ascii) : bool :=
  ((lo <=? code c) && (code c <=? hi))%N.

(** [str.isspace] / [\s]: TAB..CR, FS..US and SPACE. *)
Definition is_space (c : ascii) : bool := between 9 13 c || between 28 32 c.
(** [\d] *)
Definition is_digit (c : ascii) : bool := between 48 57 c.
Definition is_upper (c : ascii) : bool := between 65 90 c.
Definition is_lower (c : ascii) : bool := between 97 122 c.
(** [[a-zA-Z]] *)
Definition is_alpha (c : ascii) : bool := is_upper c || is_lower c.
(** [\w] *)
Definition is_word (c : ascii) : bool :=
  is_alpha c || is_digit c || (code c =? 95)%N.

Definition to_lower (c : ascii) : ascii :=
  if is_upper c then ascii_of_N (code c + 32) else c.
Definition to_upper (c : ascii) : ascii :=
  if is_lower c then ascii_of_N (code c - 32) else c.

(** [s.lower()], [s.upper()] *)
Definition lower (s : string) : string := str (map to_lower (chars s)).
Definition upper (s : string) : string := str (map to_upper (chars s)).

Fixpoint drop_spaces (l : list ascii) : list ascii :=
  match l with
  | c :: l' => if is_space c then drop_spaces l' else l
  | [] => []
  end.

(** [s.strip()] *)
Definition strip_chars (l : list ascii) : list ascii :=
  rev (drop_spaces (rev (drop_spaces l))).
Definition strip (s : string) : string := str (strip_chars (chars s)).

(** [len(s)] *)
Definition len (s : string) : nat := String.length s.

(** [l[-n:]] for a positive [n]: the last [n] elements, all of [l] when it
    is shorter. *)
Definition last_n {A} (n : nat) (l : list A) : list A :=
  drop (length l - n) l.


(** *** Substrings, [in], [startswith], [replace] *)

Fixpoint starts_with (p s : list ascii) : bool :=
  match p, s with
  | [], _ => true
  | a :: p', b :: s' => Ascii.eqb a b && starts_with p' s'
  | _ :: _, [] => false
  end.

(** [p in s] for a non-empty [p]. *)
Fixpoint contains_chars (p s : list ascii) : bool :=
  starts_with p s ||
  match s with
  | [] => false
  | _ :: s' => contains_chars p s'
  end.
Definition contains (p s : string) : bool := contains_chars (chars p) (chars s).
Definition startswith (s p : string) : bool := starts_with (chars p) (chars s).

(** *** Matching at a position, [re.search], [re.sub], [re.findall]

    A pattern is given by what it matches at the head of the text: the length
    of the match (never 0 for the patterns of the agent) and what its groups
    captured.  For each pattern below the match at a position is unique when
    there is one, so backtracking never picks another. *)
Definition Matcher (G : Type) : Type := list ascii -> option (nat * G).

(** [re.search]: the leftmost match; the groups and where the match starts. *)
Fixpoint search_chars {G} (m : Matcher G) (s : list ascii) : option G :=
  match m s with
  | Some (_, g) => Some g
  | None => match s with
            | [] => None
            | _ :: s' => search_chars m s'
            end
  end.
Definition search {G} (m : Matcher G) (s : string) : option G :=
  search_chars m (chars s).

(** [re.sub(pattern, repl, s)] and [s.replace(old, new)]: every match,
    left to right, without overlap.  [skip] counts the characters of the
    current match still to be dropped. *)
Fixpoint sub_chars {G} (m : Matcher G) (repl : list ascii) (skip : nat)
    (s : list ascii) : list ascii :=
  match s with
  | [] => []
  | c :: s' =>
      match skip with
      | S k => sub_chars m repl k s'
      | 0 => match m s with
             | Some (S n, _) => repl ++ sub_chars m repl n s'
             | _ => c :: sub_chars m repl 0 s'
             end
      end
  end.
Definition sub {G} (m : Matcher G) (repl s : string) : string :=
  str (sub_chars m (chars repl) 0 (chars s)).

(** [re.findall]: the groups of every match, left to right. *)
Fixpoint findall_chars {G} (m : Matcher G) (skip : nat) (s : list ascii) : list G :=
  match s with
  | [] => []
  | _ :: s' =>
      match skip with
      | S k => findall_chars m k s'
      | 0 => match m s with
             | Some (S n, g) => g :: findall_chars m n s'
             | _ => findall_chars m 0 s'
             end
      end
  end.
Definition findall {G} (m : Matcher G) (s : string) : list G :=
  findall_chars m 0 (chars s).

(** A literal. *)
Definition literal (p : string) : Matcher unit :=
  fun s => if starts_with (chars p) s then Some (String.length p, tt) else None.

(** [s.replace(old, new)] *)
Definition replace (old new s : string) : string := sub (literal old) new s.

(** The text up to the first ["]"], when every character before it is in
    [cls]: what [cls*\]] consumes, lazily or greedily, for a class without
    ["]"] or a lazy [.*?]. *)
Fixpoint tag_body (cls : ascii -> bool) (s : list ascii) : option (list ascii) :=
  match s with
  | [] => None
  | c :: s' =>
      if Ascii.eqb c "]" then Some []
      else if cls c then option_map (cons c) (tag_body cls s')
      else None
  end.

(** [.] without DOTALL *)
Definition is_dot (c : ascii) : bool := negb (code c =? 10)%N.
Definition any_char (c : ascii) : bool := true.

(** [prefix cls{min,} \]] with the class part as the group. *)
Definition tag (prefix : string) (cls : ascii -> bool) (min : nat) : Matcher string :=
  fun s =>
    if starts_with (chars prefix) s then
      match tag_body cls (drop (String.length prefix) s) with
      | Some body =>
          if (min <=? length body)%nat
          then Some (String.length prefix + length body + 1, str body)
          else None
      | None => None
      end
    else None.

(** [\[ACTION: TRANSFER(?::\s*(\d+))?\]] *)
Definition transfer_tag : Matcher (option string) :=
  fun s =>
    let p := "[ACTION: TRANSFER" in
    if starts_with (chars p) s then
      match drop (String.length p) s with
      | c :: rest =>
          if Ascii.eqb c "]" then Some (String.length p + 1, None)
          else if Ascii.eqb c ":" then
            let digits := drop_spaces rest in
            match tag_body is_digit digits with
            | Some (d :: ds) =>
                Some (String.length p + 1 + (length rest - length digits)
                      + length (d :: ds) + 1, Some (str (d :: ds)))
            | _ => None
            end
          else None
      | [] => None
      end
    else None.

(** What [\s*([^\]]+)] captures on the text between the colon and the ["]"]:
    the text without its leading blanks, or its last blank when it is blank
    throughout. *)
Definition after_blanks (body : list ascii) : list ascii :=
  match drop_spaces body with
  | [] => match rev body with c :: _ => [c] | [] => [] end
  | t => t
  end.

(** [\[SENTIMENT:\s*([^\]]+)\]] *)
Definition sentiment_tag : Matcher string :=
  fun s =>
    match tag "[SENTIMENT:" any_char 1 s with
    | Some (n, body) => Some (n, str (after_blanks (chars body)))
    | None => None
    end.

(** [\[(ACTION|SENTIMENT):\s*([^\]]+)\]] *)
Definition action_or_sentiment_tag : Matcher (string * string) :=
  fun s =>
    match tag "[ACTION:" any_char 1 s with
    | Some (n, body) => Some (n, ("ACTION", str (after_blanks (chars body))))
    | None =>
        match tag "[SENTIMENT:" any_char 1 s with
        | Some (n, body) => Some (n, ("SENTIMENT", str (after_blanks (chars body))))
        | None => None
        end
    end.

(** [re.search(r'[a-zA-Z]', s)] *)
Definition has_letter (s : string) : bool := existsb is_alpha (chars s).

(** [re.match(r'^\+?\d+$', s)]: an optional plus, digits, and at most one
    final newline. *)
Definition all_digits (l : list ascii) : bool :=
  match l with [] => false | _ => forallb is_digit l end.
Definition is_phone_like (s : string) : bool :=
  let l := chars s in
  let l := match l with c :: l' => if Ascii.eqb c "+" then l' else l | [] => l end in
  let l := match rev l with c :: l' => if (code c =? 10)%N then rev l' else l | [] => l end in
  all_digits l.

(** [re.sub(r'[^\w\s]', '', s)] *)
Definition only_words_and_spaces (s : string) : string :=
  str (filter (fun c => is_word c || is_space c) (chars s)).

(** ["".join(filter(str.isdigit, s))] *)
Definition only_digits (s : string) : string := str (filter is_digit (chars s)).

(** [s.capitalize()] *)
Definition capitalize (s : string) : string :=
  match chars s with
  | [] => ""
  | c :: l => str (to_upper c :: map to_lower l)
  end.

(** [s.split(':')] *)
Fixpoint split_chars (sep : ascii) (cur : list ascii) (s : list ascii) : list string :=
  match s with
  | [] => [str (rev cur)]
  | c :: s' =>
      if Ascii.eqb c sep then str (rev cur) :: split_chars sep [] s'
      else split_chars sep (c :: cur) s'
  end.
Definition split (sep : ascii) (s : string) : list string := split_chars sep [] (chars s).

(** [int(s)] on a string: blanks around, an optional sign, decimal digits
    with single underscores between them.  [None] is [ValueError]. *)
Definition digit_value (c : ascii) : Z := Z.of_N (code c) - 48.
Fixpoint int_digits (acc : Z) (after_digit : bool) (l : list ascii) : option Z :=
  match l with
  | [] => if after_digit then Some acc else None
  | c :: l' =>
      if is_digit c then int_digits (acc * 10 + digit_value c) true l'
      else if Ascii.eqb c "_" then
        if after_digit then int_digits acc false l' else None
      else None
  end.
Definition int_of_string (s : string) : option Z :=
  match strip_chars (chars s) with
  | c :: l =>
      if Ascii.eqb c "-" then option_map Z.opp (int_digits 0 false l)
      else if Ascii.eqb c "+" then int_digits 0 false l
      else int_digits 0 false (c :: l)
  | [] => None
  end.

End Py.

(** ** Values held in a call's dict *)

(** One entry of the transcript: [{"role": role, "content": content}]. *)
Record Turn := mkTurn { role : string; content : string }.

(** A ticket as the helpdesk lists it (the fields the agent reads). *)
Record Ticket := mkTicket {
  t_id : Z; t_status : Z; t_priority : Z; t_subject : string; t_description : string
}.

Inductive Val :=
| VNone
| VBool (b : bool)
| VInt (n : Z)
| VStr (s : string)
| VHist (h : list Turn)
| VTickets (l : list Ticket).

(** Python truthiness. *)
Definition truthy (v : Val) : bool :=
  match v with
  | VNone => false
  | VBool b => b
  | VInt n => negb (n =? 0)%Z
  | VStr s => negb (String.eqb s "")
  | VHist h => negb (bool_decide (h = []))
  | VTickets l => match l with [] => false | _ => true end
  end.

Global Instance Turn_eq_dec : EqDecision Turn.
Proof. solve_decision. Defined.

(** ** The state-and-exception monad of a coroutine *)

Inductive Exn :=
| KeyError (k : string)
| AttributeError
| ValueError
| TypeError
| Dangling
| External (what : string).

Inductive Outcome (A : Type) :=
| Ret (a : A)
| Raise (e : Exn).
Arguments Ret {A} a.
Arguments Raise {A} e.

Definition M (S A : Type) : Type := S -> Outcome A * S.

Definition ret {S A} (a : A) : M S A := fun s => (Ret a, s).
Definition raise {S A} (e : Exn) : M S A := fun s => (Raise e, s).
Definition bind {S A B} (m : M S A) (k : A -> M S B) : M S B :=
  fun s => match m s with
           | (Ret a, s') => k a s'
           | (Raise e, s') => (Raise e, s')
           end.
(** [try: m except Exception: h] — the state reached when the exception was
    raised is kept. *)
Definition try_except {S A} (m : M S A) (h : Exn -> M S A) : M S A :=
  fun s => match m s with
           | (Ret a, s') => (Ret a, s')
           | (Raise e, s') => h e s'
           end.
(** [try: m finally: f] *)
Definition try_finally {S A} (m : M S A) (f : M S unit) : M S A :=
  fun s => match m s with
           | (r, s') => match f s' with
                        | (Ret _, s'') => (r, s'')
                        | (Raise e, s'') => (Raise e, s'')
                        end
           end.
Definition get {S} : M S S := fun s => (Ret s, s).
Definition put {S} (s : S) : M S unit := fun _ => (Ret tt, s).
Definition modify {S} (f : S -> S) : M S unit := fun s => (Ret tt, f s).

Notation "'let*' x ':=' m 'in' k" := (bind m (fun x => k))
  (at level 10, x name, m at level 100, k at level 200).
Notation "m >> k" := (bind m (fun _ => k))
  (at level 100, k at level 200, right associativity).

(** ** The session store ([state.py]) *)

Definition loc := nat.

(** [calls] is [ConversationState.calls]; [objs] is the heap of the dict
    objects it refers to. *)
Record ConversationState := mkState {
  objs : gmap loc (gmap string Val);
  calls : gmap string loc
}.

Definition empty_state : ConversationState := mkState ∅ ∅.

Definition alloc (d : gmap string Val) : M ConversationState loc :=
  fun σ => let l := fresh (dom (objs σ)) in
           (Ret l, mkState (<[l := d]> (objs σ)) (calls σ)).

(** [d.get(k)], [d.get(k, dflt)], [d[k]], [d[k] = v] on the dict at [l]. *)
Definition dict_get_default (l : loc) (k : string) (dflt : Val) : M ConversationState Val :=
  fun σ => match objs σ !! l with
           | Some d => (Ret (default dflt (d !! k)), σ)
           | None => (Raise Dangling, σ)
           end.
Definition dict_get (l : loc) (k : string) : M ConversationState Val :=
  dict_get_default l k VNone.
Definition dict_item (l : loc) (k : string) : M ConversationState Val :=
  fun σ => match objs σ !! l with
           | Some d => match d !! k with
                       | Some v => (Ret v, σ)
                       | None => (Raise (KeyError k), σ)
                       end
           | None => (Raise Dangling, σ)
           end.
Definition dict_set (l : loc) (k : string) (v : Val) : M ConversationState unit :=
  fun σ => match objs σ !! l with
           | Some d => (Ret tt, mkState (<[l := <[k := v]> d]> (objs σ)) (calls σ))
           | None => (Raise Dangling, σ)
           end.

Module App.

(** The dict [get_call_state] creates for a call id it has not seen. *)
Definition default_call : gmap string Val :=
  <["history" := VHist []]>
  (<["processing" := VBool false]>
  (<["ticket_id" := VNone]>
  (<["phone" := VStr ""]>
  (<["sentiment" := VStr "Neutral"]>
  (<["transfer_requested" := VBool false]>
  (<["transfer_confirmed" := VBool false]>
  (<["awaiting_confirmation" := VNone]> ∅))))))).

Definition history_window : nat := 50.

Definition get_call_state (call_uuid : string) : M ConversationState loc :=
  let* σ := get in
  match calls σ !! call_uuid with
  | None =>
      let* l := alloc default_call in
      modify (fun σ => mkState (objs σ) (<[call_uuid := l]> (calls σ))) >>
      ret l
  | Some l => ret l
  end.

Definition set_call_state (call_uuid : string) (state : loc) : M ConversationState unit :=
  modify (fun σ => mkState (objs σ) (<[call_uuid := state]> (calls σ))).

Definition append_history (call_uuid role content : string) : M ConversationState unit :=
  let* state := get_call_state call_uuid in
  let* h := dict_item state "history" in
  match h with
  | VHist turns =>
      dict_set state "history" (VHist (turns ++ [mkTurn role content])) >>
      let* h' := dict_item state "history" in
      match h' with
      | VHist turns' =>
          dict_set state "history" (VHist (Py.last_n history_window turns')) >>
          set_call_state call_uuid state
      | _ => raise TypeError
      end
  | _ => raise AttributeError
  end.

End App.

(** The older variant, [src/voice-agent/app/state.py]: a smaller default dict
    and a window of 12. *)
Module VoiceAgent.

Definition default_call : gmap string Val :=
  <["history" := VHist []]>
  (<["processing" := VBool false]>
  (<["ticket_id" := VNone]>
  (<["phone" := VStr ""]> ∅))).

Definition history_window : nat := 12.

Definition get_call_state (call_uuid : string) : M ConversationState loc :=
  let* σ := get in
  match calls σ !! call_uuid with
  | None =>
      let* l := alloc default_call in
      modify (fun σ => mkState (objs σ) (<[call_uuid := l]> (calls σ))) >>
      ret l
  | Some l => ret l
  end.

Definition set_call_state (call_uuid : string) (state : loc) : M ConversationState unit :=
  modify (fun σ => mkState (objs σ) (<[call_uuid := state]> (calls σ))).

Definition append_history (call_uuid role content : string) : M ConversationState unit :=
  let* state := get_call_state call_uuid in
  let* h := dict_item state "history" in
  match h with
  | VHist turns =>
      dict_set state "history" (VHist (turns ++ [mkTurn role content])) >>
      let* h' := dict_item state "history" in
      match h' with
      | VHist turns' =>
          dict_set state "history" (VHist (Py.last_n history_window turns')) >>
          set_call_state call_uuid state
      | _ => raise TypeError
      end
  | _ => raise AttributeError
  end.

End VoiceAgent.

(** The transcript stored for a call, if the call has a dict with one. *)
Definition stored_history (σ : ConversationState) (call_uuid : string) : option (list Turn) :=
  match calls σ !! call_uuid with
  | Some l => match objs σ !! l with
              | Some d => match d !! "history" with
                          | Some (VHist h) => Some h
                          | _ => None
                          end
              | None => None
              end
  | None => None
  end.

(** A sequence of [append_history] calls for one call id. *)
Fixpoint append_all (append : string -> string -> string -> M ConversationState unit)
    (call_uuid : string) (turns : list Turn) : M ConversationState unit :=
  match turns with
  | [] => ret tt
  | t :: rest => append call_uuid (role t) (content t) >> append_all append call_uuid rest
  end.

(** The transcript a call starts from: empty when the call id is unknown
    (the first access creates the dict), what is stored otherwise. *)
Definition initial_history (σ : ConversationState) (call_uuid : string) : option (list Turn) :=
  match calls σ !! call_uuid with
  | None => Some []
  | Some _ => stored_history σ call_uuid
  end.

(** The turns used in the examples: [n] user turns numbered from [k]. *)
Fixpoint numbered_turns (k n : nat) : list Turn :=
  match n with
  | 0 => []
  | S n' => mkTurn "user" (Py.str (repeat "x"%char k)) :: numbered_turns (S k) n'
  end.


(** ** Streaming turn taking ([DeepgramStreamer] in [groq.py])

    Time is counted in milliseconds.  A [threading.Timer] that was started is
    [Running] with the time left until it fires, or [Finished] once it has
    fired; [_silence_timer] stays bound to a finished timer until the next
    cancel. *)

Module Streamer.

Inductive Timer := Running (remaining : N) | Finished.

Record t := mk {
  final_transcript : string;
  current_utterance : string;
  last_final_time : N;
  silence_timer : option Timer;
  speech_ended_callback : bool;
  barge_in_callback : bool;
  clock : N
}.

(** What the streamer calls back with. *)
Inductive Signal :=
| SpeechEnded (transcript : string)
| BargeIn.

(** [_silence_threshold = 0.3] *)
Definition silence_threshold : N := 300.

Definition init : t := mk "" "" 0 None false false 0.

Definition set_speech_ended_callback (s : t) : t :=
  mk (final_transcript s) (current_utterance s) (last_final_time s)
     (silence_timer s) true (barge_in_callback s) (clock s).

Definition set_barge_in_callback (s : t) : t :=
  mk (final_transcript s) (current_utterance s) (last_final_time s)
     (silence_timer s) (speech_ended_callback s) true (clock s).

Definition with_timer (tm : option Timer) (s : t) : t :=
  mk (final_transcript s) (current_utterance s) (last_final_time s)
     tm (speech_ended_callback s) (barge_in_callback s) (clock s).

Definition _cancel_silence_timer (s : t) : t :=
  match silence_timer s with
  | Some _ => with_timer None s
  | None => s
  end.

Definition _start_silence_timer (s : t) : t :=
  with_timer (Some (Running silence_threshold)) (_cancel_silence_timer s).

Definition _on_silence_detected (s : t) : t * list Signal :=
  if String.eqb (current_utterance s) "" then (s, [])
  else
    let transcript := current_utterance s in
    let s' := mk (final_transcript s) "" (last_final_time s) (silence_timer s)
                 (speech_ended_callback s) (barge_in_callback s) (clock s) in
    (s', if speech_ended_callback s then [SpeechEnded transcript] else []).

(** A recognition result after extraction: the first alternative's
    transcript, if any, and [is_final]. *)
Record Result := mkResult { transcript : option string; is_final : bool }.

Definition _process_result (s : t) (r : Result) : t * list Signal :=
  match transcript r with
  | Some tr =>
      if negb (String.eqb tr "") && (0 <? Py.len (Py.strip tr))%nat then
        if is_final r then
          let s1 := mk (final_transcript s ++ tr ++ " ")
                       (current_utterance s ++ Py.strip tr ++ " ")
                       (clock s) (silence_timer s)
                       (speech_ended_callback s) (barge_in_callback s) (clock s) in
          (_start_silence_timer s1, [])
        else
          let s1 := _cancel_silence_timer s in
          (s1, if barge_in_callback s && (3 <? Py.len (Py.strip tr))%nat
               then [BargeIn] else [])
      else (s, [])
  | None => (s, [])
  end.

(** [d] milliseconds pass without a result: a running timer fires when its
    time is up. *)
Definition elapse (d : N) (s : t) : t * list Signal :=
  let s := mk (final_transcript s) (current_utterance s) (last_final_time s)
              (silence_timer s) (speech_ended_callback s) (barge_in_callback s)
              (clock s + d)%N in
  match silence_timer s with
  | Some (Running r) =>
      if (r <=? d)%N then _on_silence_detected (with_timer (Some Finished) s)
      else (with_timer (Some (Running (r - d))) s, [])
  | _ => (s, [])
  end.

Inductive Event :=
| Recv (r : Result)
| Elapse (d : N).

Definition step (s : t) (e : Event) : t * list Signal :=
  match e with
  | Recv r => _process_result s r
  | Elapse d => elapse d s
  end.

Fixpoint run (es : list Event) (s : t) : t * list Signal :=
  match es with
  | [] => (s, [])
  | e :: es' =>
      let '(s1, out1) := step s e in
      let '(s2, out2) := run es' s1 in
      (s2, (out1 ++ out2)%list)
  end.

Definition final (text : string) : Event := Recv (mkResult (Some text) true).
Definition interim (text : string) : Event := Recv (mkResult (Some text) false).

(** Final results, each followed by a pause, then a last pause of [d]. *)
Definition finals_then_silence (fs : list (string * N)) (d : N) : list Event :=
  (flat_map (fun fg => [final (fst fg); Elapse (snd fg)]) fs ++ [Elapse d])%list.

(** The text the fragments add up to. *)
Definition utterance_of (fs : list (string * N)) : string :=
  fold_right (fun fg acc => (Py.strip (fst fg) ++ " ") ++ acc) "" fs.

Definition nonblank (text : string) : Prop := Py.strip text <> "".

End Streamer.


(** ** Collaborators, and the world a coroutine runs in

    Every request that leaves the process is a [Call]; what comes back is
    decided by the environment from everything that was requested before.
    The log keeps, with each call, the store and the streaming guard as they
    were when the coroutine suspended on it: this is what any other task can
    see while the call is in flight. *)

Inductive Call :=
| Sleep (ms : Z)
| WaitForTask (timeout_ms : Z)
| TranscribeWhisper (audio : Val)
| FetchCombinedKnowledge (query : string)
| AgentResponse (issue kb : string) (history contact_name recent_tickets
                 active_ticket_id phone : Val)
| CreateTicketHttp (call_id description : string) (phone sentiment requester_id : Val)
| UpdateTicketStatusHttp (ticket_id status : Z)
| UpdateContactNameHttp (contact_id : Val) (new_name : string)
| CreateContactHttp (name : string) (phone : Val)
| SearchContactHttp (phone : string)
| GetLatestTicketsHttp (contact_id : Val)
| TalkHttp (call_uuid text : string) (region_url : Val)
| TransferHttp (call_uuid agent_number from_number : string) (region_url : Val)
| HangupHttp (call_uuid : string) (region_url : Val).

Inductive Reply :=
| RVal (v : Val)
| RDict (d : gmap string Val).

(** A coroutine handed to the event loop ([asyncio.create_task],
    [asyncio.run_coroutine_threadsafe]). *)
Inductive Task :=
| ProcessAndRespond (transcript : string) (call_uuid : Val)
| ExecuteAiActions (call_uuid : string) (all_tags : list (string * string))
    (current_call_state : loc) (region_url : Val) (text_len : nat)
| BackgroundFreshdeskLookup (call_uuid from_number : string)
| AddTicketNote (ticket_id : Val) (history : Val).

Record Event := mkEvent {
  ev_call : Call;
  ev_state : ConversationState;
  ev_processing_ai : bool
}.

(** [call_state] is the [ConversationState] of [main.py]; [_processing_ai],
    [_main_loop] and [_current_call_uuid] are its module globals. *)
Record World := mkWorld {
  call_state : ConversationState;
  _processing_ai : bool;
  _main_loop_running : bool;
  _current_call_uuid : Val;
  tasks : list Task;
  log : list Event
}.

Definition Env : Type := list Event -> Call -> Outcome Reply.

(** The environment variables the agent reads. *)
Record Config := mkConfig {
  env_PUBLIC_URL : option string;
  env_AGENT_NUMBER : option string
}.

Definition initial_world : World := mkWorld empty_state false false VNone [] [].

Definition with_state (σ : ConversationState) (w : World) : World :=
  mkWorld σ (_processing_ai w) (_main_loop_running w) (_current_call_uuid w)
          (tasks w) (log w).
Definition with_processing_ai (b : bool) (w : World) : World :=
  mkWorld (call_state w) b (_main_loop_running w) (_current_call_uuid w)
          (tasks w) (log w).

(** A store operation inside a coroutine. *)
Definition lift {A} (m : M ConversationState A) : M World A :=
  fun w => let '(r, σ) := m (call_state w) in (r, with_state σ w).

Definition await (env : Env) (c : Call) : M World Reply :=
  fun w => (env (log w) c,
            mkWorld (call_state w) (_processing_ai w) (_main_loop_running w)
                    (_current_call_uuid w) (tasks w)
                    (log w ++ [mkEvent c (call_state w) (_processing_ai w)])).

Definition spawn (t : Task) : M World unit :=
  modify (fun w => mkWorld (call_state w) (_processing_ai w) (_main_loop_running w)
                           (_current_call_uuid w) (tasks w ++ [t]) (log w)).

Fixpoint for_each {S A} (l : list A) (body : A -> M S unit) : M S unit :=
  match l with
  | [] => ret tt
  | x :: l' => body x >> for_each l' body
  end.

(** [int(v)] *)
Definition py_int {S} (v : Val) : M S Z :=
  match v with
  | VStr s => match Py.int_of_string s with
              | Some n => ret n
              | None => raise ValueError
              end
  | VInt n => ret n
  | VBool b => ret (if b then 1 else 0)%Z
  | _ => raise TypeError
  end.

(** ** The helpdesk client ([freshdesk.py])

    Each function wraps its request in [try/except] and answers with a
    default when the request fails. *)

Module Freshdesk.
Section WithEnv.
Variable env : Env.

Definition create_ticket (call_id description : string)
    (phone sentiment requester_id : Val) : M World Val :=
  try_except
    (let* r := await env (CreateTicketHttp call_id description phone sentiment requester_id) in
     match r with
     | RVal (VStr ticket_id) => if String.eqb ticket_id "" then ret VNone
                                else ret (VStr ticket_id)
     | _ => ret VNone
     end)
    (fun _ => ret VNone).

Definition update_ticket_status (ticket_id status : Z) : M World bool :=
  try_except
    (let* r := await env (UpdateTicketStatusHttp ticket_id status) in
     match r with RVal (VBool b) => ret b | _ => ret false end)
    (fun _ => ret false).

Definition update_contact_name (contact_id : Val) (new_name : string) : M World bool :=
  try_except
    (let* r := await env (UpdateContactNameHttp contact_id new_name) in
     match r with RVal (VBool b) => ret b | _ => ret false end)
    (fun _ => ret false).

Definition create_contact (name : string) (phone : Val) : M World (gmap string Val) :=
  try_except
    (let* r := await env (CreateContactHttp name phone) in
     match r with RDict d => ret d | _ => ret ∅ end)
    (fun _ => ret ∅).

Definition search_contact_by_phone (phone : string) : M World (gmap string Val) :=
  if String.eqb phone "" then ret ∅
  else
    try_except
      (let* r := await env (SearchContactHttp phone) in
       match r with RDict d => ret d | _ => ret ∅ end)
      (fun _ => ret ∅).

Definition get_latest_tickets (contact_id : Val) : M World Val :=
  try_except
    (let* r := await env (GetLatestTicketsHttp contact_id) in
     match r with
     | RVal (VTickets l) =>
         ret (VTickets (take 2 (filter (fun t => t_status t = 2%Z \/ t_status t = 3%Z) l)))
     | _ => ret (VTickets [])
     end)
    (fun _ => ret (VTickets [])).

End WithEnv.
End Freshdesk.


(** ** Reply generation ([agent_response] in [groq.py])

    The function as a whole is the reply-generation collaborator: its
    answer, after its own clean-up of ticket-id mentions, is the
    environment's.  What it injects into the prompt about the caller and
    the active ticket is computed here from its arguments. *)

Module Groq.

(** [display_name]: a name without a letter is presented as "Unknown". *)
Definition display_name (contact_name : option string) : option string :=
  match contact_name with
  | Some n =>
      if negb (String.eqb n "") && negb (Py.has_letter n) then Some "Unknown"
      else Some n
  | None => None
  end.

(** The line appended to the system prompt, if any. *)
Definition customer_info (contact_name : option string) : option string :=
  match display_name contact_name with
  | Some n => if String.eqb n "" then None
              else Some ("CUSTOMER INFO: Talking to " ++ n ++ ".")
  | None => None
  end.

(** [\[ACTION: USE_TICKET: (\d+)\]] in the latest assistant turn that has
    one. *)
Fixpoint confirmed_ticket (reversed_history : list Turn) : option string :=
  match reversed_history with
  | [] => None
  | m :: rest =>
      if String.eqb (role m) "assistant" then
        match Py.search (Py.tag "[ACTION: USE_TICKET: " Py.is_digit 1) (content m) with
        | Some id => Some id
        | None => confirmed_ticket rest
        end
      else confirmed_ticket rest
  end.

(** [active_id]: the ticket the prompt names as the session's. *)
Definition active_id (active_ticket_id : Val) (history : list Turn) : Val :=
  if truthy active_ticket_id then active_ticket_id
  else match confirmed_ticket (rev history) with
       | Some id => VStr id
       | None => active_ticket_id
       end.

(** [transcribe_whisper]: the transcript, trimmed, when it has more than one
    character; [None] otherwise and on every failure. *)
Definition transcribe_whisper (env : Env) (audio_data : Val) : M World (option string) :=
  if negb (truthy audio_data) then ret None
  else
    try_except
      (let* r := await env (TranscribeWhisper audio_data) in
       match r with
       | RVal (VStr transcript) =>
           let text := Py.strip transcript in
           ret (if (1 <? Py.len text)%nat then Some text else None)
       | _ => ret None
       end)
      (fun _ => ret None).

Definition agent_response (env : Env) (issue kb : string)
    (history contact_name recent_tickets active_ticket_id phone : Val) : M World string :=
  let* r := await env (AgentResponse issue kb history contact_name recent_tickets
                                     active_ticket_id phone) in
  match r with
  | RVal (VStr reply) => ret reply
  | _ => raise TypeError
  end.

End Groq.

(** ** Telephony control ([voice.py]) *)

Module Telephony.
Section WithEnv.
Variable env : Env.

Definition inject_vonage_tts (call_uuid text : string) (region_url : Val) : M World unit :=
  try_except (await env (TalkHttp call_uuid text region_url) >> ret tt)
             (fun _ => ret tt).

Definition hangup_call (call_uuid : string) (region_url : Val) : M World unit :=
  try_except (await env (HangupHttp call_uuid region_url) >> ret tt)
             (fun _ => ret tt).

(** [x if x.startswith("+") else f"+{x}"] *)
Definition e164 (number : string) : string :=
  if Py.startswith number "+" then number else "+" ++ number.

Definition transfer_to_agent (call_uuid agent_number : string) (from_number : Val)
    (region_url : Val) : M World bool :=
  let agent_number := e164 agent_number in
  match from_number with
  | VStr from_number =>
      let from_number := e164 from_number in
      try_except
        (let* r := await env (TransferHttp call_uuid agent_number from_number region_url) in
         match r with RVal (VBool b) => ret b | _ => ret false end)
        (fun _ => ret false)
  | _ => raise AttributeError
  end.

End WithEnv.
End Telephony.

(** ** The streaming turn and the background executor ([main.py]) *)

Module Main.
Section WithEnv.
Variable env : Env.
Variable cfg : Config.

(** [parts[1] if len(parts) > 1 else dflt] *)
Definition part1 (parts : list string) (dflt : Val) : Val :=
  match parts with
  | _ :: p :: _ => VStr p
  | _ => dflt
  end.

(** One iteration of the loop of [execute_ai_actions]. *)
Definition execute_ai_action (call_uuid : string) (current_call_state : loc)
    (region_url : Val) (text_len : nat) (tag : string * string) : M World unit :=
  let '(tag_type, tag_content) := tag in
  if String.eqb tag_type "SENTIMENT" then
    let sentiment := Py.capitalize (Py.strip tag_content) in
    lift (dict_set current_call_state "sentiment" (VStr sentiment)) >>
    lift (App.set_call_state call_uuid current_call_state)
  else
    let parts := map Py.strip (Py.split ":" tag_content) in
    let cmd := Py.upper (hd "" parts) in
    if String.eqb cmd "TRANSFER" then
      let dest := default "18335645478" (env_AGENT_NUMBER cfg) in
      let* bot_num := lift (dict_get_default current_call_state "bot_number"
                                             (VStr "18335645478")) in
      Telephony.transfer_to_agent env call_uuid dest bot_num region_url >> ret tt
    else if String.eqb cmd "CREATE_TICKET" then
      let* desc := match part1 parts (VStr "No description provided") with
                   | VStr d => ret d
                   | _ => raise TypeError
                   end in
      let* contact_phone := lift (dict_get current_call_state "from") in
      let* contact_id := lift (dict_get current_call_state "contact_id") in
      let* sentiment := lift (dict_get_default current_call_state "sentiment"
                                               (VStr "Neutral")) in
      let* ticket_id := Freshdesk.create_ticket env call_uuid desc contact_phone
                                                sentiment contact_id in
      if truthy ticket_id then
        lift (dict_set current_call_state "ticket_id" ticket_id) >>
        lift (App.set_call_state call_uuid current_call_state)
      else ret tt
    else if String.eqb cmd "RESOLVE_TICKET" then
      let* t_id := match parts with
                   | _ :: p :: _ => ret (VStr p)
                   | _ => lift (dict_get current_call_state "ticket_id")
                   end in
      if truthy t_id then
        let* n := py_int t_id in
        Freshdesk.update_ticket_status env n 4 >> ret tt
      else ret tt
    else if String.eqb cmd "UPDATE_NAME" then
      let* new_name := match part1 parts (VStr "Unknown") with
                       | VStr n => ret n
                       | _ => raise TypeError
                       end in
      let* contact_id := lift (dict_get current_call_state "contact_id") in
      let* contact_phone := lift (dict_get current_call_state "from") in
      (if truthy contact_id then
         Freshdesk.update_contact_name env contact_id new_name >> ret tt
       else if truthy contact_phone then
         let* new_contact := Freshdesk.create_contact env new_name contact_phone in
         if bool_decide (new_contact = ∅) then ret tt
         else lift (dict_set current_call_state "contact_id"
                             (default VNone (new_contact !! "id")))
       else ret tt) >>
      lift (dict_set current_call_state "contact_name" (VStr new_name)) >>
      lift (App.set_call_state call_uuid current_call_state)
    else if String.eqb cmd "USE_TICKET" then
      let t_id := part1 parts VNone in
      if truthy t_id then
        lift (dict_set current_call_state "ticket_id" t_id) >>
        lift (App.set_call_state call_uuid current_call_state)
      else ret tt
    else if String.eqb cmd "HANGUP" then
      let delay := Z.min (Z.of_nat text_len * 1000 / 12 + 1200) 20000 in
      await env (Sleep delay) >>
      Telephony.hangup_call env call_uuid region_url
    else ret tt.

Definition execute_ai_actions (call_uuid : string) (all_tags : list (string * string))
    (current_call_state : loc) (region_url : Val) (text_len : nat) : M World unit :=
  try_except
    (for_each all_tags
       (execute_ai_action call_uuid current_call_state region_url text_len))
    (fun _ => ret tt).

(** [\[(ACTION|SENTIMENT):[^\]]+\]] *)
Definition any_tag : Py.Matcher string :=
  fun s => match Py.tag "[ACTION:" Py.any_char 1 s with
           | Some r => Some r
           | None => Py.tag "[SENTIMENT:" Py.any_char 1 s
           end.

Definition process_and_respond (transcript : string) (call_uuid : Val) : M World unit :=
  try_finally
    (try_except
       (match call_uuid with
        | VStr call_uuid =>
            if String.eqb call_uuid "" then ret tt
            else
              lift (App.append_history call_uuid "user" transcript) >>
              let* current_call_state := lift (App.get_call_state call_uuid) in
              let* history := lift (dict_get_default current_call_state "history" (VHist [])) in
              let* contact_name := lift (dict_get current_call_state "contact_name") in
              let* recent_tickets :=
                lift (dict_get_default current_call_state "recent_tickets" (VTickets [])) in
              let* ticket_id := lift (dict_get current_call_state "ticket_id") in
              let* phone := lift (dict_get current_call_state "phone") in
              let* ai_reply := Groq.agent_response env transcript "" history contact_name
                                                   recent_tickets ticket_id phone in
              lift (App.append_history call_uuid "assistant" ai_reply) >>
              let all_tags := Py.findall Py.action_or_sentiment_tag ai_reply in
              let clean_speech := Py.strip (Py.sub any_tag "" ai_reply) in
              let* region_url := lift (dict_get current_call_state "region_url") in
              Telephony.inject_vonage_tts env call_uuid clean_speech region_url >>
              match all_tags with
              | [] => ret tt
              | _ => spawn (ExecuteAiActions call_uuid all_tags current_call_state
                                             region_url (Py.len clean_speech))
              end
        | _ => if truthy call_uuid then raise TypeError else ret tt
        end)
       (fun _ => ret tt))
    (modify (with_processing_ai false)).

(** The callback [voice_stream] registers with the streamer. *)
Definition on_speech_ended (transcript : string) : M World unit :=
  let* w := get in
  if _processing_ai w then ret tt
  else
    modify (with_processing_ai true) >>
    if _main_loop_running w then
      spawn (ProcessAndRespond transcript (_current_call_uuid w))
    else modify (with_processing_ai false).

End WithEnv.
End Main.


(** ** The webhook handlers ([voice.py]) *)

(** One instruction of the response to the telephony layer.  [endOnSilence]
    is in tenths of a second. *)
Inductive Action :=
| Talk (text : string) (bargeIn : bool)
| Input (eventUrl : string) (endOnSilence : N)
| Connect (from : Val) (number : string) (timeout : N) (eventUrl : string)
| ConnectWebsocket (uri call_uuid : string)
| Hangup.

(** [JSONResponse(content, status_code)] *)
Inductive Response :=
| Json (status_code : N) (ncco : list Action)
| JsonError (status_code : N) (error : string).

(** The JSON body of an ASR webhook, as far as the handler reads it. *)
Record AsrRequest := mkAsr {
  asr_uuid : string;
  asr_audio : Val;
  asr_recording_url : Val
}.

(** The [from] field of an answer webhook: a string, or an object with a
    [number]. *)
Inductive FromField :=
| FromAbsent
| FromStr (number : string)
| FromDict (number : option string).

Record AnswerRequest := mkAnswer {
  ans_uuid : option string;
  ans_conversation_uuid : option string;
  ans_from : FromField;
  ans_to : option string;
  ans_region_url : Val
}.

Definition mem_str (x : string) (l : list string) : bool := existsb (String.eqb x) l.

Module Voice.

Definition asr_error_tags : list string := ["[ASR_FAILED]"; "[ASR_ERROR]"; "[NO_AUDIO]"].
Definition noise_artifacts : list string :=
  ["hau"; "uh"; "um"; "the wind"; "background noise"; "[noise]"; "disturbance"].
Definition whitelist : list string :=
  ["yes"; "no"; "ok"; "help"; "yeah"; "yep"; "sure"; "yup"; "hi"; "hey"].
Definition confirmations : list string :=
  ["yes"; "no"; "okay"; "ok"; "yep"; "sure"; "correct"; "perfect"; "done"; "completed"].

Definition asr_apology : string :=
  "I'm sorry, I couldn't hear you clearly due to a connection issue. Could you please repeat that?".
Definition pipeline_apology : string := "I encountered an error. Could you repeat that?".
Definition generic_greeting : string :=
  "Hello. Welcome to Sandeza support. How can I help you today?".
Definition personal_greeting (raw_name : string) : string :=
  "Hello " ++ raw_name ++ ". Welcome back to Sandeza support. How can I help you today?".

(** [name and re.search(r'[a-zA-Z]', str(name)) and name.lower() != "unknown"]
    on a string. *)
Definition is_valid_name (name : string) : bool :=
  negb (String.eqb name "") && Py.has_letter name
  && negb (String.eqb (Py.lower name) "unknown").

(** The same test on what a dict holds: [None], a number and [False] fail
    it; any other value that is not a string has no [lower]. *)
Definition is_valid_name_val {S} (name : Val) : M S bool :=
  match name with
  | VStr n => ret (is_valid_name n)
  | VNone | VInt _ | VBool false => ret false
  | VHist [] | VTickets [] => ret false
  | _ => raise AttributeError
  end.

(** Lines 484-505 of [handle_voice_asr]: the error tags pass, noise and
    near-empty text become the silence tag.  Lower case, [\w], [\s] and
    the length are those of ASCII here: the result is the code's for ASCII
    text. *)
Definition filter_noise (speech_text : string) : string :=
  if mem_str speech_text asr_error_tags then speech_text
  else
    let cleaned_speech := Py.only_words_and_spaces (Py.strip (Py.lower speech_text)) in
    let is_noise :=
      if negb (String.eqb speech_text "") && (Py.len speech_text <? 5)%nat
         && negb (mem_str cleaned_speech whitelist)
      then true
      else mem_str cleaned_speech noise_artifacts in
    if String.eqb speech_text "" || (Py.len speech_text <? 2)%nat || is_noise
    then "[SILENCE]"
    else speech_text.

(** [not current_name or current_name.lower() == "unknown"
     or re.match(r'^\+?\d+$', str(current_name).replace(" ", ""))] *)
Definition is_placeholder {S} (current_name : Val) : M S bool :=
  if negb (truthy current_name) then ret true
  else match current_name with
       | VStr n => ret (String.eqb (Py.lower n) "unknown"
                        || Py.is_phone_like (Py.replace " " "" n))
       | _ => raise AttributeError
       end.

(** [len(call_state.get("history", [])) <= 1] *)
Definition is_first_response {S} (history : Val) : M S bool :=
  match history with
  | VHist h => ret (length h <=? 1)%nat
  | VTickets l => ret (length l <=? 1)%nat
  | VStr t => ret (Py.len t <=? 1)%nat
  | _ => raise TypeError
  end.

Section WithEnv.
Variable env : Env.
Variable cfg : Config.

Definition PUBLIC_URL : string :=
  default "https://carpogonial-candace-nonjuridically.ngrok-free.dev" (env_PUBLIC_URL cfg).
Definition AGENT_NUMBER : string := default "14702834062" (env_AGENT_NUMBER cfg).

Definition listen (endOnSilence : N) : Action :=
  Input (PUBLIC_URL ++ "/voice/asr") endOnSilence.

Definition fetch_combined_knowledge (query : string) : M World string :=
  if String.eqb (Py.strip query) "" then ret ""
  else
    try_except
      (let* r := await env (FetchCombinedKnowledge query) in
       match r with RVal (VStr kb) => ret kb | _ => ret "" end)
      (fun _ => ret "").

(** [call_state["processing"] = False; await state.set_call_state(...)] *)
Definition release (call_uuid : string) (call_state : loc) : M World unit :=
  lift (dict_set call_state "processing" (VBool false)) >>
  lift (App.set_call_state call_uuid call_state).

(** Lines 446-479: the transcript of the turn, or the tag of what went
    wrong. *)
Definition transcribe (data : AsrRequest) : M World string :=
  try_except
    (let audio_data := asr_audio data in
     let audio_data :=
       if negb (truthy audio_data) && truthy (asr_recording_url data)
       then asr_recording_url data else audio_data in
     if negb (truthy audio_data) then ret "[NO_AUDIO]"
     else
       let* speech_text := Groq.transcribe_whisper env audio_data in
       match speech_text with
       | Some t => if String.eqb t "" then ret "[ASR_FAILED]" else ret t
       | None => ret "[ASR_FAILED]"
       end)
    (fun _ => ret "[ASR_ERROR]").

(** 3a: the sentiment tag. *)
Definition detect_sentiment (call_uuid : string) (call_state : loc)
    (ai_response : string) : M World string :=
  match Py.search Py.sentiment_tag ai_response with
  | Some g =>
      let sentiment := Py.capitalize (Py.strip g) in
      lift (dict_set call_state "sentiment" (VStr sentiment)) >>
      lift (App.set_call_state call_uuid call_state) >>
      ret (Py.strip (Py.sub (Py.tag "[SENTIMENT:" Py.is_dot 0) "" ai_response))
  | None => ret ai_response
  end.

(** 3b: ticket creation. *)
Definition detect_create_ticket (call_uuid : string) (call_state : loc)
    (ai_response : string) : M World string :=
  match Py.search (Py.tag "[ACTION: CREATE_TICKET: " Py.is_dot 0) ai_response with
  | Some issue_summary =>
      let* phone := lift (dict_get call_state "phone") in
      let* sentiment := lift (dict_get_default call_state "sentiment" (VStr "Neutral")) in
      let* contact_id := lift (dict_get call_state "contact_id") in
      let* active_id := Freshdesk.create_ticket env call_uuid issue_summary phone
                                                sentiment contact_id in
      lift (dict_set call_state "ticket_id" active_id) >>
      lift (App.set_call_state call_uuid call_state) >>
      ret (Py.strip (Py.sub (Py.tag "[ACTION: CREATE_TICKET: " Py.is_dot 0) "" ai_response))
  | None => ret ai_response
  end.

(** 3g: adoption of an existing ticket. *)
Definition detect_use_ticket (call_uuid : string) (call_state : loc)
    (ai_response : string) : M World string :=
  match Py.search (Py.tag "[ACTION: USE_TICKET: " Py.is_digit 1) ai_response with
  | Some adopted_id =>
      lift (dict_set call_state "ticket_id" (VStr adopted_id)) >>
      lift (App.set_call_state call_uuid call_state) >>
      ret (Py.strip (Py.sub (Py.tag "[ACTION: USE_TICKET: " Py.is_digit 1) "" ai_response))
  | None => ret ai_response
  end.

(** 3b: resolution. *)
Definition detect_resolve_ticket (ai_response : string) : M World string :=
  match Py.search (Py.tag "[ACTION: RESOLVE_TICKET: " Py.is_digit 1) ai_response with
  | Some target_ticket_id =>
      let* n := py_int (VStr target_ticket_id) in
      Freshdesk.update_ticket_status env n 4 >>
      ret (Py.strip (Py.sub (Py.tag "[ACTION: RESOLVE_TICKET: " Py.is_digit 1) "" ai_response))
  | None => ret ai_response
  end.

(** 3c: the contact's name. *)
Definition detect_update_name (call_uuid : string) (call_state : loc)
    (ai_response : string) : M World string :=
  match Py.search (Py.tag "[ACTION: UPDATE_NAME: " Py.is_dot 0) ai_response with
  | Some g =>
      let* contact_id := lift (dict_get call_state "contact_id") in
      if truthy contact_id then
        let new_name := Py.strip g in
        let* current_name := lift (dict_get call_state "contact_name") in
        let* placeholder := is_placeholder current_name in
        (if placeholder && negb (String.eqb (Py.lower new_name) "unknown")
            && negb (Py.is_phone_like (Py.replace " " "" new_name))
         then
           let* contact_id := lift (dict_item call_state "contact_id") in
           Freshdesk.update_contact_name env contact_id new_name >>
           lift (dict_set call_state "contact_name" (VStr new_name)) >>
           lift (App.set_call_state call_uuid call_state)
         else ret tt) >>
        ret (Py.strip (Py.sub (Py.tag "[ACTION: UPDATE_NAME: " Py.is_dot 0) "" ai_response))
      else ret ai_response
  | None => ret ai_response
  end.

(** 3d, 3e: a literal tag, and the reply without it. *)
Definition detect_literal (tag ai_response : string) : bool * string :=
  if Py.contains tag ai_response
  then (true, Py.strip (Py.replace tag "" ai_response))
  else (false, ai_response).

(** 3f: the number a transfer tag resolves to. *)
Definition resolve_target (raw_number : option string) : string :=
  match raw_number with
  | Some raw =>
      let clean_number := Py.only_digits raw in
      if (7 <=? Py.len clean_number)%nat then clean_number else AGENT_NUMBER
  | None => AGENT_NUMBER
  end.

(** "Build Response": what follows the talk action. *)
Definition build_ncco (call_state : loc) (ai_response : string)
    (transfer : option string) (should_hangup should_wait : bool) : M World (list Action) :=
  match transfer with
  | Some target_number =>
      let formatted_target := Telephony.e164 target_number in
      let* formatted_from :=
        lift (dict_get_default call_state "bot_number" (VStr AGENT_NUMBER)) in
      ret [Talk ai_response false;
           Connect formatted_from formatted_target 60 (PUBLIC_URL ++ "/voice/events")]
  | None =>
      if should_hangup then ret [Talk ai_response true; Hangup]
      else
        let* history := lift (dict_get_default call_state "history" (VHist [])) in
        let* first := is_first_response history in
        let silence_threshold : N :=
          (if should_wait then 50 else if first then 15 else 12)%N in
        ret [Talk ai_response true; listen silence_threshold]
  end.

(** 3f: the transfer tag; the flag in the call's dict; the reply without
    the tag. *)
Definition detect_transfer (call_uuid : string) (call_state : loc)
    (ai_response : string) : M World (option string * string) :=
  match Py.search Py.transfer_tag ai_response with
  | Some raw_number =>
      lift (dict_set call_state "transfer_requested" (VBool true)) >>
      lift (App.set_call_state call_uuid call_state) >>
      ret (Some (resolve_target raw_number),
           Py.strip (Py.sub Py.transfer_tag "" ai_response))
  | None => ret (None, ai_response)
  end.

(** Lines 555-609: the reply goes into the transcript, then its sentiment,
    ticket and name tags are acted on and removed. *)
Definition apply_tags (call_uuid : string) (call_state : loc) (ai_response : string)
    : M World string :=
  lift (App.append_history call_uuid "assistant" ai_response) >>
  let* ai_response := detect_sentiment call_uuid call_state ai_response in
  let* ai_response := detect_create_ticket call_uuid call_state ai_response in
  let* ai_response := detect_use_ticket call_uuid call_state ai_response in
  let* ai_response := detect_resolve_ticket ai_response in
  detect_update_name call_uuid call_state ai_response.

(** Lines 611-692: hang up, wait or transfer, and the response built from
    them. *)
Definition route (call_uuid : string) (call_state : loc) (ai_response : string)
    : M World (list Action) :=
  let '(should_hangup, ai_response) := detect_literal "[ACTION: HANGUP]" ai_response in
  let '(should_wait, ai_response) := detect_literal "[ACTION: WAIT]" ai_response in
  let* found := detect_transfer call_uuid call_state ai_response in
  build_ncco call_state (snd found) (fst found) should_hangup should_wait.

(** Lines 526-552: the knowledge-base lookup and the generation call. *)
Definition generate (call_state : loc) (speech_text : string) : M World string :=
  let query_clean := Py.only_words_and_spaces (Py.strip (Py.lower speech_text)) in
  let* kb := if (Py.len speech_text <? 10)%nat || mem_str query_clean confirmations
             then ret ""
             else fetch_combined_knowledge speech_text in
  let* active_id := lift (dict_get call_state "ticket_id") in
  let* history := lift (dict_item call_state "history") in
  let* contact_name := lift (dict_get call_state "contact_name") in
  let* recent_tickets := lift (dict_get_default call_state "recent_tickets" (VTickets [])) in
  let* phone := lift (dict_get call_state "phone") in
  Groq.agent_response env speech_text kb history contact_name
                      recent_tickets active_id phone.

(** Lines 526-698: generation, the tags of the reply, the response. *)
Definition respond (call_uuid : string) (call_state : loc) (speech_text : string)
    : M World Response :=
  let* ai_response := generate call_state speech_text in
  let* ai_response := apply_tags call_uuid call_state ai_response in
  let* ncco := route call_uuid call_state ai_response in
  release call_uuid call_state >>
  ret (Json 200 ncco).

(** "3. Synchronous Pipeline": the [try] block and its handler. *)
Definition pipeline (call_uuid : string) (call_state : loc) (speech_text : string)
    : M World Response :=
  try_except
    (lift (App.append_history call_uuid "user" speech_text) >>
     if mem_str speech_text asr_error_tags then
       release call_uuid call_state >>
       ret (Json 200 [Talk asr_apology true; listen 15])
     else respond call_uuid call_state speech_text)
    (fun _ =>
       release call_uuid call_state >>
       ret (Json 200 [Talk pipeline_apology true; listen 15])).

(** The loop that waits for the background lookup: at most 25 naps of
    0.1 s, the dict fetched again after each. *)
Fixpoint wait_for_lookup (naps : nat) (call_uuid : string) (call_state : loc)
    : M World loc :=
  match naps with
  | 0 => ret call_state
  | S naps' =>
      let* lookup_done := lift (dict_get call_state "lookup_done") in
      if truthy lookup_done then ret call_state
      else
        await env (Sleep 100) >>
        let* call_state := lift (App.get_call_state call_uuid) in
        wait_for_lookup naps' call_uuid call_state
  end.

(** [if not call_state]: an empty dict. *)
Definition dict_is_empty (l : loc) : M ConversationState bool :=
  fun σ => match objs σ !! l with
           | Some d => (Ret (bool_decide (d = ∅)), σ)
           | None => (Raise Dangling, σ)
           end.

(** Lines 438-709: the turn, once the guard has let it in. *)
Definition turn (data : AsrRequest) (call_state : loc) : M World Response :=
  let* speech_text := transcribe data in
  let speech_text := filter_noise speech_text in
  pipeline (asr_uuid data) call_state speech_text.

(** Lines 424-436: the wait for the lookup and the [processing] guard. *)
Definition enter_turn (call_uuid : string) (call_state : loc) : M World (option loc) :=
  let* call_state := wait_for_lookup 25 call_uuid call_state in
  let* processing := lift (dict_get call_state "processing") in
  if truthy processing then ret None
  else
    lift (dict_set call_state "processing" (VBool true)) >>
    lift (App.set_call_state call_uuid call_state) >>
    ret (Some call_state).

Definition handle_voice_asr (data : AsrRequest) : M World Response :=
  let call_uuid := asr_uuid data in
  let* call_state := lift (App.get_call_state call_uuid) in
  let* empty := lift (dict_is_empty call_state) in
  if empty then ret (JsonError 404 "No session")
  else
    let* entered := enter_turn call_uuid call_state in
    match entered with
    | None => ret (Json 200 [])
    | Some call_state => turn data call_state
    end.

(** [background_freshdesk_lookup], the part inside [try]: the update of the
    call's dict, when a contact with an id was found or created. *)
Definition lookup_contact (from_number : string)
    : M World (option (Val * Val * Val)) :=
  try_except
    (let* contact := Freshdesk.search_contact_by_phone env from_number in
     let* contact :=
       if bool_decide (contact = ∅) || negb (truthy (default VNone (contact !! "id")))
       then Freshdesk.create_contact env from_number (VStr from_number)
       else ret contact in
     if negb (bool_decide (contact = ∅)) && truthy (default VNone (contact !! "id")) then
       let name := default VNone (contact !! "name") in
       let* valid := is_valid_name_val name in
       let contact_name := if valid then name else VNone in
       let* recent_tickets :=
         Freshdesk.get_latest_tickets env (default VNone (contact !! "id")) in
       ret (Some (default VNone (contact !! "id"), contact_name, recent_tickets))
     else ret None)
    (fun _ => ret None).

Definition background_freshdesk_lookup (call_uuid from_number : string) : M World unit :=
  let* call_state_update := lookup_contact from_number in
  let* call_state := lift (App.get_call_state call_uuid) in
  let* empty := lift (dict_is_empty call_state) in
  if empty then ret tt
  else
    match call_state_update with
    | Some (contact_id, contact_name, recent_tickets) =>
        lift (dict_set call_state "contact_id" contact_id) >>
        lift (dict_set call_state "contact_name" contact_name) >>
        lift (dict_set call_state "recent_tickets" recent_tickets)
    | None => ret tt
    end >>
    lift (dict_set call_state "lookup_done" (VBool true)) >>
    lift (App.set_call_state call_uuid call_state).

(** The greeting [handle_voice_answer] chooses from the name it finds in the
    call's dict after the short wait. *)
Definition greeting_for {S} (raw_name : Val) : M S string :=
  let* valid := is_valid_name_val raw_name in
  match raw_name with
  | VStr n => ret (if valid then personal_greeting n else generic_greeting)
  | _ => ret generic_greeting
  end.

(** [a or b or dflt] on optional strings. *)
Definition first_nonempty (a b : option string) (dflt : string) : string :=
  match a with
  | Some x => if String.eqb x "" then
                match b with
                | Some y => if String.eqb y "" then dflt else y
                | None => dflt
                end
              else x
  | None => match b with
            | Some y => if String.eqb y "" then dflt else y
            | None => dflt
            end
  end.

Definition answer_dict (from_number to_number : string) (region_url : Val)
    : gmap string Val :=
  <["history" := VHist []]>
  (<["processing" := VBool false]>
  (<["ticket_id" := VNone]>
  (<["phone" := VStr from_number]>
  (<["bot_number" := VStr to_number]>
  (<["contact_name" := VNone]>
  (<["recent_tickets" := VTickets []]>
  (<["lookup_done" := VBool false]>
  (<["region_url" := region_url]> ∅)))))))).

Definition handle_voice_answer (data : AnswerRequest) : M World Response :=
  try_except
    (let call_uuid := first_nonempty (ans_uuid data) (ans_conversation_uuid data) "test" in
     let from_number :=
       match ans_from data with
       | FromStr n => if String.eqb n "" then "unknown" else n
       | FromDict (Some n) => n
       | FromDict None => "unknown"
       | FromAbsent => "unknown"
       end in
     let to_number := first_nonempty (ans_to data) None "unknown" in
     let region_url := ans_region_url data in
     let* fresh_dict := lift (alloc (answer_dict from_number to_number region_url)) in
     lift (App.set_call_state call_uuid fresh_dict) >>
     let* greeting :=
       if negb (String.eqb from_number "unknown") && (5 <? Py.len from_number)%nat then
         try_except
           (let* done := try_except
                           (let* r := await env (WaitForTask 400) in
                            match r with RVal (VBool b) => ret (Some b) | _ => ret (Some false) end)
                           (fun _ => ret None) in
            match done with
            | Some true =>
                try_except (background_freshdesk_lookup call_uuid from_number)
                           (fun _ => ret tt)
            | _ => spawn (BackgroundFreshdeskLookup call_uuid from_number)
            end >>
            match done with
            | None => raise (External "wait")
            | Some _ =>
                let* cs := lift (App.get_call_state call_uuid) in
                let* empty := lift (dict_is_empty cs) in
                if empty then ret generic_greeting
                else
                  let* raw_name := lift (dict_get_default cs "contact_name" (VStr "")) in
                  greeting_for raw_name
            end)
           (fun _ => ret generic_greeting)
       else
         let* cs := lift (App.get_call_state call_uuid) in
         lift (dict_set cs "lookup_done" (VBool true)) >>
         lift (App.set_call_state call_uuid cs) >>
         ret generic_greeting in
     lift (App.append_history call_uuid "assistant" greeting) >>
     let ws_url := Py.replace "http" "ws" PUBLIC_URL ++ "/voice/stream" in
     ret (Json 200 [Talk greeting false; ConnectWebsocket ws_url call_uuid]))
    (fun _ => ret (JsonError 500 "error")).

End WithEnv.
End Voice.


(** What a call's dict holds under a key, if the call has a dict. *)
Definition field (σ : ConversationState) (call_uuid key : string) : option Val :=
  match calls σ !! call_uuid with
  | Some l => match objs σ !! l with
              | Some d => d !! key
              | None => None
              end
  | None => None
  end.

(** The requests made since the log had [n] entries. *)
Definition calls_since (n : nat) (w : World) : list Call :=
  map ev_call (drop n (log w)).


(** ** Worlds and environments of the examples *)

(** A call that was answered: the dict [handle_voice_answer] stores, after a
    lookup that found nothing. *)
Definition answered_dict : gmap string Val :=
  <["lookup_done" := VBool true]>
    (Voice.answer_dict "+15551234567" "12025550100" VNone).

Definition answered_world : World :=
  mkWorld (mkState {[0 := answered_dict]} {["call-1" := 0]}) false true
          (VStr "call-1") [] [].

Definition no_config : Config := mkConfig None None.

(** Every collaborator answers [None]. *)
Definition silent_env : Env := fun _ _ => Ret (RVal VNone).




(** A reply that asks for both a transfer and a hang-up. *)
Definition transfer_and_hangup : string :=
  "Connecting you now. [ACTION: TRANSFER: 12025550199] Goodbye. [ACTION: HANGUP]".


(** A call with a ticket attached and a named contact. *)
Definition ticketed_dict : gmap string Val :=
  <["ticket_id" := VStr "101"]>
  (<["contact_id" := VInt 7]>
  (<["contact_name" := VStr "Alice"]> answered_dict)).

Definition ticketed_world : World :=
  mkWorld (mkState {[0 := ticketed_dict]} {["call-1" := 0]}) false true
          (VStr "call-1") [] [].

(** The helpdesk creates ticket 202 and accepts every other request; the
    model answers with a ticket-creation tag. *)
Definition helpdesk_env : Env := fun _ c =>
  match c with
  | CreateTicketHttp _ _ _ _ _ => Ret (RVal (VStr "202"))
  | UpdateTicketStatusHttp _ _ | UpdateContactNameHttp _ _ => Ret (RVal (VBool true))
  | TranscribeWhisper _ => Ret (RVal (VStr "my printer is jammed again"))
  | AgentResponse _ _ _ _ _ _ _ =>
      Ret (RVal (VStr "Let me look into that. [ACTION: CREATE_TICKET: printer jam]"))
  | _ => Ret (RVal VNone)
  end.


(** Two action tags: a resolution whose id is not a number, then the adoption
    of ticket 55. *)
Definition bad_resolve_then_use : list (string * string) :=
  [("ACTION", "RESOLVE_TICKET: abc"); ("ACTION", "USE_TICKET: 55")].

(** The helpdesk knows the caller as contact 7 under the given name, and the
    lookup finishes within the short wait. *)
Definition contact_env (name : Val) : Env := fun _ c =>
  match c with
  | SearchContactHttp _ => Ret (RDict (<["id" := VInt 7]> (<["name" := name]> ∅)))
  | WaitForTask _ => Ret (RVal (VBool true))
  | _ => Ret (RVal VNone)
  end.

(** The answer webhook of a call from +1 555 123 4567. *)
Definition answer_request : AnswerRequest :=
  mkAnswer (Some "call-1") None (FromStr "15551234567") (Some "18005550100") VNone.

(** The greeting of an answer. *)
Definition spoken (r : Outcome Response) : option string :=
  match r with
  | Ret (Json _ (Talk text _ :: _)) => Some text
  | _ => None
  end.


(** The same call in the middle of a batch turn: [processing] is set in its
    dict, the flag of the streaming module is down.  And in the middle of a
    streaming turn: the module's flag is up, [processing] is not set. *)
Definition batch_busy_world : World :=
  mkWorld (mkState {[0 := <["processing" := VBool true]> ticketed_dict]}
                   {["call-1" := 0]})
          false true (VStr "call-1") [] [].

Definition streaming_busy_world : World :=
  mkWorld (mkState {[0 := ticketed_dict]} {["call-1" := 0]}) true true
          (VStr "call-1") [] [].

(** An ASR webhook of that call, with audio. *)
Definition turn_request : AsrRequest := mkAsr "call-1" (VStr "UklGRg==") VNone.


(** ** The event webhook ([handle_voice_events]) *)

(** The JSON body of an event webhook, as far as the handler reads it:
    [status] and [type] when the body has those keys, and the two ids. *)
Record EventRequest := mkEventRequest {
  evt_status : option Val;
  evt_type : option Val;
  evt_uuid : option string;
  evt_conversation_uuid : option string
}.

Module VoiceEvents.

(** [data.get('status', data.get('type', 'unknown'))] *)
Definition status_of (data : EventRequest) : Val :=
  match evt_status data with
  | Some v => v
  | None => match evt_type data with
            | Some v => v
            | None => VStr "unknown"
            end
  end.

(** [data.get("uuid") or data.get("conversation_uuid")], when it is truthy. *)
Definition call_uuid_of (data : EventRequest) : option string :=
  match evt_uuid data with
  | Some x => if String.eqb x "" then
                match evt_conversation_uuid data with
                | Some y => if String.eqb y "" then None else Some y
                | None => None
                end
              else Some x
  | None => match evt_conversation_uuid data with
            | Some y => if String.eqb y "" then None else Some y
            | None => None
            end
  end.

(** [status == "unknown" or "connection" in status]: a substring test on a
    string, a membership test on a list, [TypeError] on [None], a number or
    a boolean. *)
Definition is_debug_event {S} (status : Val) : M S bool :=
  match status with
  | VStr s => ret (String.eqb s "unknown" || Py.contains "connection" s)
  | VHist _ | VTickets _ => ret false
  | VNone | VBool _ | VInt _ => raise TypeError
  end.

(** The task records the ticket id as the call's dict holds it; the
    coroutine is started on [str] of it. *)
Definition handle_voice_events (data : EventRequest) : M World Response :=
  try_except
    (let status := status_of data in
     let call_uuid := call_uuid_of data in
     let* _ := is_debug_event status in
     match status, call_uuid with
     | VStr s, Some call_uuid =>
         if String.eqb s "completed" then
           let* call_state := lift (App.get_call_state call_uuid) in
           let* empty := lift (Voice.dict_is_empty call_state) in
           if empty then ret tt
           else
             lift (dict_set call_state "status" (VStr "completed")) >>
             lift (App.set_call_state call_uuid call_state) >>
             let* ticket_id := lift (dict_get call_state "ticket_id") in
             if truthy ticket_id then
               let* ticket_id := lift (dict_get call_state "ticket_id") in
               let* history := lift (dict_get_default call_state "history" (VHist [])) in
               spawn (AddTicketNote ticket_id history)
             else ret tt
         else ret tt
     | _, _ => ret tt
     end)
    (fun _ => ret tt) >>
  ret (Json 200 []).

End VoiceEvents.

(** The call of the examples is over. *)
Definition completed_event : EventRequest :=
  mkEventRequest (Some (VStr "completed")) None (Some "call-1") None.


(** ** The older agent's webhooks ([voice-agent/app/voice.py])

    The handlers of the older agent, on its own store ([VoiceAgent]).  Its
    collaborators are the transcription service, the two knowledge searches
    (one request here, for the search term both are given) and the chat
    completion, which has no arguments about the caller. *)

Module PyText.

(** [s.split()]: the maximal runs of characters that are not white space. *)
Fixpoint split_chars (cur s : list ascii) : list (list ascii) :=
  match s with
  | [] => match cur with [] => [] | _ => [rev cur] end
  | c :: s' =>
      if Py.is_space c then
        match cur with
        | [] => split_chars [] s'
        | _ => rev cur :: split_chars [] s'
        end
      else split_chars (c :: cur) s'
  end.

Definition split (s : string) : list string :=
  map Py.str (split_chars [] (Py.chars s)).

(** [sep.join(l)] *)
Fixpoint join (sep : string) (l : list string) : string :=
  match l with
  | [] => ""
  | [x] => x
  | x :: l' => x ++ sep ++ join sep l'
  end.

(** [len(s)] in characters: a text is kept as its UTF-8 bytes, and a
    character is one byte that is not a continuation byte ([10xxxxxx])
    followed by continuation bytes. *)
Definition is_continuation (c : ascii) : bool := Py.between 128 191 c.

Definition len (s : string) : nat :=
  length (filter (fun c => negb (is_continuation c)) (Py.chars s)).

(** The white space of Python text beyond ASCII, in UTF-8: U+0085 and
    U+00A0 in two bytes; U+1680, U+2000..U+200A, U+2028, U+2029, U+202F,
    U+205F and U+3000 in three. *)
Definition is_space2 (a b : ascii) : bool :=
  ((Py.code a =? 194) && ((Py.code b =? 133) || (Py.code b =? 160)))%N.

Definition is_space3 (a b c : ascii) : bool :=
  (((Py.code a =? 225) && (Py.code b =? 154) && (Py.code c =? 128))
   || ((Py.code a =? 226) && (Py.code b =? 128)
       && (Py.between 128 138 c || (Py.code c =? 168) || (Py.code c =? 169)
           || (Py.code c =? 175)))
   || ((Py.code a =? 226) && (Py.code b =? 129) && (Py.code c =? 159))
   || ((Py.code a =? 227) && (Py.code b =? 128) && (Py.code c =? 128)))%N.

(** [s.lstrip()] *)
Fixpoint lstrip_chars (l : list ascii) : list ascii :=
  match l with
  | c1 :: l1 =>
      if Py.is_space c1 then lstrip_chars l1
      else match l1 with
           | c2 :: l2 =>
               if is_space2 c1 c2 then lstrip_chars l2
               else match l2 with
                    | c3 :: l3 => if is_space3 c1 c2 c3 then lstrip_chars l3 else l
                    | [] => l
                    end
           | [] => l
           end
  | [] => []
  end.

(** [s.rstrip()], on the text from its last byte to its first. *)
Fixpoint rstrip_rev (l : list ascii) : list ascii :=
  match l with
  | c1 :: l1 =>
      if Py.is_space c1 then rstrip_rev l1
      else match l1 with
           | c2 :: l2 =>
               if is_space2 c2 c1 then rstrip_rev l2
               else match l2 with
                    | c3 :: l3 => if is_space3 c3 c2 c1 then rstrip_rev l3 else l
                    | [] => l
                    end
           | [] => l
           end
  | [] => []
  end.

(** [s.strip()] *)
Definition strip (s : string) : string :=
  Py.str (rev (rstrip_rev (rev (lstrip_chars (Py.chars s))))).

End PyText.

(** The [speech] field of an ASR webhook, as the slow path reads it:
    [speech.results[0].text]. *)
Inductive SpeechField :=
| SpeechAbsent
| SpeechText (text : string)
| SpeechMalformed.

(** The body of an ASR webhook.  [data.get("uuid")] is the call id, a
    string, or [None] for a body without [uuid]. *)
Record AgentAsrRequest := mkAgentAsr {
  agent_asr_uuid : option string;
  agent_asr_audio : Val;
  agent_asr_speech : SpeechField
}.

Module VoiceAgentVoice.
Section WithEnv.
Variable env : Env.
(** Whether [_get_client()] yields a client. *)
Variable client : bool.

Definition PUBLIC_URL : string :=
  "https://carpogonial-candace-nonjuridically.ngrok-free.dev".

Definition listen (endOnSilence : N) : Action :=
  Input (PUBLIC_URL ++ "/voice/asr") endOnSilence.

Definition didnt_catch : string := "I didn't catch that. Could you repeat?".
Definition pipeline_apology : string := "I encountered an error. Could you repeat that?".
Definition greeting : string := "Sandeza support. How can I help?".

(** [groq.py] of the older agent. *)
Definition transcribe_whisper (audio_data : Val) : M World (option string) :=
  if negb (truthy audio_data) then ret None
  else if negb client then ret None
  else
    try_except
      (let* r := await env (TranscribeWhisper audio_data) in
       match r with
       | RVal (VStr transcript) =>
           let text := PyText.strip transcript in
           ret (if (1 <? PyText.len text)%nat then Some text else None)
       | _ => raise TypeError
       end)
      (fun _ => ret None).

(** The request carries [history[-6:]]. *)
Definition agent_response (issue kb : string) (history : Val) : M World string :=
  if negb client then ret "Let me check. Clear cache. Does that work?"
  else
    match history with
    | VHist turns =>
        try_except
          (let* r := await env (AgentResponse issue kb (VHist (Py.last_n 6 turns))
                                              VNone (VTickets []) VNone VNone) in
           match r with
           | RVal (VStr response) => ret (PyText.strip response)
           | _ => raise TypeError
           end)
          (fun _ => ret "Let me help troubleshoot. Try clearing cache first. Does that work?")
    | _ => raise TypeError
    end.

(** The words of the query longer than two characters, the first six of
    them.  Lower case, [\w], [\s] and the length of a word are those of
    ASCII here: the term is the code's for an ASCII query. *)
Definition search_term (query : string) : string :=
  let words := PyText.split (Py.only_words_and_spaces (Py.lower query)) in
  let words := take 6 (filter (fun w => 2 < Py.len w) words) in
  PyText.join " " words.

Definition fetch_combined_knowledge (query : string) : M World string :=
  if String.eqb (PyText.strip query) "" then ret ""
  else
    try_except
      (let* r := await env (FetchCombinedKnowledge (search_term query)) in
       match r with RVal (VStr kb) => ret kb | _ => ret "" end)
      (fun _ => ret "").

(** [f"TICKET-{call_id[:8].upper()}"]; no request is made.  [None] has no
    slice. *)
Definition create_ticket (call_id : option string) (issue : string) (phone : Val)
    : M World string :=
  match call_id with
  | Some call_id => ret ("TICKET-" ++ Py.upper (Py.str (take 8 (Py.chars call_id))))
  | None => raise TypeError
  end.

(** The key of the store for a call id.  The store of the older agent is a
    dict whose keys are call ids or [None]: a call id is its own key here,
    and [None] is kept under the byte 255, which no text contains. *)
Definition store_key (call_uuid : option string) : string :=
  match call_uuid with
  | Some call_uuid => call_uuid
  | None => String (Ascii.ascii_of_N 255) EmptyString
  end.

(** [not speech_text] *)
Definition heard_nothing (speech_text : option string) : bool :=
  match speech_text with
  | Some t => String.eqb t ""
  | None => true
  end.

(** "1. Parse Speech": the transcription of the audio, or else the text of
    the telephony service; an exception leaves [speech_text] as it is. *)
Definition parse_speech (data : AgentAsrRequest) : M World (option string) :=
  let* fast :=
    try_except
      (let* speech_text :=
         if truthy (agent_asr_audio data)
         then transcribe_whisper (agent_asr_audio data)
         else ret (Some "") in
       ret (Some speech_text))
      (fun _ => ret None) in
  match fast with
  | None => ret (Some "")
  | Some speech_text =>
      if heard_nothing speech_text then
        try_except
          (match agent_asr_speech data with
           | SpeechAbsent => ret speech_text
           | SpeechText text =>
               if String.eqb text "" then ret speech_text
               else ret (Some (PyText.strip text))
           | SpeechMalformed => raise AttributeError
           end)
          (fun _ => ret speech_text)
      else ret speech_text
  end.

Definition release (call_uuid : string) (call_state : loc) : M World unit :=
  lift (dict_set call_state "processing" (VBool false)) >>
  lift (VoiceAgent.set_call_state call_uuid call_state).

(** "3. Synchronous Pipeline": what the agent says. *)
Definition pipeline (call_uuid : option string) (call_state : loc) (speech_text : string)
    : M World string :=
  try_except
    (lift (VoiceAgent.append_history (store_key call_uuid) "user" speech_text) >>
     let* kb := fetch_combined_knowledge speech_text in
     let* history := lift (dict_item call_state "history") in
     let* ai_response := agent_response speech_text kb history in
     lift (VoiceAgent.append_history (store_key call_uuid) "assistant" ai_response) >>
     let* phone := lift (dict_get call_state "phone") in
     create_ticket call_uuid speech_text phone >>
     ret ai_response)
    (fun _ => ret pipeline_apology).

(** Lines 92-149: the turn, once the guard has let it in. *)
Definition turn (call_uuid : option string) (call_state : loc) (data : AgentAsrRequest)
    : M World Response :=
  let* speech_text := parse_speech data in
  match speech_text with
  | Some t =>
      if String.eqb t "" || (PyText.len t <? 2)%nat then
        release (store_key call_uuid) call_state >>
        ret (Json 200 [Talk didnt_catch true; listen 12])
      else
        let* ai_response := pipeline call_uuid call_state t in
        release (store_key call_uuid) call_state >>
        ret (Json 200 [Talk ai_response true; listen 15])
  | None =>
      release (store_key call_uuid) call_state >>
      ret (Json 200 [Talk didnt_catch true; listen 12])
  end.

Definition handle_voice_asr (data : AgentAsrRequest) : M World Response :=
  let call_uuid := agent_asr_uuid data in
  let* call_state := lift (VoiceAgent.get_call_state (store_key call_uuid)) in
  let* processing := lift (dict_get call_state "processing") in
  if truthy processing then ret (Json 200 [])
  else
    lift (dict_set call_state "processing" (VBool true)) >>
    lift (VoiceAgent.set_call_state (store_key call_uuid) call_state) >>
    turn call_uuid call_state data.

(** The dict [handle_voice_answer] stores for the call. *)
Definition answer_dict (from_number : string) : gmap string Val :=
  <["history" := VHist []]>
  (<["processing" := VBool false]>
  (<["ticket_id" := VNone]>
  (<["phone" := VStr from_number]> ∅))).

(** [data.get("uuid") or data.get("conversation_uuid", "test")] *)
Definition answer_call_uuid (data : AnswerRequest) : string :=
  let conversation_uuid := default "test" (ans_conversation_uuid data) in
  match ans_uuid data with
  | Some u => if String.eqb u "" then conversation_uuid else u
  | None => conversation_uuid
  end.

(** [data.get("from", {}).get("number", "unknown")]: a [from] that is a
    string has no [get]. *)
Definition handle_voice_answer (data : AnswerRequest) : M World Response :=
  let call_uuid := answer_call_uuid data in
  let* from_number :=
    match ans_from data with
    | FromAbsent => ret "unknown"
    | FromDict (Some n) => ret n
    | FromDict None => ret "unknown"
    | FromStr _ => raise AttributeError
    end in
  let* fresh_dict := lift (alloc (answer_dict from_number)) in
  lift (VoiceAgent.set_call_state call_uuid fresh_dict) >>
  ret (Json 200 [Talk greeting true; listen 12]).

End WithEnv.
End VoiceAgentVoice.


(** A call the older agent answered, and an ASR webhook for it that carries
    the text of the telephony service. *)
Definition older_world : World :=
  mkWorld (mkState {[0 := VoiceAgentVoice.answer_dict "15551234567"]} {["call-1" := 0]})
          false false VNone [] [].

Definition older_request : AgentAsrRequest :=
  mkAgentAsr (Some "call-1") VNone (SpeechText " my printer is jammed ").

(** The same call taken under no call id, and an ASR webhook without
    [uuid]. *)
Definition nameless_world : World :=
  mkWorld (mkState {[0 := VoiceAgentVoice.answer_dict "15551234567"]}
                   {[VoiceAgentVoice.store_key None := 0]})
          false false VNone [] [].

Definition nameless_request : AgentAsrRequest :=
  mkAgentAsr None VNone (SpeechText " my printer is jammed ").

(** An answer webhook whose [from] is a string. *)
Definition answer_from_string : AnswerRequest :=
  mkAnswer (Some "call-1") None (FromStr "15551234567") None VNone.


(** A reply's tags that open a ticket and give the caller's name. *)
Definition ticket_and_name : list (string * string) :=
  [("ACTION", "CREATE_TICKET: printer jam"); ("ACTION", "UPDATE_NAME: Bob")].


(** The model answers every turn with [transfer_and_hangup]. *)
Definition transfer_env : Env := fun _ c =>
  match c with
  | AgentResponse _ _ _ _ _ _ _ => Ret (RVal (VStr transfer_and_hangup))
  | _ => Ret (RVal VNone)
  end.




(** * The vocabulary of the statements *)

Section Vocabulary.
Local Open Scope list_scope.

(** [m], started in a state of [P], ends in a state of [Q] with its result,
    or of [R] with its exception. *)
Definition triple {S A} (P : S -> Prop) (m : M S A)
    (Q : A -> S -> Prop) (R : Exn -> S -> Prop) : Prop :=
  forall s, P s ->
    match m s with
    | (Ret a, s') => Q a s'
    | (Raise e, s') => R e s'
    end.

(** [m] keeps the invariant [I], and its result has [φ]. *)
Definition keeps {S A} (I : S -> Prop) (m : M S A) (φ : A -> Prop) : Prop :=
  triple I m (fun a s => I s /\ φ a) (fun _ s => I s).

(** The world after [d] is written to the dict object at [l]; after a
    suspension on the request [c], which is logged with the store and the
    flag of that moment; after the task [t] is scheduled. *)
Definition world_set (l : loc) (d : gmap string Val) (w : World) : World :=
  with_state (mkState (<[l := d]> (objs (call_state w))) (calls (call_state w))) w.

Definition world_await (c : Call) (w : World) : World :=
  mkWorld (call_state w) (_processing_ai w) (_main_loop_running w)
          (_current_call_uuid w) (tasks w)
          (log w ++ [mkEvent c (call_state w) (_processing_ai w)]).

Definition world_spawn (t : Task) (w : World) : World :=
  mkWorld (call_state w) (_processing_ai w) (_main_loop_running w)
          (_current_call_uuid w) (tasks w ++ [t]) (log w).

(** An invariant of a turn on one call: under [I] the call id refers to the
    dict at [l], and [I] survives a write of a key of [K] into that dict, a
    suspension and the scheduling of a task. *)
Class SessionInv (call_uuid : string) (l : loc) (K : list string)
    (I : World -> Prop) : Prop := {
  inv_bound : forall w, I w -> calls (call_state w) !! call_uuid = Some l;
  inv_set : forall w d k v,
      I w -> objs (call_state w) !! l = Some d -> k ∈ K ->
      I (world_set l (<[k := v]> d) w);
  inv_await : forall w c, I w -> I (world_await c w);
  inv_spawn : forall w t, I w -> I (world_spawn t w)
}.

(** The keys a turn writes besides [processing]. *)
Definition pipeline_keys : list string :=
  ["history"; "sentiment"; "ticket_id"; "contact_name"; "transfer_requested"].

(** The call id refers to the dict object at [l], which holds [d]. *)
Definition bound (call_uuid : string) (l : loc) (d : gmap string Val) (w : World) : Prop :=
  calls (call_state w) !! call_uuid = Some l /\ objs (call_state w) !! l = Some d.

(** What was logged stays logged. *)
Definition logged_since (L : list Event) (call_uuid : string) (l : loc) (w : World) : Prop :=
  L `prefix_of` log w /\ calls (call_state w) !! call_uuid = Some l.






(** What [create_ticket] answers: the id the helpdesk returned, if any. *)
Definition created_id (r : Outcome Reply) : Val :=
  match r with
  | Ret (RVal (VStr ticket_id)) => if String.eqb ticket_id "" then VNone else VStr ticket_id
  | _ => VNone
  end.

(** The greeting is the generic one, or names somebody whose name passed
    the test. *)
Definition greeting_ok (g : string) : Prop :=
  g = Voice.generic_greeting
  \/ exists m, Voice.is_valid_name m = true /\ g = Voice.personal_greeting m.

(** What the lookup hands over as the contact's name: nothing, or a name that
    passed the test. *)
Definition name_ok (contact_name : Val) : Prop :=
  contact_name = VNone
  \/ exists m, Voice.is_valid_name m = true /\ contact_name = VStr m.

(** The store says [processing] for the call. *)
Definition processing_at (call_uuid : string) (σ : ConversationState) : Prop :=
  field σ call_uuid "processing" = Some (VBool true).

(** A turn is in flight: the call's dict has [processing] true, and so it
    had at every suspension logged from position [n] on. *)
Definition in_flight (n : nat) (call_uuid : string) (l : loc) (w : World) : Prop :=
  calls (call_state w) !! call_uuid = Some l
  /\ (exists d, objs (call_state w) !! l = Some d
                /\ d !! "processing" = Some (VBool true))
  /\ Forall (fun ev => processing_at call_uuid (ev_state ev)) (drop n (log w)).

(** The turn is over: [processing] is false again, and it was true at every
    suspension logged from position [n] on. *)
Definition released (n : nat) (call_uuid : string) (w : World) : Prop :=
  field (call_state w) call_uuid "processing" = Some (VBool false)
  /\ Forall (fun ev => processing_at call_uuid (ev_state ev)) (drop n (log w)).

(** [k] naps of the loop that waits for the lookup. *)
Fixpoint napped (k : nat) (w : World) : World :=
  match k with
  | 0 => w
  | S k' => napped k' (world_await (Sleep 100) w)
  end.

(** What [k] naps add to the log. *)
Definition naps (k : nat) (w : World) : list Event :=
  replicate k (mkEvent (Sleep 100) (call_state w) (_processing_ai w)).

(** [asyncio.sleep] returns. *)
Definition sleeps_return (env : Env) : Prop :=
  forall L ms, exists r, env L (Sleep ms) = Ret r.

(** How often the ASR handler naps when nothing else runs: not at all once
    the lookup is done, 25 times otherwise. *)
Definition lookup_naps (d : gmap string Val) : nat :=
  if truthy (default VNone (d !! "lookup_done")) then 0 else 25.

(** The streaming pipeline is busy: the module's flag is up, and so it was
    at every suspension logged after [L]. *)
Definition ai_busy (L : list Event) (w : World) : Prop :=
  _processing_ai w = true
  /\ exists work, log w = L ++ work
                  /\ Forall (fun ev => ev_processing_ai ev = true) work.

(** What an event adds to the utterance: the trimmed text and a blank, for a
    final result with something in it. *)
Definition heard (e : Streamer.Event) : string :=
  match e with
  | Streamer.Recv r =>
      match Streamer.transcript r with
      | Some tr => if Streamer.is_final r && negb (String.eqb (Py.strip tr) "")
                   then (Py.strip tr ++ " ")%string else ""
      | None => ""
      end
  | Streamer.Elapse _ => ""
  end.

Definition heard_all (es : list Streamer.Event) : string :=
  fold_right (fun e acc => (heard e ++ acc)%string) "" es.

(** The transcripts handed to the speech-ended callback, one after the
    other. *)
Definition said (out : list Streamer.Signal) : string :=
  fold_right (fun sig acc => match sig with
                             | Streamer.SpeechEnded u => (u ++ acc)%string
                             | Streamer.BargeIn => acc
                             end) "" out.

(** An interim result long enough to interrupt the agent. *)
Definition interrupts (e : Streamer.Event) : Prop :=
  exists tr, e = Streamer.interim tr /\ 3 < Py.len (Py.strip tr).

(** The call [b] has the dict object [lb], which holds [db], and the call
    [a] does not share that object. *)
Definition apart (a b : string) (lb : loc) (db : gmap string Val)
    (σ : ConversationState) : Prop :=
  calls σ !! b = Some lb /\ objs σ !! lb = Some db /\ calls σ !! a <> Some lb.

(** The actions a turn answers with: the talk action and what follows it. *)
Definition turn_actions (cfg : Config) (ncco : list Action) : Prop :=
  (exists text n, ncco = [Talk text true; Voice.listen cfg n]
                  /\ (n = 12 \/ n = 15 \/ n = 50)%N)
  \/ (exists text, ncco = [Talk text true; Hangup])
  \/ (exists text from raw_number,
        ncco = [Talk text false;
                Connect from (Telephony.e164 (Voice.resolve_target cfg raw_number)) 60
                        (Voice.PUBLIC_URL cfg ++ "/voice/events")%string]).

(** The answers of the ASR webhook. *)
Definition asr_answer (cfg : Config) (r : Response) : Prop :=
  r = JsonError 404 "No session"
  \/ r = Json 200 []
  \/ exists ncco, r = Json 200 ncco /\ turn_actions cfg ncco.

(** A ticket that is open (2) or pending (3). *)
Definition unsettled (t : Ticket) : Prop := t_status t = 2%Z \/ t_status t = 3%Z.

(** The keys the contact lookup writes. *)
Definition lookup_keys : list string :=
  ["contact_id"; "contact_name"; "recent_tickets"; "lookup_done"].

(** The store is as it was in [σ]. *)
Definition same_store (σ : ConversationState) (w : World) : Prop := call_state w = σ.

(** The session the answer webhook has just stored for a caller: no turn
    yet, no turn in progress, no ticket. *)
Definition just_answered (call_uuid from_number : string) (l : loc) (w : World) : Prop :=
  exists d, bound call_uuid l d w
    /\ d !! "history" = Some (VHist [])
    /\ d !! "processing" = Some (VBool false)
    /\ d !! "ticket_id" = Some VNone
    /\ d !! "phone" = Some (VStr from_number).

(** The session after the greeting went into the transcript. *)
Definition greeted (call_uuid from_number greeting : string) (w : World) : Prop :=
  field (call_state w) call_uuid "history" = Some (VHist [mkTurn "assistant" greeting])
  /\ field (call_state w) call_uuid "processing" = Some (VBool false)
  /\ field (call_state w) call_uuid "ticket_id" = Some VNone
  /\ field (call_state w) call_uuid "phone" = Some (VStr from_number).

(** [data.get("uuid") or data.get("conversation_uuid") or "test"] and the
    caller's number, as [handle_voice_answer] reads them. *)
Definition answer_call_uuid (data : AnswerRequest) : string :=
  Voice.first_nonempty (ans_uuid data) (ans_conversation_uuid data) "test".
Definition answer_from_number (data : AnswerRequest) : string :=
  match ans_from data with
  | FromStr n => if String.eqb n "" then "unknown" else n
  | FromDict (Some n) => n
  | FromDict None => "unknown"
  | FromAbsent => "unknown"
  end.

(** Nothing was requested since the log was [L]. *)
Definition log_is (L : list Event) (w : World) : Prop := log w = L.

(** The adoption tag of a ticket, and a turn of the assistant that does not
    carry one. *)
Definition adopted_in (m : Turn) : option string :=
  Py.search (Py.tag "[ACTION: USE_TICKET: " Py.is_digit 1) (content m).
Definition adopts_nothing (m : Turn) : Prop :=
  role m = "assistant" -> adopted_in m = None.

(** The keys the tags of a reply and the end of the turn write. *)
Definition tag_keys : list string :=
  ["sentiment"; "ticket_id"; "contact_name"; "transfer_requested"; "processing"].

(** The transcript of the call has at least [n] turns. *)
Definition transcript_has (n : nat) (call_uuid : string) (l : loc) (w : World) : Prop :=
  exists d h, bound call_uuid l d w /\ d !! "history" = Some (VHist h) /\ n <= length h.

(** The actions that answer a generated reply: as [turn_actions], without
    the 1.5 s of a first response. *)
Definition reply_actions (cfg : Config) (ncco : list Action) : Prop :=
  (exists text n, ncco = [Talk text true; Voice.listen cfg n] /\ (n = 12 \/ n = 50)%N)
  \/ (exists text, ncco = [Talk text true; Hangup])
  \/ (exists text from raw_number,
        ncco = [Talk text false;
                Connect from (Telephony.e164 (Voice.resolve_target cfg raw_number)) 60
                        (Voice.PUBLIC_URL cfg ++ "/voice/events")%string]).

(** What the batch pipeline answers. *)
Definition pipeline_answer (cfg : Config) (r : Response) : Prop :=
  r = Json 200 [Talk Voice.asr_apology true; Voice.listen cfg 15]
  \/ r = Json 200 [Talk Voice.pipeline_apology true; Voice.listen cfg 15]
  \/ exists ncco, r = Json 200 ncco /\ reply_actions cfg ncco.

(** The session of the call agrees with [d] outside the transcript and the
    keys the tags write, and its transcript has [P]. *)
Definition session_keeps (d : gmap string Val) (P : list Turn -> Prop)
    (call_uuid : string) (l : loc) (w : World) : Prop :=
  exists d' h', bound call_uuid l d' w
    /\ d' !! "history" = Some (VHist h') /\ P h'
    /\ forall k, k ∉ "history" :: tag_keys -> d' !! k = d !! k.

(** [reply] is what a generation request for the utterance answered, the
    request having been given the transcript [h1]. *)
Definition generated (env : Env) (speech_text : string) (h1 : list Turn)
    (reply : string) : Prop :=
  exists L kb contact_name recent_tickets active_ticket_id phone,
    env L (AgentResponse speech_text kb (VHist h1) contact_name recent_tickets
                         active_ticket_id phone)
    = Ret (RVal (VStr reply)).

(** What a turn on the transcript [h] leaves as the transcript: the user's
    turn, and after it the reply when one was generated. *)
Definition recorded (env : Env) (h : list Turn) (speech_text : string)
    (h' : list Turn) : Prop :=
  let h1 := Py.last_n 50 (h ++ [mkTurn "user" speech_text]) in
  (h' = h1
   \/ exists reply, generated env speech_text h1 reply
                    /\ h' = Py.last_n 50 (h1 ++ [mkTurn "assistant" reply]))
  /\ (mem_str speech_text Voice.asr_error_tags = true -> h' = h1).

(** The session of a call of the older agent agrees with [d] outside the
    transcript and [processing], and its transcript has [P]. *)
Definition older_session (d : gmap string Val) (P : list Turn -> Prop)
    (call_uuid : string) (l : loc) (w : World) : Prop :=
  exists d' h', bound call_uuid l d' w
    /\ d' !! "history" = Some (VHist h') /\ P h'
    /\ forall k, k ∉ ["history"; "processing"] -> d' !! k = d !! k.

(** The transcript after a turn on [h] with the utterance and the reply. *)
Definition recorded_turn (h : list Turn) (speech_text reply : string)
    (h' : list Turn) : Prop :=
  h' = Py.last_n 12 (Py.last_n 12 (h ++ [mkTurn "user" speech_text])
                     ++ [mkTurn "assistant" reply]).

(** A turn of the older agent on the transcript [h]: nothing was heard and
    the transcript is as it was, or the utterance and the reply are its last
    two turns.  The reply is what the agent says when the webhook has a call
    id; without one the agent says the fixed apology. *)
Definition older_turn (call_uuid : option string) (h : list Turn) (r : Response)
    (h' : list Turn) : Prop :=
  (r = Json 200 [Talk VoiceAgentVoice.didnt_catch true; VoiceAgentVoice.listen 12]
   /\ h' = h)
  \/ exists speech_text ai_response,
       2 <= PyText.len speech_text
       /\ r = Json 200 [Talk (match call_uuid with
                              | Some _ => ai_response
                              | None => VoiceAgentVoice.pipeline_apology
                              end) true;
                        VoiceAgentVoice.listen 15]
       /\ recorded_turn h speech_text ai_response h'.

(** The caller's number as the older answer webhook reads it from an
    object. *)
Definition older_from_number (data : AnswerRequest) : string :=
  match ans_from data with
  | FromDict (Some n) => n
  | _ => "unknown"
  end.

(** The text is ASCII: every byte is below 128.  On such text the length
    in bytes is the length in characters, and the letters, digits and white
    space of the text are those of ASCII. *)
Definition ascii_text (s : string) : Prop :=
  forallb (fun c => (Py.code c <? 128)%N) (Py.chars s) = true.

(** A word of a search term: more than two characters of [\w], none of them
    an upper-case letter. *)
Definition search_word (w : string) : Prop :=
  2 < Py.len w
  /\ Forall (fun c => Py.is_word c = true /\ Py.is_upper c = false) (Py.chars w).

(** A request that does without the caller's number: no contact is created,
    and a ticket is created with [phone] [None]. *)
Definition phoneless (c : Call) : Prop :=
  match c with
  | CreateContactHttp _ _ => False
  | CreateTicketHttp _ _ phone _ _ => phone = VNone
  | _ => True
  end.

(** The session of the call has no key [from], and the requests logged from
    position [n] on are [phoneless]. *)
Definition no_from (n : nat) (call_uuid : string) (l : loc) (w : World) : Prop :=
  (exists d, bound call_uuid l d w /\ d !! "from" = None)
  /\ Forall (fun ev => phoneless (ev_call ev)) (drop n (log w)).

(** The generation request of a streaming turn on the session [d], whose
    transcript has become [h1]: no knowledge-base text, and the caller as the
    session has them. *)
Definition streaming_request (transcript : string) (d : gmap string Val)
    (h1 : list Turn) : Call :=
  AgentResponse transcript "" (VHist h1)
                (default VNone (d !! "contact_name"))
                (default (VTickets []) (d !! "recent_tickets"))
                (default VNone (d !! "ticket_id"))
                (default VNone (d !! "phone")).



End Vocabulary.


(** * Properties *)

(** ** Lists and text *)

Module PyFacts.
Import Py.

Lemma str_chars s : str (chars s) = s.
Proof. apply string_of_list_ascii_of_string. Qed.

Lemma chars_str l : chars (str l) = l.
Proof. apply list_ascii_of_string_of_list_ascii. Qed.

Lemma last_n_length {A} n (l : list A) : length (last_n n l) = min n (length l).
Proof. unfold last_n. rewrite length_drop. lia. Qed.

Lemma last_n_suffix {A} n (l : list A) : last_n n l `suffix_of` l.
Proof. apply suffix_drop. Qed.

Lemma last_n_app {A} n (l k : list A) :
  last_n n (last_n n l ++ k) = last_n n (l ++ k).
Proof.
  unfold last_n. rewrite !length_app, length_drop.
  destruct (decide (length l <= n)) as [Hle|Hgt].
  - replace (length l - n) with 0 by lia. rewrite !drop_0. f_equal. lia.
  - replace (length l - (length l - n) + length k - n) with (length k) by lia.
    replace (length l + length k - n) with ((length l - n) + length k) by lia.
    rewrite <- drop_drop. f_equal.
    rewrite drop_app_le by lia. done.
Qed.

Lemma last_n_all {A} n (l : list A) : length l <= n -> last_n n l = l.
Proof. intros H. unfold last_n. replace (length l - n) with 0 by lia. apply drop_0. Qed.

(** Truncating, appending and truncating again is truncating once. *)
Lemma last_n_snoc {A} n (l : list A) x :
  0 < n -> last_n n (last_n n l ++ [x]) = last_n n (l ++ [x]).
Proof.
  intros Hn. unfold last_n.
  rewrite !length_app, length_drop. simpl.
  destruct (decide (length l <= n)) as [Hle|Hgt].
  - replace (length l - n) with 0 by lia. rewrite !drop_0. f_equal. lia.
  - rewrite drop_app_le by (rewrite length_drop; lia).
    rewrite (drop_app_le l) by lia.
    rewrite drop_drop. f_equal. f_equal. lia.
Qed.

End PyFacts.

(** ** [append_history] keeps the trailing window *)

Section AppendHistory.

Ltac run_monad :=
  unfold bind, get, modify, ret, raise, alloc, dict_item, dict_set; simpl.

Lemma stored_history_Some σ call_uuid h :
  stored_history σ call_uuid = Some h ->
  exists l d, calls σ !! call_uuid = Some l /\ objs σ !! l = Some d
              /\ d !! "history" = Some (VHist h).
Proof.
  unfold stored_history. intros H.
  destruct (calls σ !! call_uuid) as [l|] eqn:Hl; [|done].
  destruct (objs σ !! l) as [d|] eqn:Hd; [|done].
  destruct (d !! "history") as [[]|] eqn:Hh; try done.
  exists l, d. by simplify_eq.
Qed.

Ltac run_append Hl :=
  run_monad; rewrite Hl; simpl.

Lemma app_default_history : App.default_call !! "history" = Some (VHist []).
Proof. reflexivity. Qed.

Lemma va_default_history : VoiceAgent.default_call !! "history" = Some (VHist []).
Proof. reflexivity. Qed.

Lemma stored_initial σ call_uuid h :
  stored_history σ call_uuid = Some h -> initial_history σ call_uuid = Some h.
Proof.
  intros H. unfold initial_history.
  destruct (stored_history_Some _ _ _ H) as (l & d & -> & _). done.
Qed.

(** One [append_history] of the newer agent. *)
Lemma app_append_step σ call_uuid h r c :
  initial_history σ call_uuid = Some h ->
  exists σ', App.append_history call_uuid r c σ = (Ret tt, σ')
    /\ stored_history σ' call_uuid
       = Some (Py.last_n App.history_window (h ++ [mkTurn r c])).
Proof.
  unfold initial_history.
  destruct (calls σ !! call_uuid) as [l0|] eqn:Hl.
  - intros (l & d & Hl' & Hd & Hh)%stored_history_Some.
    unfold App.append_history, App.get_call_state, App.set_call_state.
    run_append Hl'.
    repeat (progress (rewrite ?Hd, ?Hh, ?lookup_insert_eq; simpl)).
    eexists. split; [reflexivity|].
    unfold stored_history. simpl. rewrite !lookup_insert_eq. done.
  - intros [= <-].
    unfold App.append_history, App.get_call_state, App.set_call_state.
    run_append Hl.
    repeat (progress (rewrite ?lookup_insert_eq, ?app_default_history; simpl)).
    eexists. split; [reflexivity|].
    unfold stored_history. simpl. rewrite !lookup_insert_eq. done.
Qed.

(** One [append_history] of the older agent. *)
Lemma va_append_step σ call_uuid h r c :
  initial_history σ call_uuid = Some h ->
  exists σ', VoiceAgent.append_history call_uuid r c σ = (Ret tt, σ')
    /\ stored_history σ' call_uuid
       = Some (Py.last_n VoiceAgent.history_window (h ++ [mkTurn r c])).
Proof.
  unfold initial_history.
  destruct (calls σ !! call_uuid) as [l0|] eqn:Hl.
  - intros (l & d & Hl' & Hd & Hh)%stored_history_Some.
    unfold VoiceAgent.append_history, VoiceAgent.get_call_state,
      VoiceAgent.set_call_state.
    run_append Hl'.
    repeat (progress (rewrite ?Hd, ?Hh, ?lookup_insert_eq; simpl)).
    eexists. split; [reflexivity|].
    unfold stored_history. simpl. rewrite !lookup_insert_eq. done.
  - intros [= <-].
    unfold VoiceAgent.append_history, VoiceAgent.get_call_state,
      VoiceAgent.set_call_state.
    run_append Hl.
    repeat (progress (rewrite ?lookup_insert_eq, ?va_default_history; simpl)).
    eexists. split; [reflexivity|].
    unfold stored_history. simpl. rewrite !lookup_insert_eq. done.
Qed.

(** Any [append] that truncates to the last [w] after each call leaves the
    last [w] of everything appended so far. *)
Lemma append_all_window
    (append : string -> string -> string -> M ConversationState unit) (w : nat)
    (Hstep : forall σ call_uuid h r c,
        initial_history σ call_uuid = Some h ->
        exists σ', append call_uuid r c σ = (Ret tt, σ')
          /\ stored_history σ' call_uuid = Some (Py.last_n w (h ++ [mkTurn r c])))
    σ call_uuid h0 es :
  initial_history σ call_uuid = Some h0 -> es <> [] ->
  exists σ', append_all append call_uuid es σ = (Ret tt, σ')
    /\ stored_history σ' call_uuid = Some (Py.last_n w (h0 ++ es)).
Proof.
  intros Hinit Hne. revert σ h0 Hinit.
  induction es as [|[r c] es IH]; [done|]. intros σ h0 Hinit.
  destruct (Hstep σ call_uuid h0 r c Hinit) as (σ1 & Hrun & Hst).
  simpl. unfold bind at 1. rewrite Hrun.
  destruct es as [|e es'].
  - simpl. unfold ret. eauto.
  - destruct (IH ltac:(done) σ1 _ (stored_initial _ _ _ Hst)) as (σ' & Hrun' & Hst').
    exists σ'. split; [done|]. rewrite Hst'. f_equal.
    rewrite PyFacts.last_n_app, <- app_assoc. done.
Qed.

End AppendHistory.

(** C5, as stated, against the older agent: thirteen appends to a fresh call
    leave twelve turns, not the thirteen a window of 50 would keep. *)
Lemma older_agent_keeps_12 :
  exists σ',
    append_all VoiceAgent.append_history "call-1" (numbered_turns 1 13) empty_state
      = (Ret tt, σ')
    /\ stored_history σ' "call-1" = Some (numbered_turns 2 12)
    /\ stored_history σ' "call-1" <> Some (Py.last_n 50 (numbered_turns 1 13)).
Proof.
  eexists. split; [vm_compute; reflexivity|]. split; [vm_compute; reflexivity|].
  vm_compute. discriminate.
Qed.

(** C5 (amended): after each of a sequence of [append_history] calls for a
    call id, the stored transcript is exactly the most recent turns up to the
    retention window, in the order they were appended, the earliest dropped
    first; the window is 50 in [src/app/state.py] and 12 in
    [src/voice-agent/app/state.py]. *)
Theorem append_history_trailing_window (σ : ConversationState) (call_uuid : string)
    (h0 es : list Turn) (k : nat) :
  initial_history σ call_uuid = Some h0 ->
  0 < k <= length es ->
  (exists σ',
      append_all App.append_history call_uuid (take k es) σ = (Ret tt, σ')
      /\ stored_history σ' call_uuid = Some (Py.last_n 50 (h0 ++ take k es)))
  /\
  (exists σ',
      append_all VoiceAgent.append_history call_uuid (take k es) σ = (Ret tt, σ')
      /\ stored_history σ' call_uuid = Some (Py.last_n 12 (h0 ++ take k es))).
Proof.
  intros Hinit [Hk1 Hk2].
  assert (take k es <> []) as Hne.
  { destruct es, k; simpl in *; try lia; done. }
  split.
  - exact (append_all_window _ _ app_append_step σ call_uuid h0 _ Hinit Hne).
  - exact (append_all_window _ _ va_append_step σ call_uuid h0 _ Hinit Hne).
Qed.

Lemma append_history_trailing_window_witness :
  (exists σ',
      append_all App.append_history "call-1" (take 2 (numbered_turns 1 3)) empty_state
        = (Ret tt, σ')
      /\ stored_history σ' "call-1"
         = Some (Py.last_n 50 ([] ++ take 2 (numbered_turns 1 3))))
  /\
  (exists σ',
      append_all VoiceAgent.append_history "call-1" (take 2 (numbered_turns 1 3))
        empty_state = (Ret tt, σ')
      /\ stored_history σ' "call-1"
         = Some (Py.last_n 12 ([] ++ take 2 (numbered_turns 1 3)))).
Proof.
  apply (append_history_trailing_window empty_state "call-1" [] (numbered_turns 1 3) 2).
  - reflexivity.
  - simpl. lia.
Defined.

(** ** One utterance per silence ([DeepgramStreamer]) *)

Section StreamerFacts.
Import Streamer.

Lemma string_app_cons x (a b : string) : String x a ++ b = String x (a ++ b).
Proof. reflexivity. Qed.

Lemma string_app_assoc (a b c : string) : (a ++ b) ++ c = a ++ (b ++ c).
Proof.
  induction a as [|x a IH]; [done|]. by rewrite !string_app_cons, IH.
Qed.

Lemma string_app_nil_r (a : string) : a ++ "" = a.
Proof.
  induction a as [|x a IH]; [done|]. by rewrite string_app_cons, IH.
Qed.

Lemma string_app_nonempty (a b : string) : b <> "" -> a ++ b <> "".
Proof. destruct a; [done|]. rewrite string_app_cons. discriminate. Qed.

Lemma string_eqb_false (a : string) : a <> "" -> String.eqb a "" = false.
Proof. intros H. apply String.eqb_neq. done. Qed.

Lemma run_app es1 es2 s :
  run (es1 ++ es2) s =
  let '(s1, out1) := run es1 s in
  let '(s2, out2) := run es2 s1 in
  (s2, (out1 ++ out2)%list).
Proof.
  revert s. induction es1 as [|e es1 IH]; intros s; simpl.
  - by destruct (run es2 s).
  - destruct (step s e) as [s1 o1]. rewrite IH.
    destruct (run es1 s1) as [s2 o2]. destruct (run es2 s2) as [s3 o3].
    by rewrite app_assoc.
Qed.

(** The test [_process_result] makes before it looks at a transcript. *)
Lemma nonblank_test text :
  nonblank text ->
  negb (String.eqb text "") && (0 <? Py.len (Py.strip text))%nat = true.
Proof.
  unfold nonblank. intros H. apply andb_true_intro. split.
  - apply negb_true_iff, String.eqb_neq. intros ->. by apply H.
  - apply Nat.ltb_lt. unfold Py.len. destruct (Py.strip text); [done|simpl; lia].
Qed.

(** A final result appends the trimmed text and a blank, and restarts the
    timer. *)
Lemma process_final s text :
  nonblank text ->
  _process_result s (mkResult (Some text) true) =
  (mk (final_transcript s ++ text ++ " ")
      (current_utterance s ++ Py.strip text ++ " ")
      (clock s) (Some (Running silence_threshold))
      (speech_ended_callback s) (barge_in_callback s) (clock s), []).
Proof.
  intros H. unfold _process_result. simpl. rewrite (nonblank_test _ H).
  unfold _start_silence_timer, _cancel_silence_timer, with_timer. simpl.
  by destruct (silence_timer s).
Qed.

(** A pause shorter than what is left on the timer emits nothing. *)
Lemma elapse_short s r d :
  silence_timer s = Some (Running r) -> (d < r)%N ->
  elapse d s =
  (mk (final_transcript s) (current_utterance s) (last_final_time s)
      (Some (Running (r - d))) (speech_ended_callback s) (barge_in_callback s)
      (clock s + d)%N, []).
Proof.
  intros Ht Hd. unfold elapse. simpl. rewrite Ht.
  destruct (N.leb_spec r d); [lia|]. done.
Qed.

(** Finals separated by pauses below the threshold only accumulate. *)
Lemma run_finals fs s :
  Forall (fun fg => nonblank (fst fg) /\ (snd fg < silence_threshold)%N) fs ->
  fs <> [] ->
  exists s',
    run (flat_map (fun fg => [final (fst fg); Elapse (snd fg)]) fs) s = (s', [])
    /\ current_utterance s' = current_utterance s ++ utterance_of fs
    /\ (exists r, silence_timer s' = Some (Running r) /\ (r <= silence_threshold)%N)
    /\ speech_ended_callback s' = speech_ended_callback s.
Proof.
  intros Hall. revert s. induction Hall as [|[f g] fs [Hf Hg] Hall IH]; [done|].
  intros s _. simpl in Hf, Hg.
  cbn [flat_map app run step final fst snd].
  rewrite (process_final s f Hf).
  erewrite elapse_short; [|reflexivity|done]. simpl.
  destruct fs as [|fg fs'].
  - simpl. eexists. split; [reflexivity|]. simpl.
    rewrite string_app_nil_r. split; [done|]. split; [|done].
    eexists. split; [done|]. lia.
  - edestruct IH as (s' & Hrun & Hcu & Ht & Hcb); [done|].
    rewrite Hrun. exists s'. split; [done|]. split.
    + rewrite Hcu. simpl. by rewrite !string_app_assoc.
    + done.
Qed.

Lemma utterance_of_nonempty fs : fs <> [] -> utterance_of fs <> "".
Proof.
  destruct fs as [|fg fs]; [done|]. intros _. simpl.
  rewrite string_app_assoc. apply string_app_nonempty.
  simpl. discriminate.
Qed.

Lemma utterance_of_trimmed fs :
  Forall (fun fg => Py.strip (fst fg) = fst fg) fs ->
  utterance_of fs = String.concat "" (map (fun fg => fst fg ++ " ") fs).
Proof.
  induction 1 as [|fg fs Hfg _ IH]; [done|].
  simpl. rewrite Hfg, IH. destruct fs; simpl; [|done].
  by rewrite string_app_nil_r.
Qed.

(** Once the timer has fired, or was cancelled, silence emits nothing. *)
Lemma elapse_idle s d :
  silence_timer s = None \/ silence_timer s = Some Finished ->
  snd (elapse d s) = [].
Proof. intros [H|H]; unfold elapse; simpl; by rewrite H. Qed.

Lemma process_interim s text :
  nonblank text ->
  silence_timer (fst (_process_result s (mkResult (Some text) false))) = None
  /\ (forall u, SpeechEnded u ∉ snd (_process_result s (mkResult (Some text) false))).
Proof.
  intros H. unfold _process_result. simpl. rewrite (nonblank_test _ H).
  simpl. split.
  - unfold _cancel_silence_timer. by destruct (silence_timer s) eqn:E.
  - intros u. destruct (barge_in_callback s && _); [|apply not_elem_of_nil].
    intros Hin. apply list_elem_of_singleton in Hin. discriminate.
Qed.

End StreamerFacts.

(** The scenario of the specification: "I need", then "help", then silence. *)
Example i_need_help :
  Streamer.run
    (Streamer.finals_then_silence [("I need", 120%N); ("help", 0%N)] 300)
    (Streamer.set_speech_ended_callback Streamer.init)
  = (Streamer.mk "I need help " "" 120 (Some Streamer.Finished) true false 420,
     [Streamer.SpeechEnded "I need help "]).
Proof. vm_compute. reflexivity. Qed.

(** C4: in streaming mode, final results (each with text) that follow one
    another within the silence threshold and are followed by silence of at
    least the threshold yield exactly one utterance event; its text is the
    fragments, trimmed, each followed by one blank — the fragments themselves
    each followed by one blank when they carry no blanks around them; the
    accumulator is empty afterwards and further silence emits nothing; and a
    non-blank interim result leaves no timer pending, so that no utterance is
    emitted however long the silence after it. *)
Theorem one_utterance_per_silence (s : Streamer.t) (fs : list (string * N)) (d : N) :
  Streamer.current_utterance s = "" ->
  Streamer.speech_ended_callback s = true ->
  fs <> [] ->
  Forall (fun fg => Streamer.nonblank (fst fg)
                    /\ (snd fg < Streamer.silence_threshold)%N) fs ->
  (Streamer.silence_threshold <= d)%N ->
  (exists s',
      Streamer.run (Streamer.finals_then_silence fs d) s
        = (s', [Streamer.SpeechEnded (Streamer.utterance_of fs)])
      /\ Streamer.current_utterance s' = ""
      /\ (forall d', snd (Streamer.elapse d' s') = []))
  /\ (Forall (fun fg => Py.strip (fst fg) = fst fg) fs ->
      Streamer.utterance_of fs = String.concat "" (map (fun fg => fst fg ++ " ") fs))
  /\ (forall s0 text d',
        Streamer.nonblank text ->
        let s1 := fst (Streamer.step s0 (Streamer.interim text)) in
        Streamer.silence_timer s1 = None
        /\ (forall u, Streamer.SpeechEnded u ∉ snd (Streamer.step s0 (Streamer.interim text)))
        /\ snd (Streamer.elapse d' s1) = []).
Proof.
  intros Hcu Hcb Hne Hall Hd. split; [|split].
  - destruct (run_finals fs s Hall Hne) as (s1 & Hrun & Hcu1 & (r & Htm & Hr) & Hcb1).
    unfold Streamer.finals_then_silence. rewrite run_app, Hrun.
    cbn [Streamer.run Streamer.step]. unfold Streamer.elapse. cbn [Streamer.silence_timer].
    rewrite Htm. destruct (N.leb_spec r d) as [_|Hlt]; [|lia].
    unfold Streamer._on_silence_detected, Streamer.with_timer.
    cbn [Streamer.current_utterance Streamer.speech_ended_callback].
    rewrite Hcu1, Hcu, Hcb1, Hcb. change ("" ++ ?x) with x.
    rewrite (string_eqb_false _ (utterance_of_nonempty fs Hne)).
    eexists. split; [reflexivity|]. split; [reflexivity|].
    intros d'. reflexivity.
  - apply utterance_of_trimmed.
  - intros s0 text d' Htext. simpl.
    destruct (process_interim s0 text Htext) as [Htm Hno].
    split; [done|]. split; [done|]. apply elapse_idle. by left.
Qed.

Lemma one_utterance_per_silence_witness :
  (exists s',
      Streamer.run
        (Streamer.finals_then_silence [("I need", 120%N); ("help", 0%N)] 300)
        (Streamer.set_speech_ended_callback Streamer.init)
        = (s', [Streamer.SpeechEnded
                  (Streamer.utterance_of [("I need", 120%N); ("help", 0%N)])])
      /\ Streamer.current_utterance s' = ""
      /\ (forall d', snd (Streamer.elapse d' s') = []))
  /\ (Forall (fun fg => Py.strip (fst fg) = fst fg) [("I need", 120%N); ("help", 0%N)] ->
      Streamer.utterance_of [("I need", 120%N); ("help", 0%N)]
      = String.concat "" (map (fun fg => fst fg ++ " ") [("I need", 120%N); ("help", 0%N)]))
  /\ (forall s0 text d',
        Streamer.nonblank text ->
        let s1 := fst (Streamer.step s0 (Streamer.interim text)) in
        Streamer.silence_timer s1 = None
        /\ (forall u, Streamer.SpeechEnded u ∉ snd (Streamer.step s0 (Streamer.interim text)))
        /\ snd (Streamer.elapse d' s1) = []).
Proof.
  apply (one_utterance_per_silence
           (Streamer.set_speech_ended_callback Streamer.init)
           [("I need", 120%N); ("help", 0%N)] 300).
  - reflexivity.
  - reflexivity.
  - discriminate.
  - repeat constructor; simpl; try (vm_compute; discriminate); reflexivity.
  - vm_compute. discriminate.
Defined.

Open Scope list_scope.

(** ** Reasoning about coroutines

    [triple P m Q R]: from a state in [P], [m] ends in [Q] when it returns
    and in [R] when it raises.  [keeps I m φ]: [m] preserves [I] whether it
    returns or raises, and what it returns satisfies [φ]. *)

Section Triples.
Context {S : Type}.

Lemma triple_bind {A B} P (m : M S A) (k : A -> M S B) Q1 Q2 R :
  triple P m Q1 R -> (forall a, triple (Q1 a) (k a) Q2 R) ->
  triple P (bind m k) Q2 R.
Proof.
  intros Hm Hk s Hs. unfold bind. specialize (Hm s Hs).
  destruct (m s) as [[a|e] s']; [|done]. by apply Hk.
Qed.

Lemma triple_try_except {A} P (m : M S A) h Q R R' :
  triple P m Q R -> (forall e, triple (R e) (h e) Q R') ->
  triple P (try_except m h) Q R'.
Proof.
  intros Hm Hh s Hs. unfold try_except. specialize (Hm s Hs).
  destruct (m s) as [[a|e] s']; [done|]. by apply Hh.
Qed.

Lemma triple_conseq {A} (P P' : S -> Prop) (m : M S A) (Q Q' : A -> S -> Prop)
    (R R' : Exn -> S -> Prop) :
  triple P m Q R -> (forall s, P' s -> P s) ->
  (forall a s, Q a s -> Q' a s) -> (forall e s, R e s -> R' e s) ->
  triple P' m Q' R'.
Proof.
  intros Hm HP HQ HR s Hs. specialize (Hm s (HP s Hs)).
  destruct (m s) as [[a|e] s']; auto.
Qed.

Lemma keeps_ret {A} (I : S -> Prop) (a : A) (φ : A -> Prop) : φ a -> keeps I (ret a) φ.
Proof. intros Ha s Hs. simpl. done. Qed.

Lemma keeps_raise {A} (I : S -> Prop) e (φ : A -> Prop) : keeps I (raise e) φ.
Proof. intros s Hs. simpl. done. Qed.

Lemma keeps_bind {A B} I (m : M S A) (k : A -> M S B) φ ψ :
  keeps I m φ -> (forall a, φ a -> keeps I (k a) ψ) -> keeps I (bind m k) ψ.
Proof.
  intros Hm Hk s Hs. unfold bind. specialize (Hm s Hs).
  destruct (m s) as [[a|e] s']; [|done]. destruct Hm as [Hs' Ha].
  by apply Hk.
Qed.

Lemma keeps_try_except {A} I (m : M S A) h φ :
  keeps I m φ -> (forall e, keeps I (h e) φ) -> keeps I (try_except m h) φ.
Proof.
  intros Hm Hh s Hs. unfold try_except. specialize (Hm s Hs).
  destruct (m s) as [[a|e] s']; [done|]. by apply Hh.
Qed.

Lemma keeps_weaken {A} I (m : M S A) (φ ψ : A -> Prop) :
  keeps I m φ -> (forall a, φ a -> ψ a) -> keeps I m ψ.
Proof.
  intros Hm Hw s Hs. specialize (Hm s Hs).
  destruct (m s) as [[a|e] s']; [|done]. destruct Hm. auto.
Qed.

Lemma keeps_for_each {A} I (l : list A) (body : A -> M S unit) :
  (forall x, keeps I (body x) (fun _ => True)) ->
  keeps I (for_each l body) (fun _ => True).
Proof.
  intros Hb. induction l as [|x l IH]; simpl.
  - by apply keeps_ret.
  - eapply keeps_bind; [apply Hb|]. intros _ _. apply IH.
Qed.

Lemma keeps_py_int I (v : Val) : keeps I (@py_int S v) (fun _ => True).
Proof.
  destruct v; simpl; try apply keeps_raise; try (by apply keeps_ret).
  destruct (Py.int_of_string s); [by apply keeps_ret|apply keeps_raise].
Qed.

End Triples.

(** ** Invariants of a turn on one call

    [SessionInv call_uuid l K I]: under [I] the call id is bound to the dict
    at [l]; [I] survives a write of a key of [K] into that dict, a
    suspension on a collaborator, and the hand-over of a task. *)

Lemma with_state_same w : with_state (call_state w) w = w.
Proof. by destruct w. Qed.

Lemma state_eta σ : mkState (objs σ) (calls σ) = σ.
Proof. by destruct σ. Qed.

Section SessionFacts.
Context (env : Env) (cfg : Config).
Context (call_uuid : string) (l : loc) (K : list string) (I : World -> Prop).
Context `{!SessionInv call_uuid l K I}.

Lemma keeps_await c : keeps I (await env c) (fun _ => True).
Proof.
  intros w Hw. unfold await.
  destruct (env (log w) c); (split || idtac); try done; by apply inv_await.
Qed.

Lemma keeps_spawn t : keeps I (spawn t) (fun _ => True).
Proof. intros w Hw. simpl. split; [|done]. by apply inv_spawn. Qed.

Lemma keeps_get_call_state :
  keeps I (lift (App.get_call_state call_uuid)) (fun a => a = l).
Proof.
  intros w Hw. unfold lift, App.get_call_state, bind, get. simpl.
  rewrite (inv_bound w Hw). simpl. by rewrite with_state_same.
Qed.

Lemma keeps_set_call_state :
  keeps I (lift (App.set_call_state call_uuid l)) (fun _ => True).
Proof.
  intros w Hw. unfold lift, App.set_call_state, modify. simpl.
  rewrite insert_id by (by apply inv_bound).
  by rewrite state_eta, with_state_same.
Qed.

Lemma keeps_dict_get_default k dflt :
  keeps I (lift (dict_get_default l k dflt)) (fun _ => True).
Proof.
  intros w Hw. unfold lift, dict_get_default.
  destruct (objs (call_state w) !! l); by rewrite with_state_same.
Qed.

Lemma keeps_dict_get k : keeps I (lift (dict_get l k)) (fun _ => True).
Proof. apply keeps_dict_get_default. Qed.

Lemma keeps_dict_item k : keeps I (lift (dict_item l k)) (fun _ => True).
Proof.
  intros w Hw. unfold lift, dict_item.
  destruct (objs (call_state w) !! l) as [d|]; [|by rewrite with_state_same].
  destruct (d !! k); by rewrite with_state_same.
Qed.

Lemma keeps_dict_is_empty : keeps I (lift (Voice.dict_is_empty l)) (fun _ => True).
Proof.
  intros w Hw. unfold lift, Voice.dict_is_empty.
  destruct (objs (call_state w) !! l); by rewrite with_state_same.
Qed.

Lemma keeps_dict_set k v :
  k ∈ K -> keeps I (lift (dict_set l k v)) (fun _ => True).
Proof.
  intros Hk w Hw. unfold lift, dict_set.
  destruct (objs (call_state w) !! l) as [d|] eqn:Hd; [|by rewrite with_state_same].
  split; [|done]. by apply inv_set.
Qed.

Lemma keeps_bind_any {A B} (m : M World A) (k : A -> M World B) ψ :
  keeps I m (fun _ => True) -> (forall a, keeps I (k a) ψ) -> keeps I (bind m k) ψ.
Proof. intros Hm Hk. eapply keeps_bind; [exact Hm|]. intros a _. apply Hk. Qed.

Lemma keeps_bind_loc {B} (k : loc -> M World B) ψ :
  keeps I (k l) ψ -> keeps I (bind (lift (App.get_call_state call_uuid)) k) ψ.
Proof.
  intros Hk. eapply keeps_bind; [apply keeps_get_call_state|]. by intros a ->.
Qed.

Lemma lift_bind {A B} (m : M ConversationState A) (k : A -> M ConversationState B) w :
  lift (bind m k) w = bind (lift m) (fun a => lift (k a)) w.
Proof.
  unfold lift, bind. destruct (m (call_state w)) as [[a|e] σ]; simpl; [|done].
  by destruct (k a σ).
Qed.

Lemma keeps_ext {A} (m m' : M World A) φ :
  (forall w, m w = m' w) -> keeps I m' φ -> keeps I m φ.
Proof. intros Heq Hm w Hw. rewrite Heq. by apply Hm. Qed.

Lemma keeps_lift_bind {A B} (m : M ConversationState A) (k : A -> M ConversationState B) φ :
  keeps I (bind (lift m) (fun a => lift (k a))) φ -> keeps I (lift (bind m k)) φ.
Proof. apply keeps_ext. apply lift_bind. Qed.

Lemma keeps_lift_ret {A} (a : A) (φ : A -> Prop) : φ a -> keeps I (lift (ret a)) φ.
Proof. intros Ha w Hw. unfold lift, ret. by rewrite with_state_same. Qed.

Lemma keeps_lift_raise {A} e (φ : A -> Prop) : keeps I (lift (raise e)) φ.
Proof. intros w Hw. unfold lift, raise. by rewrite with_state_same. Qed.

Hypothesis HK : forall k, k ∈ pipeline_keys -> k ∈ K.

Ltac in_keys := apply HK; unfold pipeline_keys; apply list_elem_of_In; simpl; tauto.

Create HintDb keeps discriminated.

Ltac keeps_step :=
  first [ solve [auto 1 with keeps nocore] |
  lazymatch goal with
  | |- keeps _ (bind (lift (App.get_call_state _)) _) _ => apply keeps_bind_loc
  | |- keeps _ (bind _ _) _ => apply keeps_bind_any; [|intros ?]
  | |- keeps _ (ret _) _ => by apply keeps_ret
  | |- keeps _ (lift (bind _ _)) _ => apply keeps_lift_bind
  | |- keeps _ (lift (ret _)) _ => by apply keeps_lift_ret
  | |- keeps _ (lift (raise _)) _ => apply keeps_lift_raise
  | |- keeps _ (lift (match ?x with _ => _ end)) _ => destruct x
  | |- keeps _ (raise _) _ => apply keeps_raise
  | |- keeps _ (try_except _ _) _ => apply keeps_try_except; [|intros ?]
  | |- keeps _ (lift (dict_get_default _ _ _)) _ => apply keeps_dict_get_default
  | |- keeps _ (lift (dict_get _ _)) _ => apply keeps_dict_get
  | |- keeps _ (lift (dict_item _ _)) _ => apply keeps_dict_item
  | |- keeps _ (lift (dict_set _ _ _)) _ => apply keeps_dict_set; in_keys
  | |- keeps _ (lift (App.set_call_state _ _)) _ => apply keeps_set_call_state
  | |- keeps _ (lift (Voice.dict_is_empty _)) _ => apply keeps_dict_is_empty
  | |- keeps _ (await _ _) _ => apply keeps_await
  | |- keeps _ (spawn _) _ => apply keeps_spawn
  | |- keeps _ (py_int _) _ => apply keeps_py_int
  | |- keeps _ (if ?b then _ else _) _ => destruct b
  | |- keeps _ (match ?x with _ => _ end) _ => destruct x
  | |- keeps _ (let '(_, _) := ?x in _) _ => destruct x
  end ].

Ltac keeps_auto := repeat keeps_step.

Lemma keeps_append_history r c :
  keeps I (lift (App.append_history call_uuid r c)) (fun _ => True).
Proof. unfold App.append_history. keeps_auto. Qed.
Local Hint Resolve keeps_append_history : keeps.

Lemma keeps_create_ticket a b c d e :
  keeps I (Freshdesk.create_ticket env a b c d e) (fun _ => True).
Proof. unfold Freshdesk.create_ticket. keeps_auto. Qed.
Local Hint Resolve keeps_create_ticket : keeps.

Lemma keeps_update_ticket_status a b :
  keeps I (Freshdesk.update_ticket_status env a b) (fun _ => True).
Proof. unfold Freshdesk.update_ticket_status. keeps_auto. Qed.
Local Hint Resolve keeps_update_ticket_status : keeps.

Lemma keeps_update_contact_name a b :
  keeps I (Freshdesk.update_contact_name env a b) (fun _ => True).
Proof. unfold Freshdesk.update_contact_name. keeps_auto. Qed.
Local Hint Resolve keeps_update_contact_name : keeps.

Lemma keeps_create_contact a b :
  keeps I (Freshdesk.create_contact env a b) (fun _ => True).
Proof. unfold Freshdesk.create_contact. keeps_auto. Qed.
Local Hint Resolve keeps_create_contact : keeps.

Lemma keeps_agent_response a b c d e f g :
  keeps I (Groq.agent_response env a b c d e f g) (fun _ => True).
Proof. unfold Groq.agent_response. keeps_auto. Qed.
Local Hint Resolve keeps_agent_response : keeps.

Lemma keeps_transcribe_whisper a :
  keeps I (Groq.transcribe_whisper env a) (fun _ => True).
Proof. unfold Groq.transcribe_whisper. keeps_auto. Qed.
Local Hint Resolve keeps_transcribe_whisper : keeps.

Lemma keeps_fetch_combined_knowledge q :
  keeps I (Voice.fetch_combined_knowledge env q) (fun _ => True).
Proof. unfold Voice.fetch_combined_knowledge. keeps_auto. Qed.
Local Hint Resolve keeps_fetch_combined_knowledge : keeps.

Lemma keeps_transcribe data :
  keeps I (Voice.transcribe env data) (fun _ => True).
Proof. unfold Voice.transcribe. keeps_auto. Qed.
Local Hint Resolve keeps_transcribe : keeps.

Lemma keeps_generate speech_text :
  keeps I (Voice.generate env l speech_text) (fun _ => True).
Proof. unfold Voice.generate. keeps_auto. Qed.
Local Hint Resolve keeps_generate : keeps.

Lemma keeps_detect_sentiment t :
  keeps I (Voice.detect_sentiment call_uuid l t) (fun _ => True).
Proof. unfold Voice.detect_sentiment. keeps_auto. Qed.
Local Hint Resolve keeps_detect_sentiment : keeps.

Lemma keeps_detect_create_ticket t :
  keeps I (Voice.detect_create_ticket env call_uuid l t) (fun _ => True).
Proof. unfold Voice.detect_create_ticket. keeps_auto. Qed.
Local Hint Resolve keeps_detect_create_ticket : keeps.

Lemma keeps_detect_use_ticket t :
  keeps I (Voice.detect_use_ticket call_uuid l t) (fun _ => True).
Proof. unfold Voice.detect_use_ticket. keeps_auto. Qed.
Local Hint Resolve keeps_detect_use_ticket : keeps.

Lemma keeps_detect_resolve_ticket t :
  keeps I (Voice.detect_resolve_ticket env t) (fun _ => True).
Proof. unfold Voice.detect_resolve_ticket. keeps_auto. Qed.
Local Hint Resolve keeps_detect_resolve_ticket : keeps.

Lemma keeps_is_placeholder v : keeps I (Voice.is_placeholder v) (fun _ => True).
Proof. unfold Voice.is_placeholder. keeps_auto. Qed.
Local Hint Resolve keeps_is_placeholder : keeps.

Lemma keeps_detect_update_name t :
  keeps I (Voice.detect_update_name env call_uuid l t) (fun _ => True).
Proof. unfold Voice.detect_update_name. keeps_auto. Qed.
Local Hint Resolve keeps_detect_update_name : keeps.

Lemma keeps_apply_tags t :
  keeps I (Voice.apply_tags env call_uuid l t) (fun _ => True).
Proof. unfold Voice.apply_tags. keeps_auto. Qed.
Local Hint Resolve keeps_apply_tags : keeps.

Lemma keeps_detect_transfer t :
  keeps I (Voice.detect_transfer cfg call_uuid l t) (fun _ => True).
Proof. unfold Voice.detect_transfer. keeps_auto. Qed.
Local Hint Resolve keeps_detect_transfer : keeps.

Lemma keeps_is_first_response v :
  keeps I (Voice.is_first_response v) (fun _ => True).
Proof. unfold Voice.is_first_response. keeps_auto. Qed.
Local Hint Resolve keeps_is_first_response : keeps.

Lemma keeps_build_ncco t tr h wt :
  keeps I (Voice.build_ncco cfg l t tr h wt) (fun _ => True).
Proof. unfold Voice.build_ncco. keeps_auto. Qed.
Local Hint Resolve keeps_build_ncco : keeps.

Lemma keeps_route t :
  keeps I (Voice.route cfg call_uuid l t) (fun _ => True).
Proof. unfold Voice.route. keeps_auto. Qed.
Local Hint Resolve keeps_route : keeps.

End SessionFacts.

(** ** Running a turn on a call that has its dict

    [bound call_uuid l d w]: the call id refers to the dict object [l], which
    holds [d]. *)

Section Running.
Context (env : Env) (cfg : Config).

Lemma bound_world_set call_uuid l d d' w :
  bound call_uuid l d w -> bound call_uuid l d' (world_set l d' w).
Proof.
  intros [Hc Ho]. split; simpl; [done|]. apply lookup_insert_eq.
Qed.

Lemma bound_world_await call_uuid l d c w :
  bound call_uuid l d w -> bound call_uuid l d (world_await c w).
Proof. by intros [Hc Ho]. Qed.

Lemma world_set_set l d d' w :
  world_set l d' (world_set l d w) = world_set l d' w.
Proof. unfold world_set, with_state. simpl. by rewrite insert_insert_eq. Qed.

Lemma log_world_set l d w : log (world_set l d w) = log w.
Proof. done. Qed.

Lemma run_bind {S A B} (m : M S A) (k : A -> M S B) s a s' :
  m s = (Ret a, s') -> bind m k s = k a s'.
Proof. intros H. unfold bind. by rewrite H. Qed.

Lemma run_bind_raise {S A B} (m : M S A) (k : A -> M S B) s e s' :
  m s = (Raise e, s') -> bind m k s = (Raise e, s').
Proof. intros H. unfold bind. by rewrite H. Qed.

Lemma run_get_call_state call_uuid l d w :
  bound call_uuid l d w -> lift (App.get_call_state call_uuid) w = (Ret l, w).
Proof.
  intros [Hc Ho]. unfold lift, App.get_call_state, bind, get. simpl.
  rewrite Hc. simpl. by rewrite with_state_same.
Qed.

Lemma run_set_call_state call_uuid l d w :
  bound call_uuid l d w -> lift (App.set_call_state call_uuid l) w = (Ret tt, w).
Proof.
  intros [Hc Ho]. unfold lift, App.set_call_state, modify. simpl.
  by rewrite insert_id, state_eta, with_state_same.
Qed.

Lemma run_dict_get_default call_uuid l d w k dflt :
  bound call_uuid l d w ->
  lift (dict_get_default l k dflt) w = (Ret (default dflt (d !! k)), w).
Proof.
  intros [Hc Ho]. unfold lift, dict_get_default. rewrite Ho.
  by rewrite with_state_same.
Qed.

Lemma run_dict_get call_uuid l d w k :
  bound call_uuid l d w ->
  lift (dict_get l k) w = (Ret (default VNone (d !! k)), w).
Proof. apply run_dict_get_default. Qed.

Lemma run_dict_item call_uuid l d w k v :
  bound call_uuid l d w -> d !! k = Some v ->
  lift (dict_item l k) w = (Ret v, w).
Proof.
  intros [Hc Ho] Hk. unfold lift, dict_item. rewrite Ho, Hk.
  by rewrite with_state_same.
Qed.

Lemma run_dict_set call_uuid l d w k v :
  bound call_uuid l d w ->
  lift (dict_set l k v) w = (Ret tt, world_set l (<[k := v]> d) w).
Proof. intros [Hc Ho]. unfold lift, dict_set. by rewrite Ho. Qed.

Lemma run_dict_is_empty call_uuid l d w :
  bound call_uuid l d w ->
  lift (Voice.dict_is_empty l) w = (Ret (bool_decide (d = ∅)), w).
Proof.
  intros [Hc Ho]. unfold lift, Voice.dict_is_empty. rewrite Ho.
  by rewrite with_state_same.
Qed.

Lemma run_append_history call_uuid l d w h r c :
  bound call_uuid l d w -> d !! "history" = Some (VHist h) ->
  lift (App.append_history call_uuid r c) w
  = (Ret tt, world_set l (<["history" := VHist (Py.last_n 50 (h ++ [mkTurn r c]))]> d) w).
Proof.
  intros Hb Hh. unfold App.append_history.
  rewrite lift_bind. erewrite run_bind; [|by eapply run_get_call_state].
  cbv beta. rewrite lift_bind. erewrite run_bind; [|by eapply run_dict_item].
  cbv beta iota. rewrite lift_bind. erewrite run_bind; [|by eapply run_dict_set].
  assert (bound call_uuid l (<["history":=VHist (h ++ [mkTurn r c])]> d)
                (world_set l (<["history":=VHist (h ++ [mkTurn r c])]> d) w)) as Hb1
    by (by eapply bound_world_set).
  cbv beta. rewrite lift_bind.
  erewrite run_bind; [|eapply run_dict_item; [exact Hb1|apply lookup_insert_eq]].
  cbv beta iota. rewrite lift_bind. erewrite run_bind; [|by eapply run_dict_set].
  rewrite world_set_set, insert_insert_eq.
  eapply run_set_call_state, bound_world_set, Hb.
Qed.

Lemma run_release call_uuid l d w :
  bound call_uuid l d w ->
  Voice.release call_uuid l w
  = (Ret tt, world_set l (<["processing" := VBool false]> d) w).
Proof.
  intros Hb. unfold Voice.release.
  erewrite run_bind; [|by eapply run_dict_set].
  eapply run_set_call_state, bound_world_set, Hb.
Qed.

End Running.

(** ** ASR failure short-circuits, silence goes to generation *)

Global Instance logged_since_inv L call_uuid l K :
  SessionInv call_uuid l K (logged_since L call_uuid l).
Proof.
  split.
  - by intros w [_ H].
  - intros w d k v [HL Hc] _ _. split; [done|]. done.
  - intros w c [HL Hc]. split; [|done]. simpl. by apply prefix_app_r.
  - intros w t [HL Hc]. by split.
Qed.

Section Pipeline.
Context (env : Env) (cfg : Config).

Lemma keeps_final {A} (I : World -> Prop) (m : M World A) φ w :
  keeps I m φ -> I w -> I (snd (m w)).
Proof.
  intros Hm Hw. specialize (Hm w Hw). destruct (m w) as [[a|e] w']; simpl; tauto.
Qed.

Lemma run_agent_response a b c d e f g w :
  Groq.agent_response env a b c d e f g w =
  match env (log w) (AgentResponse a b c d e f g) with
  | Ret (RVal (VStr reply)) => (Ret reply, world_await (AgentResponse a b c d e f g) w)
  | Ret _ => (Raise TypeError, world_await (AgentResponse a b c d e f g) w)
  | Raise x => (Raise x, world_await (AgentResponse a b c d e f g) w)
  end.
Proof.
  unfold Groq.agent_response, bind, await. fold (world_await (AgentResponse a b c d e f g) w).
  destruct (env _ _) as [[[]|]|]; done.
Qed.

Lemma run_try_except_bind {S A B} (m : M S A) (k : A -> M S B) h s a s' :
  m s = (Ret a, s') -> try_except (bind m k) h s = try_except (k a) h s'.
Proof. intros H. unfold try_except, bind. by rewrite H. Qed.

(** Once the generation call is logged, whatever the turn still does keeps
    an invariant of the kind above. *)
Lemma final_after_agent_response {B} (I : World -> Prop) a b c d e f g
    (k : string -> M World B) h φ w :
  I (world_await (AgentResponse a b c d e f g) w) ->
  (forall ai, keeps I (k ai) φ) -> (forall x, keeps I (h x) φ) ->
  I (snd (try_except (bind (Groq.agent_response env a b c d e f g) k) h w)).
Proof.
  intros HI Hk Hh. unfold try_except, bind. rewrite run_agent_response.
  destruct (env (log w) _) as [[[| | |reply| |]|]|x];
    try (apply (keeps_final I _ _ _ (Hh _) HI)).
  specialize (Hk reply _ HI).
  destruct (k reply _) as [[r|x] w2]; simpl; [tauto|].
  apply (keeps_final I _ _ _ (Hh x) Hk).
Qed.

(** A short utterance goes to generation without a knowledge-base search. *)
Lemma run_generate_short call_uuid l d w speech_text hv :
  bound call_uuid l d w -> d !! "history" = Some hv ->
  (Py.len speech_text <? 10)%nat = true ->
  Voice.generate env l speech_text w =
  Groq.agent_response env speech_text "" hv
    (default VNone (d !! "contact_name"))
    (default (VTickets []) (d !! "recent_tickets"))
    (default VNone (d !! "ticket_id"))
    (default VNone (d !! "phone")) w.
Proof.
  intros Hb Hh Hlen. unfold Voice.generate. rewrite Hlen. simpl orb. cbv iota.
  unfold bind at 1. unfold ret at 1.
  erewrite run_bind; [|by eapply run_dict_get]. cbv beta.
  erewrite run_bind; [|by eapply run_dict_item]. cbv beta.
  erewrite run_bind; [|by eapply run_dict_get]. cbv beta.
  erewrite run_bind; [|by eapply run_dict_get_default]. cbv beta.
  erewrite run_bind; [|by eapply run_dict_get]. done.
Qed.

Lemma keeps_release call_uuid l K I `{!SessionInv call_uuid l K I} :
  "processing" ∈ K -> keeps I (Voice.release call_uuid l) (fun _ => True).
Proof.
  intros HK. unfold Voice.release.
  eapply keeps_bind; [by eapply keeps_dict_set|]. intros _ _.
  by eapply keeps_set_call_state.
Qed.

Lemma mem_str_true x l : mem_str x l = true -> x ∈ l.
Proof.
  unfold mem_str. induction l as [|y l IH]; simpl; [done|].
  intros [H|H]%orb_true_iff.
  - apply String.eqb_eq in H as ->. by left.
  - right. by apply IH.
Qed.

(** The error tags end the turn with the fixed apology and no request. *)
Lemma pipeline_asr_error call_uuid l d h w tag :
  bound call_uuid l d w -> d !! "history" = Some (VHist h) ->
  mem_str tag Voice.asr_error_tags = true ->
  Voice.pipeline env cfg call_uuid l tag w
  = (Ret (Json 200 [Talk Voice.asr_apology true; Voice.listen cfg 15]),
     world_set l (<["processing" := VBool false]>
                  (<["history" := VHist (Py.last_n 50 (h ++ [mkTurn "user" tag]))]> d)) w).
Proof.
  intros Hb Hh Htag. unfold Voice.pipeline, try_except.
  erewrite run_bind; [|by eapply run_append_history]. rewrite Htag.
  erewrite run_bind; [|eapply run_release, bound_world_set, Hb].
  unfold ret. by rewrite world_set_set.
Qed.

(** Silence reaches the generation call: it is the next request logged,
    whatever follows. *)
Lemma pipeline_silence call_uuid l d h w :
  bound call_uuid l d w -> d !! "history" = Some (VHist h) ->
  let d1 := <["history" := VHist (Py.last_n 50 (h ++ [mkTurn "user" "[SILENCE]"]))]> d in
  let c := AgentResponse "[SILENCE]" ""
             (VHist (Py.last_n 50 (h ++ [mkTurn "user" "[SILENCE]"])))
             (default VNone (d !! "contact_name"))
             (default (VTickets []) (d !! "recent_tickets"))
             (default VNone (d !! "ticket_id"))
             (default VNone (d !! "phone")) in
  exists rest,
    log (snd (Voice.pipeline env cfg call_uuid l "[SILENCE]" w))
    = log w ++ mkEvent c (call_state (world_set l d1 w)) (_processing_ai w) :: rest.
Proof.
  intros Hb Hh d1 c.
  set (w1 := world_set l d1 w).
  set (ev := mkEvent c (call_state w1) (_processing_ai w)).
  assert (bound call_uuid l d1 w1) as Hb1 by (by eapply bound_world_set).
  set (I := logged_since (log w ++ [ev]) call_uuid l).
  set (K := "processing" :: pipeline_keys).
  assert (SessionInv call_uuid l K I) as HInv by apply logged_since_inv.
  assert (forall k, k ∈ pipeline_keys -> k ∈ K) as HK
    by (intros k Hk; by apply list_elem_of_further).
  assert ("processing" ∈ K) as HP by apply list_elem_of_here.
  assert (I (world_await c w1)) as HI.
  { split; [done|]. simpl. apply Hb. }
  assert (forall e : Exn, keeps I
            (Voice.release call_uuid l >>
             ret (Json 200 [Talk Voice.pipeline_apology true; Voice.listen cfg 15]))
            (fun _ => True)) as Hh'.
  { intros _. eapply keeps_bind; [by eapply keeps_release|].
    intros _ _. by apply keeps_ret. }
  assert (forall ai, keeps I
            (let* ai_response := Voice.apply_tags env call_uuid l ai in
             let* ncco := Voice.route cfg call_uuid l ai_response in
             Voice.release call_uuid l >> ret (Json 200 ncco))
            (fun _ => True)) as Hrest.
  { intros ai.
    eapply keeps_bind; [by eapply keeps_apply_tags|]. intros ? _.
    eapply keeps_bind; [by eapply keeps_route|]. intros ? _.
    eapply keeps_bind; [by eapply keeps_release|].
    intros _ _. by apply keeps_ret. }
  assert (I (snd (Voice.pipeline env cfg call_uuid l "[SILENCE]" w))) as [[rest Hrest'] _].
  { unfold Voice.pipeline.
    erewrite run_try_except_bind; [|by eapply run_append_history].
    change (mem_str "[SILENCE]" Voice.asr_error_tags) with false. cbv iota.
    fold d1. fold w1.
    assert (forall h' : Exn -> M World Response,
      try_except (Voice.respond env cfg call_uuid l "[SILENCE]") h' w1
      = try_except (bind (Groq.agent_response env "[SILENCE]" ""
                       (VHist (Py.last_n 50 (h ++ [mkTurn "user" "[SILENCE]"])))
                       (default VNone (d1 !! "contact_name"))
                       (default (VTickets []) (d1 !! "recent_tickets"))
                       (default VNone (d1 !! "ticket_id"))
                       (default VNone (d1 !! "phone")))
                    (fun ai =>
                       let* ai_response := Voice.apply_tags env call_uuid l ai in
                       let* ncco := Voice.route cfg call_uuid l ai_response in
                       Voice.release call_uuid l >> ret (Json 200 ncco))) h' w1) as Hrun.
    { intros h'. unfold try_except, Voice.respond. unfold bind at 1.
      erewrite run_generate_short; [|exact Hb1|apply lookup_insert_eq|done].
      unfold bind at 3. done. }
    rewrite Hrun.
    unfold d1. rewrite !lookup_insert_ne by done. fold d1. fold c.
    by eapply final_after_agent_response. }
  exists rest. rewrite Hrest'. by rewrite <- app_assoc.
Qed.

Lemma calls_since_app w w' ev rest :
  log w' = log w ++ ev :: rest ->
  calls_since (length (log w)) w' = ev_call ev :: map ev_call rest.
Proof.
  intros H. unfold calls_since. rewrite H, drop_app_length. done.
Qed.

Lemma field_world_set call_uuid l d d' w k :
  bound call_uuid l d w ->
  field (call_state (world_set l d' w)) call_uuid k = d' !! k.
Proof.
  intros [Hc Ho]. unfold field. simpl. rewrite Hc, lookup_insert_eq. done.
Qed.

End Pipeline.

Example noise_is_silence :
  Voice.filter_noise "uh" = "[SILENCE]"
  /\ Voice.filter_noise "Um." = "[SILENCE]"
  /\ Voice.filter_noise "a" = "[SILENCE]"
  /\ Voice.filter_noise "yes" = "yes"
  /\ Voice.filter_noise "my internet is down" = "my internet is down".
Proof. vm_compute. repeat split. Qed.

(** C3: in the batch turn pipeline the text [ASR_FAILED], [ASR_ERROR] or
    [NO_AUDIO] passes the noise filter unchanged and ends the turn with the
    fixed apology, no request to any collaborator (so none to reply
    generation) and [processing] reset to false; the text [SILENCE], which
    is not one of those three and is what the filter makes of text shorter
    than two characters or recognised as noise, is passed to the generation
    call, the first request the pipeline then makes. *)
Theorem asr_failure_short_circuits_silence_generates
    (env : Env) (cfg : Config) (call_uuid : string) (l : loc)
    (d : gmap string Val) (h : list Turn) (w : World) (tag : string) :
  bound call_uuid l d w -> d !! "history" = Some (VHist h) ->
  mem_str tag Voice.asr_error_tags = true ->
  Voice.filter_noise tag = tag
  /\ (exists w',
        Voice.pipeline env cfg call_uuid l tag w
        = (Ret (Json 200 [Talk Voice.asr_apology true; Voice.listen cfg 15]), w')
        /\ calls_since (length (log w)) w' = []
        /\ field (call_state w') call_uuid "processing" = Some (VBool false))
  /\ mem_str "[SILENCE]" Voice.asr_error_tags = false
  /\ (forall s, mem_str s Voice.asr_error_tags = false ->
        (Py.len s < 2)%nat
        \/ mem_str (Py.only_words_and_spaces (Py.strip (Py.lower s)))
                   Voice.noise_artifacts = true ->
        Voice.filter_noise s = "[SILENCE]")
  /\ (exists hist cn rt tid ph rest,
        calls_since (length (log w))
                    (snd (Voice.pipeline env cfg call_uuid l "[SILENCE]" w))
        = AgentResponse "[SILENCE]" "" hist cn rt tid ph :: rest).
Proof.
  intros Hb Hh Htag. split; [|split; [|split; [|split]]].
  - unfold Voice.filter_noise. by rewrite Htag.
  - eexists. split; [by eapply pipeline_asr_error|]. split.
    + unfold calls_since. rewrite log_world_set, drop_all. done.
    + erewrite field_world_set by done. apply lookup_insert_eq.
  - reflexivity.
  - intros s Hs Hor. unfold Voice.filter_noise. rewrite Hs.
    destruct Hor as [Hlen|Hnoise].
    + apply Nat.ltb_lt in Hlen. rewrite Hlen. by destruct (String.eqb s "").
    + rewrite Hnoise.
      by destruct (String.eqb s ""), (Py.len s <? 2)%nat, (_ && _).
  - destruct (pipeline_silence env cfg call_uuid l d h w Hb Hh) as [rest Hlog].
    do 5 eexists. exists (map ev_call rest).
    rewrite (calls_since_app _ _ _ _ Hlog). reflexivity.
Qed.

Lemma asr_failure_short_circuits_silence_generates_witness :
  Voice.filter_noise "[NO_AUDIO]" = "[NO_AUDIO]"
  /\ (exists w',
        Voice.pipeline silent_env no_config "call-1" 0 "[NO_AUDIO]" answered_world
        = (Ret (Json 200 [Talk Voice.asr_apology true; Voice.listen no_config 15]), w')
        /\ calls_since (length (log answered_world)) w' = []
        /\ field (call_state w') "call-1" "processing" = Some (VBool false))
  /\ mem_str "[SILENCE]" Voice.asr_error_tags = false
  /\ (forall s, mem_str s Voice.asr_error_tags = false ->
        (Py.len s < 2)%nat
        \/ mem_str (Py.only_words_and_spaces (Py.strip (Py.lower s)))
                   Voice.noise_artifacts = true ->
        Voice.filter_noise s = "[SILENCE]")
  /\ (exists hist cn rt tid ph rest,
        calls_since (length (log answered_world))
                    (snd (Voice.pipeline silent_env no_config "call-1" 0 "[SILENCE]"
                                         answered_world))
        = AgentResponse "[SILENCE]" "" hist cn rt tid ph :: rest).
Proof.
  apply (asr_failure_short_circuits_silence_generates
           silent_env no_config "call-1" 0 answered_dict [] answered_world "[NO_AUDIO]").
  - split; reflexivity.
  - reflexivity.
  - reflexivity.
Defined.

(** ** A transfer tag survives the removal of the hang-up and wait tags *)

Section TextFacts.
Import Py.






























End TextFacts.

(** ** A transfer takes precedence over a hang-up *)

Section Transfer.
Context (env : Env) (cfg : Config).


End Transfer.




(** The reply of the witness has none of the earlier tags, and is spoken
    without its two tags. *)
Example transfer_and_hangup_plain :
  Py.search Py.sentiment_tag transfer_and_hangup = None
  /\ Py.search (Py.tag "[ACTION: CREATE_TICKET: " Py.is_dot 0) transfer_and_hangup = None
  /\ Py.search (Py.tag "[ACTION: USE_TICKET: " Py.is_digit 1) transfer_and_hangup = None
  /\ Py.search (Py.tag "[ACTION: RESOLVE_TICKET: " Py.is_digit 1) transfer_and_hangup = None
  /\ Py.search (Py.tag "[ACTION: UPDATE_NAME: " Py.is_dot 0) transfer_and_hangup = None
  /\ fst (Voice.pipeline transfer_env no_config "call-1" 0 "please transfer me"
            answered_world)
     = Ret (Json 200
              [Talk "Connecting you now.  Goodbye." false;
               Connect (VStr "12025550100") "+12025550199" 60
                 "https://carpogonial-candace-nonjuridically.ngrok-free.dev/voice/events"]).
Proof. vm_compute. repeat split. Qed.

(** What the turn answers to that reply, run from the start. *)
Example transfer_and_hangup_response :
  fst (Voice.route no_config "call-1" 0 transfer_and_hangup answered_world)
  = Ret [Talk "Connecting you now.  Goodbye." false;
         Connect (VStr "12025550100") "+12025550199" 60
           "https://carpogonial-candace-nonjuridically.ngrok-free.dev/voice/events"].
Proof. vm_compute. reflexivity. Qed.

(** ** The background executor *)

Section Executor.
Context (env : Env) (cfg : Config).

Lemma run_try_except_ret {S A} (m : M S A) h s a s' :
  m s = (Ret a, s') -> try_except m h s = (Ret a, s').
Proof. intros H. unfold try_except. by rewrite H. Qed.

Lemma run_try_except_raise {S A} (m : M S A) h s e s' :
  m s = (Raise e, s') -> try_except m h s = h e s'.
Proof. intros H. unfold try_except. by rewrite H. Qed.

Lemma for_each_app {S A} (l1 l2 : list A) (body : A -> M S unit) s s1 :
  for_each l1 body s = (Ret tt, s1) ->
  for_each (l1 ++ l2) body s = for_each l2 body s1.
Proof.
  revert s. induction l1 as [|x l1 IH]; intros s; simpl.
  - by intros [= <-].
  - unfold bind at 1 2. destruct (body x s) as [[[]|e] s'] eqn:Hx; [|done].
    apply IH.
Qed.

Lemma for_each_raise {S A} x (l : list A) (body : A -> M S unit) s e s' :
  body x s = (Raise e, s') -> for_each (x :: l) body s = (Raise e, s').
Proof. intros H. simpl. by apply run_bind_raise. Qed.

Lemma run_create_ticket a b c d e w :
  Freshdesk.create_ticket env a b c d e w
  = (Ret (created_id (env (log w) (CreateTicketHttp a b c d e))),
     world_await (CreateTicketHttp a b c d e) w).
Proof.
  unfold Freshdesk.create_ticket, try_except, bind, await.
  fold (world_await (CreateTicketHttp a b c d e) w).
  destruct (env _ _) as [[[| | |id| |]|]|]; try done.
  simpl. by destruct (String.eqb id "").
Qed.

End Executor.

(** C6, as stated, fails: the resolution tag raises ([int("abc")]), the
    executor's single handler catches it, and the adoption tag after it is
    never executed, although it is executed when it comes alone. *)
Lemma failed_action_stops_later_actions :
  fst (Main.execute_ai_action silent_env no_config "call-1" 0 VNone 0
         ("ACTION", "RESOLVE_TICKET: abc") answered_world) = Raise ValueError
  /\ Main.execute_ai_actions silent_env no_config "call-1" bad_resolve_then_use 0 VNone 0
       answered_world = (Ret tt, answered_world)
  /\ field (call_state answered_world) "call-1" "ticket_id" = Some VNone
  /\ field (call_state
              (snd (Main.execute_ai_actions silent_env no_config "call-1"
                      [("ACTION", "USE_TICKET: 55")] 0 VNone 0 answered_world)))
           "call-1" "ticket_id" = Some (VStr "55").
Proof. vm_compute. repeat split. Qed.

(** C6 (amended): the executor protects the dispatched list as a whole: it
    never surfaces an exception to its caller; when an action raises, the
    actions before it have had their effects, the state is the one the
    failing action left, and the actions after it are not executed. *)
Theorem executor_stops_at_first_failure
    (env : Env) (cfg : Config) (call_uuid : string) (l : loc) (region_url : Val)
    (text_len : nat) (tags1 tags2 : list (string * string)) (tag : string * string)
    (w w1 w2 : World) (e : Exn) :
  for_each tags1 (Main.execute_ai_action env cfg call_uuid l region_url text_len) w
    = (Ret tt, w1) ->
  Main.execute_ai_action env cfg call_uuid l region_url text_len tag w1 = (Raise e, w2) ->
  Main.execute_ai_actions env cfg call_uuid (tags1 ++ tag :: tags2) l region_url text_len w
    = (Ret tt, w2)
  /\ (forall all_tags w0,
        fst (Main.execute_ai_actions env cfg call_uuid all_tags l region_url text_len w0)
        = Ret tt).
Proof.
  intros H1 Htag. split.
  - unfold Main.execute_ai_actions.
    erewrite run_try_except_raise; [reflexivity|].
    rewrite (for_each_app _ _ _ _ _ H1). by apply for_each_raise.
  - intros all_tags w0. unfold Main.execute_ai_actions, try_except.
    destruct (for_each all_tags _ w0) as [[[]|x] w']; reflexivity.
Qed.

Lemma executor_stops_at_first_failure_witness :
  Main.execute_ai_actions silent_env no_config "call-1"
    ([] ++ ("ACTION", "RESOLVE_TICKET: abc") :: [("ACTION", "USE_TICKET: 55")])
    0 VNone 0 answered_world = (Ret tt, answered_world)
  /\ (forall all_tags w0,
        fst (Main.execute_ai_actions silent_env no_config "call-1" all_tags 0 VNone 0 w0)
        = Ret tt).
Proof.
  apply (executor_stops_at_first_failure silent_env no_config "call-1" 0 VNone 0
           [] [("ACTION", "USE_TICKET: 55")] ("ACTION", "RESOLVE_TICKET: abc")
           answered_world answered_world answered_world ValueError).
  - reflexivity.
  - vm_compute. reflexivity.
Defined.

(** ** The requests of a turn

    What the generation call of a turn is given, in both modes. *)

Section StreamingTurn.
Context (env : Env).

Lemma run_inject_vonage_tts call_uuid text region_url w :
  Telephony.inject_vonage_tts env call_uuid text region_url w
  = (Ret tt, world_await (TalkHttp call_uuid text region_url) w).
Proof.
  unfold Telephony.inject_vonage_tts, try_except, bind, await.
  fold (world_await (TalkHttp call_uuid text region_url) w).
  by destruct (env (log w) _).
Qed.

Lemma calls_since_await c w n :
  n <= length (log w) ->
  calls_since n (world_await c w) = calls_since n w ++ [c].
Proof.
  intros Hn. unfold calls_since. simpl. rewrite drop_app_le by done.
  by rewrite map_app.
Qed.

End StreamingTurn.

(** A streaming turn, run step by step. *)
Lemma run_streaming_turn
    (env : Env) (transcript call_uuid : string) (l : loc) (d : gmap string Val)
    (h : list Turn) (w : World) :
  call_uuid <> "" -> bound call_uuid l d w -> d !! "history" = Some (VHist h) ->
  let h1 := Py.last_n 50 (h ++ [mkTurn "user" transcript]) in
  let request := streaming_request transcript d h1 in
  exists w',
    Main.process_and_respond env transcript (VStr call_uuid) w = (Ret tt, w')
    /\ _processing_ai w' = false
    /\ match env (log w) request with
       | Ret (RVal (VStr ai_reply)) =>
           let clean_speech := Py.strip (Py.sub Main.any_tag "" ai_reply) in
           let all_tags := Py.findall Py.action_or_sentiment_tag ai_reply in
           let region_url := default VNone (d !! "region_url") in
           field (call_state w') call_uuid "history"
           = Some (VHist (Py.last_n 50 (h1 ++ [mkTurn "assistant" ai_reply])))
           /\ calls_since (length (log w)) w'
              = [request; TalkHttp call_uuid clean_speech region_url]
           /\ tasks w'
              = tasks w ++ match all_tags with
                           | [] => []
                           | _ => [ExecuteAiActions call_uuid all_tags l region_url
                                                    (Py.len clean_speech)]
                           end
       | _ =>
           field (call_state w') call_uuid "history" = Some (VHist h1)
           /\ calls_since (length (log w)) w' = [request]
           /\ tasks w' = tasks w
       end.
Proof.
  intros Hid Hb Hh h1 request.
  set (d1 := <["history" := VHist h1]> d).
  assert (bound call_uuid l d1 (world_set l d1 w)) as Hb1 by (by eapply bound_world_set).
  assert (calls_since (length (log w)) (world_await request (world_set l d1 w)) = [request])
    as Hlog1.
  { rewrite calls_since_await by done. unfold calls_since. simpl. by rewrite drop_all. }
  assert (field (call_state (world_set l d1 w)) call_uuid "history" = Some (VHist h1))
    as Hf1 by (erewrite field_world_set by done; apply lookup_insert_eq).
  unfold Main.process_and_respond, try_finally, try_except.
  rewrite (proj2 (String.eqb_neq call_uuid "") Hid).
  erewrite run_bind; [|by eapply run_append_history]. fold h1 d1.
  erewrite run_bind; [|by eapply run_get_call_state].
  erewrite run_bind; [|by eapply run_dict_get_default].
  erewrite run_bind; [|by eapply run_dict_get].
  erewrite run_bind; [|by eapply run_dict_get_default].
  erewrite run_bind; [|by eapply run_dict_get].
  erewrite run_bind; [|by eapply run_dict_get].
  unfold d1 at 1 2 3 4 5. rewrite lookup_insert_eq, !lookup_insert_ne by done. simpl.
  fold request.
  assert (Groq.agent_response env transcript "" (VHist h1)
            (default VNone (d !! "contact_name"))
            (default (VTickets []) (d !! "recent_tickets"))
            (default VNone (d !! "ticket_id")) (default VNone (d !! "phone"))
            (world_set l d1 w)
          = match env (log w) request with
            | Ret (RVal (VStr reply)) => (Ret reply, world_await request (world_set l d1 w))
            | Ret _ => (Raise TypeError, world_await request (world_set l d1 w))
            | Raise x => (Raise x, world_await request (world_set l d1 w))
            end) as Hgen
    by exact (run_agent_response env _ _ _ _ _ _ _ (world_set l d1 w)).
  destruct (env (log w) request) as [[[| | |ai_reply| |]|]|] eqn:Henv;
    try (erewrite run_bind_raise by exact Hgen;
         eexists; split; [reflexivity|]; split; [done|];
         split; [exact Hf1|]; split; [exact Hlog1|done]).
  erewrite run_bind by exact Hgen.
  set (w2 := world_await request (world_set l d1 w)).
  assert (bound call_uuid l d1 w2) as Hb2 by (by apply bound_world_await).
  erewrite run_bind;
    [|eapply run_append_history; [exact Hb2|apply lookup_insert_eq]].
  set (d2 := <["history" := VHist (Py.last_n 50 (h1 ++ [mkTurn "assistant" ai_reply]))]> d1).
  assert (bound call_uuid l d2 (world_set l d2 w2)) as Hb3 by (by eapply bound_world_set).
  erewrite run_bind; [|by eapply run_dict_get].
  assert (d2 !! "region_url" = d !! "region_url") as ->
    by (unfold d2, d1; by rewrite !lookup_insert_ne).
  rewrite run_bind with (a := tt)
    (s' := world_await (TalkHttp call_uuid (Py.strip (Py.sub Main.any_tag "" ai_reply))
                                 (default VNone (d !! "region_url")))
                       (world_set l d2 w2)) by apply run_inject_vonage_tts.
  cbv zeta.
  assert (field (call_state (world_set l d2 w2)) call_uuid "history"
          = Some (VHist (Py.last_n 50 (h1 ++ [mkTurn "assistant" ai_reply])))) as Hf2
    by (erewrite field_world_set by exact Hb2; apply lookup_insert_eq).
  assert (calls_since (length (log w))
            (world_await (TalkHttp call_uuid (Py.strip (Py.sub Main.any_tag "" ai_reply))
                                   (default VNone (d !! "region_url")))
                         (world_set l d2 w2))
          = [request; TalkHttp call_uuid (Py.strip (Py.sub Main.any_tag "" ai_reply))
                               (default VNone (d !! "region_url"))]) as Hlog2.
  { rewrite calls_since_await by (simpl; rewrite length_app; lia).
    change (calls_since (length (log w)) (world_set l d2 w2)) with
      (calls_since (length (log w)) w2). unfold w2. by rewrite Hlog1. }
  destruct (Py.findall Py.action_or_sentiment_tag ai_reply) as [|tag tags];
    (eexists; split; [reflexivity|]; split; [done|];
     split; [exact Hf2|]; split; [exact Hlog2|]).
  - simpl. by rewrite app_nil_r.
  - reflexivity.
Qed.

Section Generation.
Context (env : Env).

Lemma run_fetch_combined_knowledge query w :
  exists kb w1,
    Voice.fetch_combined_knowledge env query w = (Ret kb, w1)
    /\ call_state w1 = call_state w
    /\ length (log w) <= length (log w1).
Proof.
  unfold Voice.fetch_combined_knowledge.
  destruct (String.eqb _ _); [by exists "", w|].
  unfold try_except, bind, await.
  destruct (env (log w) _) as [[[| | |kb| |]|]|];
    eexists _, _; (split; [reflexivity|]); simpl; rewrite ?length_app; simpl;
    split; try done; lia.
Qed.

(** The generation call of a batch turn is made, and for the call's dict as
    it stands. *)
Lemma run_generate_request call_uuid l d h speech_text w :
  bound call_uuid l d w -> d !! "history" = Some (VHist h) ->
  exists kb,
    last (calls_since (length (log w)) (snd (Voice.generate env l speech_text w)))
    = Some (AgentResponse speech_text kb (VHist h)
              (default VNone (d !! "contact_name"))
              (default (VTickets []) (d !! "recent_tickets"))
              (default VNone (d !! "ticket_id"))
              (default VNone (d !! "phone"))).
Proof.
  intros Hb Hh. unfold Voice.generate. cbv zeta.
  assert (exists kb w1,
            (if (Py.len speech_text <? 10)%nat
                || mem_str (Py.only_words_and_spaces (Py.strip (Py.lower speech_text)))
                           Voice.confirmations
             then ret ""
             else Voice.fetch_combined_knowledge env speech_text) w = (Ret kb, w1)
            /\ call_state w1 = call_state w
            /\ length (log w) <= length (log w1)) as (kb & w1 & Hkb & Hσ & Hlen).
  { destruct (_ || _); [by exists "", w|]. apply run_fetch_combined_knowledge. }
  assert (bound call_uuid l d w1) as Hb1 by (unfold bound; by rewrite Hσ).
  exists kb.
  erewrite run_bind by exact Hkb.
  erewrite run_bind; [|by eapply run_dict_get].
  erewrite run_bind; [|by eapply run_dict_item].
  erewrite run_bind; [|by eapply run_dict_get].
  erewrite run_bind; [|by eapply run_dict_get_default].
  erewrite run_bind; [|by eapply run_dict_get].
  rewrite run_agent_response.
  match goal with
  | |- context [world_await ?c w1] =>
      assert (forall (X : Outcome string * World), snd X = world_await c w1 ->
                last (calls_since (length (log w)) (snd X)) = Some c) as Hlast
  end.
  { intros X ->. rewrite calls_since_await by done. apply last_snoc. }
  apply Hlast. by destruct (env (log w1) _) as [[[]|]|].
Qed.

End Generation.

(** ** Ticket creation is not gated on the attached ticket *)

(** C1, as stated, fails on both paths: the call has ticket 101 attached,
    and a ticket-creation tag still reaches the helpdesk and replaces the
    attached id by the new one, in the background executor and in the batch
    pipeline (where the generation call was given 101 as the active
    ticket). *)
Lemma second_ticket_is_created :
  field (call_state ticketed_world) "call-1" "ticket_id" = Some (VStr "101")
  /\ (let w' := snd (Main.execute_ai_actions helpdesk_env no_config "call-1"
                       [("ACTION", "CREATE_TICKET: printer jam")] 0 VNone 0
                       ticketed_world) in
      calls_since 0 w'
      = [CreateTicketHttp "call-1" "printer jam" VNone (VStr "Neutral") (VInt 7)]
      /\ field (call_state w') "call-1" "ticket_id" = Some (VStr "202"))
  /\ (let w' := snd (Voice.handle_voice_asr helpdesk_env no_config
                       (mkAsr "call-1" (VStr "UklGRg==") VNone) ticketed_world) in
      calls_since 0 w'
      = [TranscribeWhisper (VStr "UklGRg==");
         FetchCombinedKnowledge "my printer is jammed again";
         AgentResponse "my printer is jammed again" ""
           (VHist [mkTurn "user" "my printer is jammed again"])
           (VStr "Alice") (VTickets []) (VStr "101") (VStr "+15551234567");
         CreateTicketHttp "call-1" "printer jam" (VStr "+15551234567")
           (VStr "Neutral") (VInt 7)]
      /\ field (call_state w') "call-1" "ticket_id" = Some (VStr "202")).
Proof. vm_compute. repeat split. Qed.

Section TicketCreation.
Context (env : Env) (cfg : Config).

(** The executor on a ticket-creation tag. *)
Lemma run_execute_create_ticket call_uuid l d w region_url text_len tag_content :
  bound call_uuid l d w ->
  Py.upper (hd "" (map Py.strip (Py.split ":" tag_content))) = "CREATE_TICKET" ->
  let desc := match map Py.strip (Py.split ":" tag_content) with
              | _ :: p :: _ => p
              | _ => "No description provided"
              end in
  let c := CreateTicketHttp call_uuid desc (default VNone (d !! "from"))
             (default (VStr "Neutral") (d !! "sentiment"))
             (default VNone (d !! "contact_id")) in
  let id := created_id (env (log w) c) in
  Main.execute_ai_action env cfg call_uuid l region_url text_len ("ACTION", tag_content) w
  = (Ret tt,
     if truthy id then world_set l (<["ticket_id" := id]> d) (world_await c w)
     else world_await c w).
Proof.
  intros Hb Hcmd desc c id. unfold Main.execute_ai_action.
  change (String.eqb "ACTION" "SENTIMENT") with false. cbv iota zeta.
  rewrite Hcmd. change (String.eqb "CREATE_TICKET" "TRANSFER") with false.
  change (String.eqb "CREATE_TICKET" "CREATE_TICKET") with true. cbv iota.
  assert (Main.part1 (map Py.strip (Py.split ":" tag_content))
                     (VStr "No description provided") = VStr desc) as ->.
  { unfold desc, Main.part1. by destruct (map _ _) as [|? [|? ?]]. }
  unfold bind at 1. unfold ret at 1.
  erewrite run_bind; [|by eapply run_dict_get].
  erewrite run_bind; [|by eapply run_dict_get].
  erewrite run_bind; [|by eapply run_dict_get_default].
  erewrite run_bind; [|apply run_create_ticket].
  fold c. fold id. destruct (truthy id); [|done].
  assert (bound call_uuid l d (world_await c w)) as Hb1 by (by apply bound_world_await).
  erewrite run_bind; [|by eapply run_dict_set].
  eapply run_set_call_state, bound_world_set, Hb1.
Qed.

(** The batch pipeline on a reply with a ticket-creation tag. *)
Lemma run_detect_create_ticket call_uuid l d w t issue_summary :
  bound call_uuid l d w ->
  Py.search (Py.tag "[ACTION: CREATE_TICKET: " Py.is_dot 0) t = Some issue_summary ->
  let c := CreateTicketHttp call_uuid issue_summary (default VNone (d !! "phone"))
             (default (VStr "Neutral") (d !! "sentiment"))
             (default VNone (d !! "contact_id")) in
  Voice.detect_create_ticket env call_uuid l t w
  = (Ret (Py.strip (Py.sub (Py.tag "[ACTION: CREATE_TICKET: " Py.is_dot 0) "" t)),
     world_set l (<["ticket_id" := created_id (env (log w) c)]> d) (world_await c w)).
Proof.
  intros Hb Hfound c. unfold Voice.detect_create_ticket. rewrite Hfound.
  erewrite run_bind; [|by eapply run_dict_get].
  erewrite run_bind; [|by eapply run_dict_get_default].
  erewrite run_bind; [|by eapply run_dict_get].
  erewrite run_bind; [|apply run_create_ticket].
  fold c.
  assert (bound call_uuid l d (world_await c w)) as Hb1 by (by apply bound_world_await).
  erewrite run_bind; [|by eapply run_dict_set].
  erewrite run_bind; [|eapply run_set_call_state, bound_world_set, Hb1].
  done.
Qed.

End TicketCreation.

(** C1 (amended): a ticket-creation tag is processed the same way whatever
    ticket id the call has attached: the helpdesk is asked once to create a
    ticket, and when it returns an id that id becomes the call's
    [ticket_id], replacing the one attached before.  In the background
    executor the attached id stays when no id comes back.  The attached id
    is what every generation call is given as the active ticket: the call of
    a batch turn, and the call of a streaming turn, which is the turn's first
    request. *)
Theorem create_ticket_tag_is_not_gated
    (env : Env) (cfg : Config) (call_uuid : string) (l : loc)
    (d : gmap string Val) (h : list Turn) (w : World) (attached : Val) :
  bound call_uuid l d w ->
  d !! "ticket_id" = Some attached ->
  d !! "history" = Some (VHist h) ->
  call_uuid <> "" ->
  (forall region_url text_len tag_content,
      Py.upper (hd "" (map Py.strip (Py.split ":" tag_content))) = "CREATE_TICKET" ->
      exists desc w',
        let c := CreateTicketHttp call_uuid desc (default VNone (d !! "from"))
                   (default (VStr "Neutral") (d !! "sentiment"))
                   (default VNone (d !! "contact_id")) in
        Main.execute_ai_action env cfg call_uuid l region_url text_len
          ("ACTION", tag_content) w = (Ret tt, w')
        /\ calls_since (length (log w)) w' = [c]
        /\ field (call_state w') call_uuid "ticket_id"
           = Some (if truthy (created_id (env (log w) c))
                   then created_id (env (log w) c) else attached))
  /\ (forall t issue_summary,
        Py.search (Py.tag "[ACTION: CREATE_TICKET: " Py.is_dot 0) t = Some issue_summary ->
        exists t' w',
          let c := CreateTicketHttp call_uuid issue_summary (default VNone (d !! "phone"))
                     (default (VStr "Neutral") (d !! "sentiment"))
                     (default VNone (d !! "contact_id")) in
          Voice.detect_create_ticket env call_uuid l t w = (Ret t', w')
          /\ calls_since (length (log w)) w' = [c]
          /\ (forall id, created_id (env (log w) c) = VStr id ->
                field (call_state w') call_uuid "ticket_id" = Some (VStr id)))
  /\ (forall speech_text,
        exists kb,
          last (calls_since (length (log w)) (snd (Voice.generate env l speech_text w)))
          = Some (AgentResponse speech_text kb (VHist h)
                    (default VNone (d !! "contact_name"))
                    (default (VTickets []) (d !! "recent_tickets"))
                    attached
                    (default VNone (d !! "phone"))))
  /\ (forall transcript,
        head (calls_since (length (log w))
                (snd (Main.process_and_respond env transcript (VStr call_uuid) w)))
        = Some (AgentResponse transcript ""
                  (VHist (Py.last_n 50 (h ++ [mkTurn "user" transcript])))
                  (default VNone (d !! "contact_name"))
                  (default (VTickets []) (d !! "recent_tickets"))
                  attached
                  (default VNone (d !! "phone")))).
Proof.
  intros Hb Hattached Hh Hid. split; [|split; [|split]].
  - intros region_url text_len tag_content Hcmd.
    pose proof (run_execute_create_ticket env cfg call_uuid l d w region_url
                  text_len tag_content Hb Hcmd) as Hrun.
    cbv zeta in Hrun. cbv zeta.
    destruct (truthy (created_id _)) eqn:Hcr in Hrun |- *;
      (do 2 eexists; split; [exact Hrun|]; rewrite ?Hcr; split).
    + unfold calls_since. simpl. by rewrite drop_app_length.
    + erewrite field_world_set by (by eapply bound_world_await).
      apply lookup_insert_eq.
    + unfold calls_since. simpl. by rewrite drop_app_length.
    + unfold field. simpl. destruct Hb as [-> ->]. done.
  - intros t issue_summary Hfound.
    do 2 eexists. cbv zeta. split; [by eapply run_detect_create_ticket|]. split.
    + unfold calls_since. simpl. by rewrite drop_app_length.
    + intros id Hcr. erewrite field_world_set by (by eapply bound_world_await).
      rewrite Hcr. apply lookup_insert_eq.
  - intros speech_text.
    destruct (run_generate_request env call_uuid l d h speech_text w Hb Hh) as [kb Hkb].
    exists kb. rewrite Hkb. by rewrite Hattached.
  - intros transcript.
    destruct (run_streaming_turn env transcript call_uuid l d h w Hid Hb Hh)
      as (w' & Hrun & _ & Hcases).
    rewrite Hrun. cbn [snd]. unfold streaming_request in Hcases.
    rewrite Hattached in Hcases. cbn [default] in Hcases.
    destruct (env (log w) _) as [[[| | |ai_reply| |]|]|];
      destruct Hcases as (_ & -> & _); reflexivity.
Qed.

Lemma create_ticket_tag_is_not_gated_witness :
  (forall region_url text_len tag_content,
      Py.upper (hd "" (map Py.strip (Py.split ":" tag_content))) = "CREATE_TICKET" ->
      exists desc w',
        let c := CreateTicketHttp "call-1" desc (default VNone (ticketed_dict !! "from"))
                   (default (VStr "Neutral") (ticketed_dict !! "sentiment"))
                   (default VNone (ticketed_dict !! "contact_id")) in
        Main.execute_ai_action helpdesk_env no_config "call-1" 0 region_url text_len
          ("ACTION", tag_content) ticketed_world = (Ret tt, w')
        /\ calls_since (length (log ticketed_world)) w' = [c]
        /\ field (call_state w') "call-1" "ticket_id"
           = Some (if truthy (created_id (helpdesk_env (log ticketed_world) c))
                   then created_id (helpdesk_env (log ticketed_world) c)
                   else VStr "101"))
  /\ (forall t issue_summary,
        Py.search (Py.tag "[ACTION: CREATE_TICKET: " Py.is_dot 0) t = Some issue_summary ->
        exists t' w',
          let c := CreateTicketHttp "call-1" issue_summary
                     (default VNone (ticketed_dict !! "phone"))
                     (default (VStr "Neutral") (ticketed_dict !! "sentiment"))
                     (default VNone (ticketed_dict !! "contact_id")) in
          Voice.detect_create_ticket helpdesk_env "call-1" 0 t ticketed_world = (Ret t', w')
          /\ calls_since (length (log ticketed_world)) w' = [c]
          /\ (forall id, created_id (helpdesk_env (log ticketed_world) c) = VStr id ->
                field (call_state w') "call-1" "ticket_id" = Some (VStr id)))
  /\ (forall speech_text,
        exists kb,
          last (calls_since (length (log ticketed_world))
                  (snd (Voice.generate helpdesk_env 0 speech_text ticketed_world)))
          = Some (AgentResponse speech_text kb (VHist [])
                    (default VNone (ticketed_dict !! "contact_name"))
                    (default (VTickets []) (ticketed_dict !! "recent_tickets"))
                    (VStr "101")
                    (default VNone (ticketed_dict !! "phone"))))
  /\ (forall transcript,
        head (calls_since (length (log ticketed_world))
                (snd (Main.process_and_respond helpdesk_env transcript (VStr "call-1")
                        ticketed_world)))
        = Some (AgentResponse transcript ""
                  (VHist (Py.last_n 50 ([] ++ [mkTurn "user" transcript])))
                  (default VNone (ticketed_dict !! "contact_name"))
                  (default (VTickets []) (ticketed_dict !! "recent_tickets"))
                  (VStr "101")
                  (default VNone (ticketed_dict !! "phone")))).
Proof.
  apply (create_ticket_tag_is_not_gated helpdesk_env no_config "call-1" 0
           ticketed_dict [] ticketed_world (VStr "101")).
  - split; reflexivity.
  - reflexivity.
  - reflexivity.
  - discriminate.
Defined.

(** ** The executor renames a contact without the batch path's test *)

(** C9: the call has the contact 7, named Alice.  The reply of a streaming
    turn carries one rename tag; the executor sends the rename to the
    helpdesk and overwrites the name in the call's dict, for a new name
    (Bob) as for a number (12345), although Alice is not placeholder-like.
    The batch pipeline, on the same dict and the same tag, leaves both
    alone. *)
Theorem executor_renames_a_named_contact :
  field (call_state ticketed_world) "call-1" "contact_name" = Some (VStr "Alice")
  /\ fst (Voice.is_placeholder (VStr "Alice") tt) = Ret false
  /\ Py.findall Py.action_or_sentiment_tag "Thanks Bob. [ACTION: UPDATE_NAME: Bob]"
     = [("ACTION", "UPDATE_NAME: Bob")]
  /\ (let w' := snd (Main.execute_ai_actions helpdesk_env no_config "call-1"
                       [("ACTION", "UPDATE_NAME: Bob")] 0 VNone 0 ticketed_world) in
      calls_since 0 w' = [UpdateContactNameHttp (VInt 7) "Bob"]
      /\ field (call_state w') "call-1" "contact_name" = Some (VStr "Bob"))
  /\ (let w' := snd (Main.execute_ai_actions helpdesk_env no_config "call-1"
                       [("ACTION", "UPDATE_NAME: 12345")] 0 VNone 0 ticketed_world) in
      calls_since 0 w' = [UpdateContactNameHttp (VInt 7) "12345"]
      /\ field (call_state w') "call-1" "contact_name" = Some (VStr "12345"))
  /\ Voice.detect_update_name helpdesk_env "call-1" 0
       "Thanks Bob. [ACTION: UPDATE_NAME: Bob]" ticketed_world
     = (Ret "Thanks Bob.", ticketed_world).
Proof. vm_compute. repeat split. Qed.

(** ** A turn for a call id the store has not seen *)

Lemma get_call_state_creates call_uuid σ :
  calls σ !! call_uuid = None ->
  App.get_call_state call_uuid σ
  = (Ret (fresh (dom (objs σ))),
     mkState (<[fresh (dom (objs σ)) := App.default_call]> (objs σ))
             (<[call_uuid := fresh (dom (objs σ))]> (calls σ))).
Proof. intros H. unfold App.get_call_state, bind, get. by rewrite H. Qed.

(** The dict [get_call_state] creates is not empty, so the test that would
    answer 404 lets the turn in. *)
Lemma unknown_call_enters_the_turn env cfg data w :
  calls (call_state w) !! asr_uuid data = None ->
  let l := fresh (dom (objs (call_state w))) in
  let w1 := with_state
              (mkState (<[l := App.default_call]> (objs (call_state w)))
                       (<[asr_uuid data := l]> (calls (call_state w)))) w in
  bound (asr_uuid data) l App.default_call w1
  /\ Voice.handle_voice_asr env cfg data w
     = (let* entered := Voice.enter_turn env (asr_uuid data) l in
        match entered with
        | None => ret (Json 200 [])
        | Some call_state => Voice.turn env cfg data call_state
        end) w1.
Proof.
  intros Hnew l w1. split.
  - split; simpl; apply lookup_insert_eq.
  - unfold Voice.handle_voice_asr. unfold bind at 1. unfold lift at 1.
    rewrite (get_call_state_creates _ _ Hnew). fold l. fold w1.
    unfold bind at 1. unfold lift at 1, Voice.dict_is_empty. simpl.
    rewrite lookup_insert_eq.
    assert (bool_decide (App.default_call = ∅) = false) as -> by done.
    by destruct w.
Qed.

(** C7: a turn for the call id "ghost", on a store that holds no call.  The
    answer is the ordinary 200 with the apology for the missing audio, not
    the 404; the store has a session for "ghost" afterwards, with the turn
    in its transcript. *)
Theorem asr_for_unknown_call_creates_a_session :
  let r := Voice.handle_voice_asr silent_env no_config
             (mkAsr "ghost" VNone VNone) initial_world in
  calls (call_state initial_world) !! "ghost" = None
  /\ fst r = Ret (Json 200 [Talk Voice.asr_apology true; Voice.listen no_config 15])
  /\ fst r <> Ret (JsonError 404 "No session")
  /\ calls (call_state (snd r)) !! "ghost" = Some 0%nat
  /\ field (call_state (snd r)) "ghost" "history"
     = Some (VHist [mkTurn "user" "[NO_AUDIO]"])
  /\ field (call_state (snd r)) "ghost" "processing" = Some (VBool false).
Proof. vm_compute. repeat split; discriminate. Qed.

(** ** Names that are not names *)

Section Names.

Lemma lower_cons c s : Py.lower (String c s) = String (Py.to_lower c) (Py.lower s).
Proof. reflexivity. Qed.

Lemma to_lower_u c : Py.to_lower c = "u"%char -> Py.is_alpha c = true.
Proof.
  unfold Py.to_lower, Py.is_alpha. destruct (Py.is_upper c); [done|].
  by intros ->.
Qed.

(** A name that reads "unknown" in lower case starts with a letter. *)
Lemma lower_unknown_has_letter n : Py.lower n = "unknown" -> Py.has_letter n = true.
Proof.
  destruct n as [|c n]; [done|]. rewrite lower_cons. intros [= Hc _].
  unfold Py.has_letter. simpl. by rewrite (to_lower_u c Hc).
Qed.

Lemma is_valid_name_false n :
  Py.has_letter n = false \/ Py.lower n = "unknown" -> Voice.is_valid_name n = false.
Proof.
  unfold Voice.is_valid_name. intros [->| ->].
  - by rewrite andb_false_r.
  - by rewrite andb_false_r.
Qed.

Lemma keeps_any {S A} (m : M S A) : keeps (fun _ => True) m (fun _ => True).
Proof. intros s _. by destruct (m s) as [[a|e] s']. Qed.

Lemma keeps_then {S A B} (m : M S A) (k : A -> M S B) ψ :
  (forall a, keeps (fun _ => True) (k a) ψ) -> keeps (fun _ => True) (bind m k) ψ.
Proof. intros Hk. eapply keeps_bind; [apply keeps_any|]. intros a _. apply Hk. Qed.

Lemma keeps_is_valid_name_val {S} (name : Val) :
  keeps (fun _ : S => True) (Voice.is_valid_name_val name)
        (fun valid => name_ok (if valid then name else VNone)).
Proof.
  destruct name as [|[]| |n|[]|[]]; simpl;
    try apply keeps_raise; try (apply keeps_ret; by left).
  apply keeps_ret. destruct (Voice.is_valid_name n) eqn:Hn; [right|by left].
  by exists n.
Qed.

Lemma keeps_greeting_for {S} (raw_name : Val) :
  keeps (fun _ : S => True) (Voice.greeting_for raw_name) greeting_ok.
Proof.
  unfold Voice.greeting_for.
  destruct raw_name as [|[]| |n|[]|[]];
    try (apply keeps_then; intros ?; apply keeps_ret; by left).
  intros s _. unfold bind, ret. simpl. split; [done|].
  destruct (Voice.is_valid_name n) eqn:Hn; [right|by left]. by exists n.
Qed.

Lemma keeps_lookup_contact env from_number :
  keeps (fun _ => True) (Voice.lookup_contact env from_number)
        (fun r => match r with
                  | Some (_, contact_name, _) => name_ok contact_name
                  | None => True
                  end).
Proof.
  unfold Voice.lookup_contact.
  apply keeps_try_except; [|intros _; by apply keeps_ret].
  apply keeps_then. intros contact0. apply keeps_then. intros contact.
  destruct (negb _ && truthy _); [|by apply keeps_ret].
  eapply keeps_bind; [apply keeps_is_valid_name_val|]. intros valid Hvalid.
  apply keeps_then. intros recent_tickets. by apply keeps_ret.
Qed.

Lemma keeps_handle_voice_answer env cfg data :
  keeps (fun _ => True) (Voice.handle_voice_answer env cfg data)
        (fun r => r = JsonError 500 "error"
                  \/ exists g ws_url call_uuid,
                       r = Json 200 [Talk g false; ConnectWebsocket ws_url call_uuid]
                       /\ greeting_ok g).
Proof.
  unfold Voice.handle_voice_answer.
  apply keeps_try_except; [|intros _; apply keeps_ret; by left].
  apply keeps_then. intros fresh_dict. apply keeps_then. intros _.
  eapply keeps_bind
    with (φ := greeting_ok);
    [|intros g Hg; apply keeps_then; intros _; apply keeps_ret; right; eauto].
  destruct (negb _ && _).
  - apply keeps_try_except; [|intros _; apply keeps_ret; by left].
    apply keeps_then. intros done. apply keeps_then. intros _.
    destruct done as [_|]; [|apply keeps_raise].
    apply keeps_then. intros cs. apply keeps_then. intros [|].
    + apply keeps_ret. by left.
    + apply keeps_then. intros raw_name. apply keeps_greeting_for.
  - apply keeps_then. intros cs. apply keeps_then. intros _.
    apply keeps_then. intros _. apply keeps_ret. by left.
Qed.

End Names.

Section NamesSurface.

Lemma chars_app (a b : string) : Py.chars (a ++ b)%string = Py.chars a ++ Py.chars b.
Proof.
  induction a as [|c a IH]; [done|]. rewrite string_app_cons. simpl. by rewrite IH.
Qed.

Lemma personal_greeting_inj m n :
  Voice.personal_greeting m = Voice.personal_greeting n -> m = n.
Proof.
  unfold Voice.personal_greeting. intros H.
  apply (f_equal Py.chars) in H. rewrite !chars_app in H.
  apply app_inv_head, app_inv_tail in H.
  apply (f_equal Py.str) in H. by rewrite !PyFacts.str_chars in H.
Qed.

Lemma generic_not_personal n : Voice.generic_greeting <> Voice.personal_greeting n.
Proof.
  unfold Voice.personal_greeting. intros H.
  apply (f_equal Py.chars) in H. rewrite chars_app in H. discriminate H.
Qed.

Lemma greeting_ok_not_personal g n :
  Voice.is_valid_name n = false -> greeting_ok g -> g <> Voice.personal_greeting n.
Proof.
  intros Hn [->|(m & Hm & ->)].
  - apply generic_not_personal.
  - intros ->%personal_greeting_inj. congruence.
Qed.

Lemma customer_info_no_letter n :
  Py.has_letter n = false ->
  Groq.customer_info (Some n)
  = if String.eqb n "" then None else Some "CUSTOMER INFO: Talking to Unknown.".
Proof.
  intros H. unfold Groq.customer_info, Groq.display_name. rewrite H.
  destruct (String.eqb n "") eqn:Hn; simpl; [by rewrite Hn|done].
Qed.

Lemma customer_info_unknown n :
  Py.lower n = "unknown" ->
  Groq.customer_info (Some n) = Some ("CUSTOMER INFO: Talking to " ++ n ++ ".")%string.
Proof.
  intros H. unfold Groq.customer_info, Groq.display_name.
  rewrite (lower_unknown_has_letter n H).
  destruct (String.eqb n "") eqn:Hn; simpl; [|by rewrite Hn].
  apply String.eqb_eq in Hn as ->. discriminate H.
Qed.

End NamesSurface.

(** A contact the helpdesk knows under a number, or as "Unknown", is greeted
    like a stranger, and the call's dict holds no name for the generation
    call; a contact with a name is greeted by it. *)
Example greeting_of_known_contacts :
  spoken (fst (Voice.handle_voice_answer (contact_env (VStr "15551234567")) no_config
                 answer_request initial_world)) = Some Voice.generic_greeting
  /\ field (call_state (snd (Voice.handle_voice_answer (contact_env (VStr "15551234567"))
                               no_config answer_request initial_world)))
           "call-1" "contact_name" = Some VNone
  /\ spoken (fst (Voice.handle_voice_answer (contact_env (VStr "UNKNOWN")) no_config
                    answer_request initial_world)) = Some Voice.generic_greeting
  /\ field (call_state (snd (Voice.handle_voice_answer (contact_env (VStr "UNKNOWN"))
                               no_config answer_request initial_world)))
           "call-1" "contact_name" = Some VNone
  /\ spoken (fst (Voice.handle_voice_answer (contact_env (VStr "Alice")) no_config
                    answer_request initial_world))
     = Some "Hello Alice. Welcome back to Sandeza support. How can I help you today?".
Proof. vm_compute. repeat split. Qed.

(** C8: a contact name without a letter, or that reads "unknown" in lower
    case, fails the name test.  The answer handler greets with the generic
    greeting when it finds that name in the call's dict, and whatever the
    collaborators do its response never greets by that name.  The lookup
    never hands that name over to the call's dict (it hands over [None]), so
    the generation call gets no name from it; and a name of that kind that
    reaches the generation call all the same is left out of the prompt (the
    empty name) or appears there as "Unknown", in some case of its
    letters. *)
Theorem placeholder_names_are_treated_as_absent (n : string) :
  Py.has_letter n = false \/ Py.lower n = "unknown" ->
  Voice.is_valid_name n = false
  /\ (forall w : World, Voice.greeting_for (VStr n) w = (Ret Voice.generic_greeting, w))
  /\ (forall env cfg data w,
        exists r, fst (Voice.handle_voice_answer env cfg data w) = Ret r
          /\ (r = JsonError 500 "error"
              \/ exists g ws_url call_uuid,
                   r = Json 200 [Talk g false; ConnectWebsocket ws_url call_uuid]
                   /\ g <> Voice.personal_greeting n))
  /\ (forall w : World, Voice.is_valid_name_val (VStr n) w = (Ret false, w))
  /\ (forall env from_number w contact_id contact_name recent_tickets,
        fst (Voice.lookup_contact env from_number w)
        = Ret (Some (contact_id, contact_name, recent_tickets)) ->
        contact_name <> VStr n)
  /\ (Groq.customer_info (Some n) = None
      \/ exists shown, Py.lower shown = "unknown"
           /\ Groq.customer_info (Some n)
              = Some ("CUSTOMER INFO: Talking to " ++ shown ++ ".")%string).
Proof.
  intros Hn. pose proof (is_valid_name_false n Hn) as Hv.
  split; [done|]. split; [|split; [|split; [|split]]].
  - intros w. unfold Voice.greeting_for, Voice.is_valid_name_val, bind, ret.
    by rewrite Hv.
  - intros env cfg data w.
    pose proof (keeps_handle_voice_answer env cfg data w I) as H.
    assert (exists r, fst (Voice.handle_voice_answer env cfg data w) = Ret r) as [r Hr].
    { unfold Voice.handle_voice_answer, try_except.
      destruct (bind _ _ w) as [[r|e] w']; simpl; eauto. }
    exists r. split; [done|].
    destruct (Voice.handle_voice_answer env cfg data w) as [[r'|e] w']; simpl in Hr; [|done].
    injection Hr as ->. destruct H as [_ [->|(g & ws & u & -> & Hg)]]; [by left|right].
    exists g, ws, u. split; [done|]. by apply greeting_ok_not_personal.
  - intros w. unfold Voice.is_valid_name_val, ret. by rewrite Hv.
  - intros env from_number w contact_id contact_name recent_tickets Hrun.
    pose proof (keeps_lookup_contact env from_number w I) as H.
    destruct (Voice.lookup_contact env from_number w) as [[r'|e] w']; simpl in Hrun; [|done].
    injection Hrun as ->. destruct H as [_ [->|(m & Hm & ->)]]; [done|].
    intros [= ->]. congruence.
  - destruct Hn as [Hn|Hn].
    + rewrite (customer_info_no_letter n Hn).
      destruct (String.eqb n ""); [by left|right]. by exists "Unknown".
    + right. exists n. split; [done|]. by apply customer_info_unknown.
Qed.

Lemma placeholder_names_are_treated_as_absent_witness :
  Voice.is_valid_name "15551234567" = false
  /\ (forall w : World,
        Voice.greeting_for (VStr "15551234567") w = (Ret Voice.generic_greeting, w))
  /\ (forall env cfg data w,
        exists r, fst (Voice.handle_voice_answer env cfg data w) = Ret r
          /\ (r = JsonError 500 "error"
              \/ exists g ws_url call_uuid,
                   r = Json 200 [Talk g false; ConnectWebsocket ws_url call_uuid]
                   /\ g <> Voice.personal_greeting "15551234567"))
  /\ (forall w : World, Voice.is_valid_name_val (VStr "15551234567") w = (Ret false, w))
  /\ (forall env from_number w contact_id contact_name recent_tickets,
        fst (Voice.lookup_contact env from_number w)
        = Ret (Some (contact_id, contact_name, recent_tickets)) ->
        contact_name <> VStr "15551234567")
  /\ (Groq.customer_info (Some "15551234567") = None
      \/ exists shown, Py.lower shown = "unknown"
           /\ Groq.customer_info (Some "15551234567")
              = Some ("CUSTOMER INFO: Talking to " ++ shown ++ ".")%string).
Proof.
  apply (placeholder_names_are_treated_as_absent "15551234567").
  left. reflexivity.
Defined.

(** ** One turn at a time *)

Lemma Forall_drop_snoc {A} (P : A -> Prop) n (l : list A) x :
  Forall P (drop n l) -> P x -> Forall P (drop n (l ++ [x])).
Proof.
  intros Hl Hx. rewrite drop_app. apply Forall_app. split; [done|].
  destruct (n - length l) as [|k]; simpl; [by constructor|].
  rewrite drop_nil. constructor.
Qed.

Global Instance in_flight_inv n call_uuid l :
  SessionInv call_uuid l pipeline_keys (in_flight n call_uuid l).
Proof.
  split.
  - by intros w [H _].
  - intros w d k v (Hc & (d0 & Hd0 & Hp) & Hlog) Hd Hk.
    split; [done|]. split; [|done].
    exists (<[k := v]> d). simpl. rewrite lookup_insert_eq. split; [done|].
    assert (d0 = d) as -> by congruence.
    rewrite lookup_insert_ne; [done|].
    intros ->. unfold pipeline_keys in Hk.
    apply list_elem_of_In in Hk. simpl in Hk.
    repeat (destruct Hk as [Hk|Hk]; [discriminate Hk|]). done.
  - intros w c (Hc & (d & Hd & Hp) & Hlog). split; [done|]. split; [by exists d|].
    simpl. apply Forall_drop_snoc; [done|].
    unfold processing_at, field. simpl. by rewrite Hc, Hd.
  - intros w t H. exact H.
Qed.

Section Napping.
Context (env : Env).

Lemma call_state_world_await c w : call_state (world_await c w) = call_state w.
Proof. done. Qed.

Lemma napped_spec k w :
  call_state (napped k w) = call_state w
  /\ _processing_ai (napped k w) = _processing_ai w
  /\ tasks (napped k w) = tasks w
  /\ log (napped k w) = log w ++ naps k w.
Proof.
  revert w. induction k as [|k IH]; intros w; simpl.
  - by rewrite app_nil_r.
  - destruct (IH (world_await (Sleep 100) w)) as (-> & -> & -> & ->).
    repeat split. simpl. by rewrite <- app_assoc.
Qed.

Lemma bound_napped call_uuid l d k w :
  bound call_uuid l d w -> bound call_uuid l d (napped k w).
Proof.
  unfold bound. by destruct (napped_spec k w) as (-> & _).
Qed.

Lemma run_await c w r :
  env (log w) c = Ret r -> await env c w = (Ret r, world_await c w).
Proof. intros H. unfold await. by rewrite H. Qed.

(** The loop naps until the lookup is done; the handler alone does not
    change that, so it naps not at all or as often as it may. *)
Lemma run_wait_for_lookup n call_uuid l d w :
  sleeps_return env -> bound call_uuid l d w ->
  Voice.wait_for_lookup env n call_uuid l w
  = (Ret l, napped (if truthy (default VNone (d !! "lookup_done")) then 0 else n) w).
Proof.
  intros Hs. revert w. induction n as [|n IH]; intros w Hb; simpl.
  - by destruct (truthy _).
  - erewrite run_bind; [|by eapply run_dict_get].
    destruct (truthy (default VNone (d !! "lookup_done"))) eqn:Hdone; [done|].
    destruct (Hs (log w) 100%Z) as [r Hr].
    erewrite run_bind; [|by apply run_await].
    assert (bound call_uuid l d (world_await (Sleep 100) w)) as Hb1
      by (by apply bound_world_await).
    erewrite run_bind; [|by eapply run_get_call_state].
    by rewrite (IH _ Hb1).
Qed.

End Napping.

Section Gate.
Context (env : Env) (cfg : Config).

Lemma triple_of_keeps {S A} (I : S -> Prop) (m : M S A) φ :
  keeps I m φ -> (forall s, exists a s', m s = (Ret a, s')) ->
  triple I m (fun a s => I s /\ φ a) (fun _ _ => False).
Proof.
  intros Hm Hret s Hs. specialize (Hm s Hs).
  destruct (Hret s) as (a & s' & Heq). by rewrite Heq in *.
Qed.

Lemma triple_keeps_bind {S A B} (I P : S -> Prop) (m : M S A) (k : A -> M S B) Q :
  (forall s, P s -> I s) -> keeps I m (fun _ => True) ->
  (forall a, triple I (k a) Q (fun _ s => I s)) ->
  triple P (bind m k) Q (fun _ s => I s).
Proof.
  intros HP Hm Hk s Hs. unfold bind. specialize (Hm s (HP s Hs)).
  destruct (m s) as [[a|e] s']; [|done]. destruct Hm as [Hs' _]. by apply Hk.
Qed.

Lemma transcribe_returns data w :
  exists t w', Voice.transcribe env data w = (Ret t, w').
Proof.
  unfold Voice.transcribe, try_except.
  match goal with
  | |- exists _ _, match ?x with _ => _ end = _ => destruct x as [[t|e] w']
  end; unfold ret; eauto.
Qed.

(** The last step of every path through the turn: the flag goes down and
    the response is handed back. *)
Lemma release_then_respond n call_uuid l ncco (P : World -> Prop) R :
  (forall w, P w -> in_flight n call_uuid l w) ->
  triple P (Voice.release call_uuid l >> ret (Json 200 ncco))
         (fun r w => (exists ncco, r = Json 200 ncco) /\ released n call_uuid w) R.
Proof.
  intros HP w Hw. destruct (HP w Hw) as (Hc & (d & Hd & Hp) & Hlog).
  assert (bound call_uuid l d w) as Hb by done.
  unfold bind. rewrite (run_release call_uuid l d w Hb). unfold ret.
  split; [by eexists|]. split; [|done].
  erewrite field_world_set by done. apply lookup_insert_eq.
Qed.

Lemma pipeline_in_flight n call_uuid l speech_text :
  triple (in_flight n call_uuid l)
         (Voice.pipeline env cfg call_uuid l speech_text)
         (fun r w => (exists ncco, r = Json 200 ncco) /\ released n call_uuid w)
         (fun _ _ => False).
Proof.
  set (I := in_flight n call_uuid l).
  assert (SessionInv call_uuid l pipeline_keys I) as HInv by apply in_flight_inv.
  assert (forall k, k ∈ pipeline_keys -> k ∈ pipeline_keys) as HK by done.
  unfold Voice.pipeline.
  apply triple_try_except with (R := fun _ w => I w);
    [|intros _; by apply release_then_respond].
  apply (triple_keeps_bind I); [done|by eapply keeps_append_history|]. intros _.
  destruct (mem_str speech_text Voice.asr_error_tags);
    [by apply release_then_respond|].
  unfold Voice.respond.
  apply (triple_keeps_bind I); [done|by eapply keeps_generate|]. intros reply.
  apply (triple_keeps_bind I); [done|by eapply keeps_apply_tags|]. intros text.
  apply (triple_keeps_bind I); [done|by eapply keeps_route|]. intros ncco.
  by apply release_then_respond.
Qed.

Lemma turn_in_flight n l data :
  triple (in_flight n (asr_uuid data) l) (Voice.turn env cfg data l)
         (fun r w => (exists ncco, r = Json 200 ncco) /\ released n (asr_uuid data) w)
         (fun _ _ => False).
Proof.
  unfold Voice.turn.
  eapply triple_bind.
  - apply triple_of_keeps; [|apply transcribe_returns].
    eapply keeps_transcribe, in_flight_inv.
  - intros t.
    eapply triple_conseq;
      [apply pipeline_in_flight| |intros ? ? H; exact H|intros ? ? H; exact H].
    by intros w [H _].
Qed.

(** The log only grows during a turn. *)
Lemma turn_extends_log l data w :
  calls (call_state w) !! asr_uuid data = Some l ->
  log w `prefix_of` log (snd (Voice.turn env cfg data l w)).
Proof.
  intros Hc.
  set (I := logged_since (log w) (asr_uuid data) l).
  set (K := "processing" :: pipeline_keys).
  assert (SessionInv (asr_uuid data) l K I) as HInv by apply logged_since_inv.
  assert (forall k, k ∈ pipeline_keys -> k ∈ K) as HK
    by (intros k Hk; by apply list_elem_of_further).
  assert ("processing" ∈ K) as HP by apply list_elem_of_here.
  assert (forall ncco, keeps I (Voice.release (asr_uuid data) l >> ret (Json 200 ncco))
                             (fun _ => True)) as Hend.
  { intros ncco. eapply keeps_bind; [by eapply keeps_release|].
    intros _ _. by apply keeps_ret. }
  assert (keeps I (Voice.turn env cfg data l) (fun _ => True)) as Hturn.
  { unfold Voice.turn. eapply keeps_bind; [by eapply keeps_transcribe|].
    intros t _. unfold Voice.pipeline.
    apply keeps_try_except; [|intros _; apply Hend].
    eapply keeps_bind; [by eapply keeps_append_history|]. intros _ _.
    destruct (mem_str _ _); [apply Hend|]. unfold Voice.respond.
    eapply keeps_bind; [by eapply keeps_generate|]. intros reply _.
    eapply keeps_bind; [by eapply keeps_apply_tags|]. intros text _.
    eapply keeps_bind; [by eapply keeps_route|]. intros ncco _.
    apply Hend. }
  assert (I w) as Hw by done.
  by destruct (keeps_final I _ _ w Hturn Hw) as [H _].
Qed.

End Gate.

Section Handler.
Context (env : Env) (cfg : Config).
Context (call_uuid : string) (l : loc) (d : gmap string Val) (w : World).
Context (Hsleep : sleeps_return env) (Hb : bound call_uuid l d w).

Lemma run_enter_turn_busy :
  truthy (default VNone (d !! "processing")) = true ->
  Voice.enter_turn env call_uuid l w = (Ret None, napped (lookup_naps d) w).
Proof.
  intros Hp. unfold Voice.enter_turn.
  erewrite run_bind; [|by eapply run_wait_for_lookup].
  erewrite run_bind; [|by eapply run_dict_get, bound_napped].
  by rewrite Hp.
Qed.

Lemma run_enter_turn_free :
  truthy (default VNone (d !! "processing")) = false ->
  Voice.enter_turn env call_uuid l w
  = (Ret (Some l),
     world_set l (<["processing" := VBool true]> d) (napped (lookup_naps d) w)).
Proof.
  intros Hp. unfold Voice.enter_turn.
  erewrite run_bind; [|by eapply run_wait_for_lookup].
  assert (bound call_uuid l d (napped (lookup_naps d) w)) as Hb1
    by (by apply bound_napped).
  erewrite run_bind; [|by eapply run_dict_get].
  rewrite Hp.
  erewrite run_bind; [|by eapply run_dict_set].
  erewrite run_bind; [|eapply run_set_call_state, bound_world_set, Hb1].
  done.
Qed.

Lemma run_handler_entry data :
  asr_uuid data = call_uuid -> d <> ∅ ->
  Voice.handle_voice_asr env cfg data w
  = (let* entered := Voice.enter_turn env call_uuid l in
     match entered with
     | None => ret (Json 200 [])
     | Some call_state => Voice.turn env cfg data call_state
     end) w.
Proof.
  intros Hid Hne. unfold Voice.handle_voice_asr. rewrite Hid.
  erewrite run_bind; [|by eapply run_get_call_state].
  erewrite run_bind; [|by eapply run_dict_is_empty].
  by rewrite bool_decide_eq_false_2.
Qed.

End Handler.

(** ** The streaming callback *)

Section Streaming.
Context (env : Env) (L : list Event).

Lemma keeps_busy_lift {A} (m : M ConversationState A) :
  keeps (ai_busy L) (lift m) (fun _ => True).
Proof.
  intros w Hw. unfold lift. by destruct (m (call_state w)) as [[a|e] σ].
Qed.

Lemma keeps_busy_await c : keeps (ai_busy L) (await env c) (fun _ => True).
Proof.
  intros w (Hf & work & Hlog & Hwork). unfold await.
  assert (ai_busy L (world_await c w)) as H.
  { split; [done|]. exists (work ++ [mkEvent c (call_state w) (_processing_ai w)]).
    simpl. rewrite Hlog, <- app_assoc. split; [done|].
    apply Forall_app. split; [done|]. by constructor. }
  by destruct (env (log w) c).
Qed.

Lemma keeps_busy_spawn t : keeps (ai_busy L) (spawn t) (fun _ => True).
Proof. by intros w Hw. Qed.

Lemma keeps_busy_append_history call_uuid role content :
  keeps (ai_busy L) (lift (App.append_history call_uuid role content)) (fun _ => True).
Proof. apply keeps_busy_lift. Qed.

Ltac busy_step :=
  lazymatch goal with
  | |- keeps _ (bind _ _) _ => apply keeps_bind_any; [|intros ?]
  | |- keeps _ (lift _) _ => apply keeps_busy_lift
  | |- keeps _ (await _ _) _ => apply keeps_busy_await
  | |- keeps _ (spawn _) _ => apply keeps_busy_spawn
  | |- keeps _ (ret _) _ => by apply keeps_ret
  | |- keeps _ (raise _) _ => apply keeps_raise
  | |- keeps _ (try_except _ _) _ => apply keeps_try_except; [|intros ?]
  | |- keeps _ (if ?b then _ else _) _ => destruct b
  | |- keeps _ (match ?x with _ => _ end) _ => destruct x
  end.

(** Nothing in the body of [process_and_respond] touches the flag. *)
Lemma keeps_busy_body transcript call_uuid :
  keeps (ai_busy L)
        (try_except
           (match call_uuid with
            | VStr call_uuid =>
                if String.eqb call_uuid "" then ret tt
                else
                  lift (App.append_history call_uuid "user" transcript) >>
                  let* current_call_state := lift (App.get_call_state call_uuid) in
                  let* history :=
                    lift (dict_get_default current_call_state "history" (VHist [])) in
                  let* contact_name := lift (dict_get current_call_state "contact_name") in
                  let* recent_tickets :=
                    lift (dict_get_default current_call_state "recent_tickets"
                                           (VTickets [])) in
                  let* ticket_id := lift (dict_get current_call_state "ticket_id") in
                  let* phone := lift (dict_get current_call_state "phone") in
                  let* ai_reply := Groq.agent_response env transcript "" history
                                     contact_name recent_tickets ticket_id phone in
                  lift (App.append_history call_uuid "assistant" ai_reply) >>
                  let all_tags := Py.findall Py.action_or_sentiment_tag ai_reply in
                  let clean_speech := Py.strip (Py.sub Main.any_tag "" ai_reply) in
                  let* region_url := lift (dict_get current_call_state "region_url") in
                  Telephony.inject_vonage_tts env call_uuid clean_speech region_url >>
                  match all_tags with
                  | [] => ret tt
                  | _ => spawn (ExecuteAiActions call_uuid all_tags current_call_state
                                                 region_url (Py.len clean_speech))
                  end
            | _ => if truthy call_uuid then raise TypeError else ret tt
            end)
           (fun _ => ret tt))
        (fun _ => True).
Proof.
  unfold Groq.agent_response, Telephony.inject_vonage_tts.
  repeat busy_step.
Qed.

End Streaming.

(** A scheduled [process_and_respond] runs with the flag up at each of its
    requests, and lowers it at the end, whatever happened. *)
Lemma run_process_and_respond env transcript call_uuid w :
  _processing_ai w = true ->
  exists w' work,
    Main.process_and_respond env transcript call_uuid w = (Ret tt, w')
    /\ _processing_ai w' = false
    /\ log w' = log w ++ work
    /\ Forall (fun ev => ev_processing_ai ev = true) work.
Proof.
  intros Hflag.
  assert (ai_busy (log w) w) as Hw.
  { split; [done|]. exists []. by rewrite app_nil_r. }
  unfold Main.process_and_respond, try_finally.
  lazymatch goal with
  | |- exists _ _, (match ?m w with _ => _ end) = _ /\ _ =>
      assert (keeps (ai_busy (log w)) m (fun _ => True)) as Hk
        by apply (keeps_busy_body env (log w));
      specialize (Hk w Hw);
      destruct (m w) as [[[]|e] w1] eqn:Hm
  end.
  - destruct Hk as [(_ & work & Hlog & Hwork) _].
    exists (with_processing_ai false w1), work. by simpl.
  - exfalso. unfold try_except in Hm.
    lazymatch type of Hm with
    | (match ?b with _ => _ end) = _ => destruct b as [[a|e'] w2]; discriminate Hm
    end.
Qed.

(** An ASR event and an utterance that arrive in the middle of a turn change
    nothing; a turn that is let in has the flag up at each of its four
    requests. *)
Example second_event_is_dropped :
  Voice.handle_voice_asr helpdesk_env no_config turn_request batch_busy_world
  = (Ret (Json 200 []), batch_busy_world)
  /\ Main.on_speech_ended "hello" streaming_busy_world = (Ret tt, streaming_busy_world)
  /\ map (fun ev => field (ev_state ev) "call-1" "processing")
         (log (snd (Voice.handle_voice_asr helpdesk_env no_config turn_request
                      ticketed_world)))
     = [Some (VBool true); Some (VBool true); Some (VBool true); Some (VBool true)]
  /\ field (call_state (snd (Voice.handle_voice_asr helpdesk_env no_config turn_request
                               ticketed_world))) "call-1" "processing"
     = Some (VBool false).
Proof. vm_compute. repeat split. Qed.

(** C2: the two modes have a guard each, and each guard reads its own flag.
    Batch mode, for a call whose session is in the store, when
    [asyncio.sleep] returns.  When [processing] is true in the call's dict,
    the ASR handler answers with the empty action list; it has only napped:
    the store and the scheduled tasks are as before and no other request was
    made.  When [processing] is not true the handler sets it, runs the turn
    and answers 200 with the turn's actions; [processing] is true in the
    store at every request made after the naps (transcription, knowledge
    base, generation, helpdesk) and false once the response is handed back.
    Streaming mode.  With the module's flag up the callback returns without
    scheduling anything and without any change, and a [process_and_respond]
    that runs has the flag up at each of its requests (generation, speech)
    and lowers it at its end; with the flag down, and the loop running, the
    callback raises the flag and schedules one [process_and_respond], which
    therefore runs with the flag up. *)
Theorem one_turn_at_a_time
    (env : Env) (cfg : Config) (data : AsrRequest) (l : loc)
    (busy free : gmap string Val) (wb wf sb sf : World) :
  sleeps_return env ->
  bound (asr_uuid data) l busy wb ->
  truthy (default VNone (busy !! "processing")) = true ->
  bound (asr_uuid data) l free wf ->
  truthy (default VNone (free !! "processing")) = false ->
  free <> ∅ ->
  _processing_ai sb = true ->
  _processing_ai sf = false -> _main_loop_running sf = true ->
  (let waited := napped (lookup_naps busy) wb in
   Voice.handle_voice_asr env cfg data wb = (Ret (Json 200 []), waited)
   /\ call_state waited = call_state wb
   /\ tasks waited = tasks wb
   /\ log waited = log wb ++ naps (lookup_naps busy) wb)
  /\ (exists ncco w' work,
        Voice.handle_voice_asr env cfg data wf = (Ret (Json 200 ncco), w')
        /\ log w' = (log wf ++ naps (lookup_naps free) wf) ++ work
        /\ Forall (fun ev => processing_at (asr_uuid data) (ev_state ev)) work
        /\ field (call_state w') (asr_uuid data) "processing" = Some (VBool false))
  /\ (forall transcript, Main.on_speech_ended transcript sb = (Ret tt, sb))
  /\ (forall transcript call_uuid,
        exists w' work,
          Main.process_and_respond env transcript call_uuid sb = (Ret tt, w')
          /\ _processing_ai w' = false
          /\ log w' = log sb ++ work
          /\ Forall (fun ev => ev_processing_ai ev = true) work)
  /\ (forall transcript,
        let task := ProcessAndRespond transcript (_current_call_uuid sf) in
        let scheduled := world_spawn task (with_processing_ai true sf) in
        Main.on_speech_ended transcript sf = (Ret tt, scheduled)
        /\ _processing_ai scheduled = true
        /\ tasks scheduled = tasks sf ++ [task]
        /\ exists w' work,
             Main.process_and_respond env transcript (_current_call_uuid sf) scheduled
             = (Ret tt, w')
             /\ _processing_ai w' = false
             /\ log w' = log sf ++ work
             /\ Forall (fun ev => ev_processing_ai ev = true) work).
Proof.
  intros Hsleep Hbb Hpb Hbf Hpf Hne Hfb Hff Hloop.
  split; [|split; [|split; [|split]]].
  - assert (busy <> ∅) as Hneb by (intros ->; discriminate Hpb).
    rewrite (run_handler_entry env cfg _ l busy wb Hbb data eq_refl Hneb).
    unfold bind. rewrite (run_enter_turn_busy env _ l busy wb Hsleep Hbb Hpb).
    split; [done|]. by destruct (napped_spec (lookup_naps busy) wb) as (? & ? & ? & ?).
  - rewrite (run_handler_entry env cfg _ l free wf Hbf data eq_refl Hne).
    unfold bind. rewrite (run_enter_turn_free env _ l free wf Hsleep Hbf Hpf).
    set (waited := napped (lookup_naps free) wf).
    set (w1 := world_set l (<["processing" := VBool true]> free) waited).
    assert (bound (asr_uuid data) l (<["processing" := VBool true]> free) w1) as Hb1
      by (by eapply bound_world_set, bound_napped).
    assert (in_flight (length (log w1)) (asr_uuid data) l w1) as Hfl.
    { split; [apply Hb1|]. split.
      - exists (<["processing" := VBool true]> free). split; [apply Hb1|].
        apply lookup_insert_eq.
      - rewrite drop_all. constructor. }
    pose proof (turn_in_flight env cfg _ l data w1 Hfl) as Ht.
    pose proof (turn_extends_log env cfg l data w1 (proj1 Hb1)) as [work Hwork].
    destruct (Voice.turn env cfg data l w1) as [[r|e] w'] eqn:Hturn; [|done].
    destruct Ht as [[ncco ->] [Hflag Hlog]]. simpl in Hwork.
    exists ncco, w', work. split; [done|].
    rewrite Hwork, drop_app_length in Hlog.
    destruct (napped_spec (lookup_naps free) wf) as (_ & _ & _ & Hnaps).
    split; [|done]. rewrite Hwork.
    unfold waited. by rewrite Hnaps.
  - intros transcript. unfold Main.on_speech_ended, bind, get. by rewrite Hfb.
  - intros transcript call_uuid. by apply run_process_and_respond.
  - intros transcript task scheduled. split; [|split; [done|split; [done|]]].
    + unfold Main.on_speech_ended, bind, get.
      rewrite Hff. unfold modify. simpl. by rewrite Hloop.
    + by apply (run_process_and_respond env transcript (_current_call_uuid sf) scheduled).
Qed.

Lemma one_turn_at_a_time_witness :
  (let waited := napped (lookup_naps (<["processing" := VBool true]> ticketed_dict))
                        batch_busy_world in
   Voice.handle_voice_asr helpdesk_env no_config turn_request batch_busy_world
   = (Ret (Json 200 []), waited)
   /\ call_state waited = call_state batch_busy_world
   /\ tasks waited = tasks batch_busy_world
   /\ log waited
      = log batch_busy_world
        ++ naps (lookup_naps (<["processing" := VBool true]> ticketed_dict))
                batch_busy_world)
  /\ (exists ncco w' work,
        Voice.handle_voice_asr helpdesk_env no_config turn_request ticketed_world
        = (Ret (Json 200 ncco), w')
        /\ log w' = (log ticketed_world ++ naps (lookup_naps ticketed_dict) ticketed_world)
                    ++ work
        /\ Forall (fun ev => processing_at (asr_uuid turn_request) (ev_state ev)) work
        /\ field (call_state w') (asr_uuid turn_request) "processing"
           = Some (VBool false))
  /\ (forall transcript,
        Main.on_speech_ended transcript streaming_busy_world
        = (Ret tt, streaming_busy_world))
  /\ (forall transcript call_uuid,
        exists w' work,
          Main.process_and_respond helpdesk_env transcript call_uuid streaming_busy_world
          = (Ret tt, w')
          /\ _processing_ai w' = false
          /\ log w' = log streaming_busy_world ++ work
          /\ Forall (fun ev => ev_processing_ai ev = true) work)
  /\ (forall transcript,
        let task := ProcessAndRespond transcript (_current_call_uuid ticketed_world) in
        let scheduled := world_spawn task (with_processing_ai true ticketed_world) in
        Main.on_speech_ended transcript ticketed_world = (Ret tt, scheduled)
        /\ _processing_ai scheduled = true
        /\ tasks scheduled = tasks ticketed_world ++ [task]
        /\ exists w' work,
             Main.process_and_respond helpdesk_env transcript
               (_current_call_uuid ticketed_world) scheduled
             = (Ret tt, w')
             /\ _processing_ai w' = false
             /\ log w' = log ticketed_world ++ work
             /\ Forall (fun ev => ev_processing_ai ev = true) work).
Proof.
  apply (one_turn_at_a_time helpdesk_env no_config turn_request 0
           (<["processing" := VBool true]> ticketed_dict) ticketed_dict
           batch_busy_world ticketed_world streaming_busy_world ticketed_world).
  - intros L ms. eexists. reflexivity.
  - split; reflexivity.
  - reflexivity.
  - split; reflexivity.
  - reflexivity.
  - intros H. apply (f_equal (lookup "ticket_id")) in H. vm_compute in H. discriminate H.
  - reflexivity.
  - reflexivity.
  - reflexivity.
Defined.

(** * Further properties of the code *)

(** ** The streamer, whatever the timing *)

Section StreamerLaws.
Import Streamer.

Lemma strip_blank_test tr :
  negb (String.eqb tr "") && (0 <? Py.len (Py.strip tr))%nat
  = negb (String.eqb (Py.strip tr) "").
Proof.
  destruct (String.eqb_spec tr "") as [->|Hne]; [done|]. simpl.
  unfold Py.len. destruct (Py.strip tr); done.
Qed.

Lemma said_app o1 o2 : said (o1 ++ o2) = (said o1 ++ said o2)%string.
Proof.
  induction o1 as [|[u|] o1 IH]; simpl; [done| |done].
  by rewrite IH, string_app_assoc.
Qed.

(** One event: the callbacks stay as they are, and what is said plus what
    is kept is what was kept plus what was heard. *)
Lemma step_conserves s e :
  speech_ended_callback s = true ->
  speech_ended_callback (fst (step s e)) = true
  /\ (said (snd (step s e)) ++ current_utterance (fst (step s e)))%string
     = (current_utterance s ++ heard e)%string.
Proof.
  intros Hcb. destruct e as [[[tr|] fin]|d]; simpl.
  - unfold _process_result. simpl. rewrite strip_blank_test.
    destruct (negb (String.eqb (Py.strip tr) "")); simpl.
    + destruct fin; simpl.
      * unfold _start_silence_timer, _cancel_silence_timer, with_timer.
        by destruct (silence_timer s).
      * unfold _cancel_silence_timer, with_timer. rewrite string_app_nil_r.
        destruct (silence_timer s), (barge_in_callback s && _); done.
    + rewrite andb_false_r. by rewrite string_app_nil_r.
  - by rewrite string_app_nil_r.
  - rewrite string_app_nil_r. unfold elapse. simpl.
    destruct (silence_timer s) as [[r|]|]; simpl; [|done|done].
    destruct (r <=? d)%N; [|done].
    unfold _on_silence_detected, with_timer. simpl.
    destruct (String.eqb_spec (current_utterance s) "") as [Hcu|Hcu]; simpl.
    + by rewrite Hcu.
    + rewrite Hcb. simpl. by rewrite !string_app_nil_r.
Qed.

Lemma step_nonempty s e u : SpeechEnded u ∈ snd (step s e) -> u <> "".
Proof.
  destruct e as [[[tr|] fin]|d]; simpl.
  - unfold _process_result. simpl.
    destruct (negb _ && _); [|by intros ?%not_elem_of_nil].
    destruct fin; [by intros ?%not_elem_of_nil|].
    destruct (barge_in_callback s && _); [|by intros ?%not_elem_of_nil].
    intros [=]%list_elem_of_singleton.
  - by intros ?%not_elem_of_nil.
  - unfold elapse. simpl.
    destruct (silence_timer s) as [[r|]|]; simpl; try by intros ?%not_elem_of_nil.
    destruct (r <=? d)%N; [|by intros ?%not_elem_of_nil].
    unfold _on_silence_detected, with_timer. simpl.
    destruct (String.eqb_spec (current_utterance s) "") as [Hcu|Hcu]; simpl;
      [by intros ?%not_elem_of_nil|].
    destruct (speech_ended_callback s); [|by intros ?%not_elem_of_nil].
    by intros [= ->]%list_elem_of_singleton.
Qed.

Lemma step_barge_in s e :
  barge_in_callback (fst (step s e)) = barge_in_callback s
  /\ (BargeIn ∈ snd (step s e) -> barge_in_callback s = true /\ interrupts e).
Proof.
  destruct e as [[[tr|] fin]|d]; simpl.
  - unfold _process_result. simpl.
    destruct (negb _ && _); [|split; [done|by intros ?%not_elem_of_nil]].
    destruct fin; simpl.
    + split; [|by intros ?%not_elem_of_nil].
      unfold _start_silence_timer, _cancel_silence_timer, with_timer.
      by destruct (silence_timer s).
    + split.
      * unfold _cancel_silence_timer, with_timer. by destruct (silence_timer s).
      * destruct (barge_in_callback s) eqn:Hb; simpl;
          [|by intros ?%not_elem_of_nil].
        destruct (3 <? Py.len (Py.strip tr))%nat eqn:Hlen;
          [|by intros ?%not_elem_of_nil].
        intros _. split; [done|]. exists tr. split; [done|].
        by apply Nat.ltb_lt.
  - split; [done|by intros ?%not_elem_of_nil].
  - unfold elapse. simpl.
    destruct (silence_timer s) as [[r|]|]; simpl;
      try (split; [done|by intros ?%not_elem_of_nil]).
    destruct (r <=? d)%N; [|split; [done|by intros ?%not_elem_of_nil]].
    unfold _on_silence_detected, with_timer. simpl.
    destruct (String.eqb (current_utterance s) ""); simpl;
      [split; [done|by intros ?%not_elem_of_nil]|].
    split; [done|].
    destruct (speech_ended_callback s); [|by intros ?%not_elem_of_nil].
    intros [=]%list_elem_of_singleton.
Qed.

End StreamerLaws.

(** X1: with the speech-ended callback registered, for every sequence of
    recognition results and pauses, from every state of the streamer: the
    transcripts handed to the callback, one after the other, followed by what
    the accumulator still holds, are what the accumulator held at the start
    followed by the trimmed text of each final result that has text, each with
    one blank.  No fragment is lost, repeated or moved, whatever the timing;
    and no transcript handed to the callback is empty. *)
Theorem no_fragment_lost (es : list Streamer.Event) (s : Streamer.t) :
  Streamer.speech_ended_callback s = true ->
  (said (snd (Streamer.run es s))
   ++ Streamer.current_utterance (fst (Streamer.run es s)))%string
  = (Streamer.current_utterance s ++ heard_all es)%string
  /\ (forall u, Streamer.SpeechEnded u ∈ snd (Streamer.run es s) -> u <> "").
Proof.
  revert s. induction es as [|e es IH]; intros s Hcb.
  - simpl. split; [by rewrite string_app_nil_r|]. by intros u ?%not_elem_of_nil.
  - simpl. destruct (step_conserves s e Hcb) as [Hcb1 Hstep].
    pose proof (step_nonempty s e) as Hne.
    destruct (Streamer.step s e) as [s1 o1]. simpl in *.
    destruct (IH s1 Hcb1) as [Hrun Hne2].
    destruct (Streamer.run es s1) as [s2 o2]. simpl in *. split.
    + rewrite said_app, string_app_assoc, Hrun, <- string_app_assoc, Hstep.
      by rewrite string_app_assoc.
    + intros u [H|H]%elem_of_app; eauto.
Qed.

Lemma no_fragment_lost_witness :
  let es := [Streamer.final " I need"; Streamer.Elapse 350; Streamer.interim "he";
             Streamer.final "help "; Streamer.Elapse 100; Streamer.final "  ";
             Streamer.final "now"; Streamer.Elapse 900] in
  let s := Streamer.set_speech_ended_callback Streamer.init in
  (said (snd (Streamer.run es s))
   ++ Streamer.current_utterance (fst (Streamer.run es s)))%string
  = (Streamer.current_utterance s ++ heard_all es)%string
  /\ (forall u, Streamer.SpeechEnded u ∈ snd (Streamer.run es s) -> u <> "").
Proof.
  apply (no_fragment_lost
           [Streamer.final " I need"; Streamer.Elapse 350; Streamer.interim "he";
            Streamer.final "help "; Streamer.Elapse 100; Streamer.final "  ";
            Streamer.final "now"; Streamer.Elapse 900]
           (Streamer.set_speech_ended_callback Streamer.init)).
  reflexivity.
Defined.

(** The same sequence, run: two turns, "I need" and "help now". *)
Example two_turns :
  snd (Streamer.run
         [Streamer.final " I need"; Streamer.Elapse 350; Streamer.interim "he";
          Streamer.final "help "; Streamer.Elapse 100; Streamer.final "  ";
          Streamer.final "now"; Streamer.Elapse 900]
         (Streamer.set_speech_ended_callback Streamer.init))
  = [Streamer.SpeechEnded "I need "; Streamer.SpeechEnded "help now "].
Proof. vm_compute. reflexivity. Qed.

(** X2: the barge-in callback is called only when it is registered, and only
    for an interim result whose trimmed text has more than three characters:
    final results and pauses never interrupt the agent. *)
Theorem barge_in_only_on_long_interim (es : list Streamer.Event) (s : Streamer.t) :
  Streamer.BargeIn ∈ snd (Streamer.run es s) ->
  Streamer.barge_in_callback s = true /\ Exists interrupts es.
Proof.
  revert s. induction es as [|e es IH]; intros s; simpl.
  - by intros ?%not_elem_of_nil.
  - destruct (step_barge_in s e) as [Hcb Hstep].
    destruct (Streamer.step s e) as [s1 o1]. simpl in *.
    specialize (IH s1). destruct (Streamer.run es s1) as [s2 o2]. simpl in *.
    intros [H|H]%elem_of_app.
    + destruct (Hstep H) as [? ?]. split; [done|]. by apply Exists_cons_hd.
    + destruct (IH H) as [? ?]. split; [congruence|]. by apply Exists_cons_tl.
Qed.

Lemma barge_in_only_on_long_interim_witness :
  Streamer.barge_in_callback (Streamer.set_barge_in_callback Streamer.init) = true
  /\ Exists interrupts [Streamer.final "hello"; Streamer.interim "wait a moment"].
Proof.
  apply (barge_in_only_on_long_interim
           [Streamer.final "hello"; Streamer.interim "wait a moment"]
           (Streamer.set_barge_in_callback Streamer.init)).
  vm_compute. apply list_elem_of_here.
Defined.

(** ** The session store *)

Section Store.

Lemma keeps_state {S A} (I : S -> Prop) (m : M S A) φ s :
  keeps I m φ -> I s -> I (snd (m s)).
Proof.
  intros Hm Hs. specialize (Hm s Hs). destruct (m s) as [[a|e] s']; simpl; tauto.
Qed.

Lemma fresh_loc_new (σ : ConversationState) l d :
  objs σ !! l = Some d -> fresh (dom (objs σ)) <> l.
Proof.
  intros Hl Heq. apply (is_fresh (dom (objs σ))). rewrite Heq.
  apply elem_of_dom. by exists d.
Qed.

Context (a b : string) (lb : loc) (db : gmap string Val).

Lemma apart_distinct σ : apart a b lb db σ -> a <> b.
Proof. intros (Hb & _ & Ha) ->. done. Qed.

Lemma keeps_apart_dict_item l k :
  keeps (apart a b lb db) (dict_item l k) (fun _ => True).
Proof.
  intros σ Hσ. unfold dict_item.
  destruct (objs σ !! l) as [d|]; [|done]. by destruct (d !! k).
Qed.

Lemma keeps_apart_dict_set l k v :
  l <> lb -> keeps (apart a b lb db) (dict_set l k v) (fun _ => True).
Proof.
  intros Hl σ (Hb & Hd & Ha). unfold dict_set.
  destruct (objs σ !! l) as [d|]; [|done].
  split; [|done]. unfold apart. simpl. by rewrite lookup_insert_ne.
Qed.

Lemma keeps_apart_app_get :
  keeps (apart a b lb db) (App.get_call_state a) (fun l => l <> lb).
Proof.
  intros σ (Hb & Hd & Ha). unfold App.get_call_state, bind, get.
  destruct (calls σ !! a) as [l|] eqn:Hl; simpl.
  - split; [|congruence]. split; [done|]. split; [done|]. by rewrite Hl.
  - pose proof (fresh_loc_new σ lb db Hd) as Hfresh.
    assert (a <> b) as Hab by (intros ->; congruence).
    split; [|done]. unfold apart. simpl.
    rewrite lookup_insert_eq, !lookup_insert_ne by done.
    split; [done|]. split; [done|]. congruence.
Qed.

Lemma keeps_apart_va_get :
  keeps (apart a b lb db) (VoiceAgent.get_call_state a) (fun l => l <> lb).
Proof.
  intros σ (Hb & Hd & Ha). unfold VoiceAgent.get_call_state, bind, get.
  destruct (calls σ !! a) as [l|] eqn:Hl; simpl.
  - split; [|congruence]. split; [done|]. split; [done|]. by rewrite Hl.
  - pose proof (fresh_loc_new σ lb db Hd) as Hfresh.
    assert (a <> b) as Hab by (intros ->; congruence).
    split; [|done]. unfold apart. simpl.
    rewrite lookup_insert_eq, !lookup_insert_ne by done.
    split; [done|]. split; [done|]. congruence.
Qed.

Lemma keeps_apart_set l :
  l <> lb ->
  keeps (apart a b lb db)
        (modify (fun σ => mkState (objs σ) (<[a := l]> (calls σ)))) (fun _ => True).
Proof.
  intros Hl σ Hσ. pose proof (apart_distinct σ Hσ) as Hab.
  destruct Hσ as (Hb & Hd & Ha). split; [|done].
  unfold apart. simpl. rewrite lookup_insert_eq, lookup_insert_ne by done.
  split; [done|]. split; [done|]. congruence.
Qed.

Lemma keeps_apart_app_append role content :
  keeps (apart a b lb db) (App.append_history a role content) (fun _ => True).
Proof.
  unfold App.append_history.
  eapply keeps_bind; [apply keeps_apart_app_get|]. intros l Hl.
  eapply keeps_bind; [apply keeps_apart_dict_item|]. intros h _.
  destruct h; try apply keeps_raise.
  eapply keeps_bind; [by apply keeps_apart_dict_set|]. intros _ _.
  eapply keeps_bind; [apply keeps_apart_dict_item|]. intros h' _.
  destruct h'; try apply keeps_raise.
  eapply keeps_bind; [by apply keeps_apart_dict_set|]. intros _ _.
  by apply keeps_apart_set.
Qed.

Lemma keeps_apart_va_append role content :
  keeps (apart a b lb db) (VoiceAgent.append_history a role content) (fun _ => True).
Proof.
  unfold VoiceAgent.append_history.
  eapply keeps_bind; [apply keeps_apart_va_get|]. intros l Hl.
  eapply keeps_bind; [apply keeps_apart_dict_item|]. intros h _.
  destruct h; try apply keeps_raise.
  eapply keeps_bind; [by apply keeps_apart_dict_set|]. intros _ _.
  eapply keeps_bind; [apply keeps_apart_dict_item|]. intros h' _.
  destruct h'; try apply keeps_raise.
  eapply keeps_bind; [by apply keeps_apart_dict_set|]. intros _ _.
  by apply keeps_apart_set.
Qed.

End Store.

(** X3: [get_call_state] creates a session on first use and is stable from
    then on: asked again, it returns the same dict object and changes
    nothing.  A session it creates is a new object holding the defaults,
    stored under the call id, and no other call id and no other object is
    touched.  What [set_call_state] stores is what [get_call_state] then
    returns. *)
Theorem get_call_state_creates_once (call_uuid : string) (σ : ConversationState) :
  exists l,
    fst (App.get_call_state call_uuid σ) = Ret l
    /\ (let σ1 := snd (App.get_call_state call_uuid σ) in
        App.get_call_state call_uuid σ1 = (Ret l, σ1)
        /\ (calls σ !! call_uuid = Some l -> σ1 = σ)
        /\ (calls σ !! call_uuid = None ->
            objs σ !! l = None
            /\ objs σ1 !! l = Some App.default_call
            /\ (forall other, other <> call_uuid -> calls σ1 !! other = calls σ !! other)
            /\ (forall l', l' <> l -> objs σ1 !! l' = objs σ !! l')))
    /\ (forall l',
          App.get_call_state call_uuid (snd (App.set_call_state call_uuid l' σ))
          = (Ret l', snd (App.set_call_state call_uuid l' σ))).
Proof.
  unfold App.get_call_state, App.set_call_state, bind, get, modify.
  destruct (calls σ !! call_uuid) as [l|] eqn:Hl; simpl.
  - exists l. split; [done|]. split.
    + rewrite Hl. split; [done|]. split; [done|]. done.
    + intros l'. by rewrite lookup_insert_eq.
  - exists (fresh (dom (objs σ))). split; [done|]. split.
    + rewrite lookup_insert_eq. split; [done|]. split; [done|]. intros _.
      split; [apply not_elem_of_dom, is_fresh|].
      split; [apply lookup_insert_eq|].
      split; intros ? ?; by rewrite lookup_insert_ne.
    + intros l'. by rewrite lookup_insert_eq.
Qed.

(** X4: appending to the transcript of one call leaves every other call
    alone: a call whose dict is another object keeps its dict object and
    what that holds, also when the append creates the session or fails.  In
    both variants of the store. *)
Theorem append_history_leaves_other_calls
    (a b role content : string) (lb : loc) (db : gmap string Val)
    (σ : ConversationState) :
  calls σ !! b = Some lb -> objs σ !! lb = Some db -> calls σ !! a <> Some lb ->
  (let σ' := snd (App.append_history a role content σ) in
   calls σ' !! b = Some lb /\ objs σ' !! lb = Some db)
  /\ (let σ' := snd (VoiceAgent.append_history a role content σ) in
      calls σ' !! b = Some lb /\ objs σ' !! lb = Some db).
Proof.
  intros Hb Hd Ha.
  assert (apart a b lb db σ) as Hσ by done. split.
  - by destruct (keeps_state _ _ _ σ (keeps_apart_app_append a b lb db role content) Hσ)
      as (? & ? & _).
  - by destruct (keeps_state _ _ _ σ (keeps_apart_va_append a b lb db role content) Hσ)
      as (? & ? & _).
Qed.

Lemma append_history_leaves_other_calls_witness :
  (let σ' := snd (App.append_history "call-2" "user" "hello" (call_state ticketed_world)) in
   calls σ' !! "call-1" = Some 0 /\ objs σ' !! 0 = Some ticketed_dict)
  /\ (let σ' := snd (VoiceAgent.append_history "call-2" "user" "hello"
                       (call_state ticketed_world)) in
      calls σ' !! "call-1" = Some 0 /\ objs σ' !! 0 = Some ticketed_dict).
Proof.
  apply (append_history_leaves_other_calls "call-2" "call-1" "user" "hello" 0
           ticketed_dict (call_state ticketed_world)).
  - reflexivity.
  - reflexivity.
  - vm_compute. discriminate.
Defined.

(** ** What a turn hears *)

Section Hearing.

Lemma whitelist_not_noise c :
  mem_str c Voice.whitelist = true -> mem_str c Voice.noise_artifacts = false.
Proof.
  intros H%mem_str_true. unfold Voice.whitelist in H.
  repeat (apply elem_of_cons in H as [->|H]; [reflexivity|]).
  by apply not_elem_of_nil in H.
Qed.

Lemma error_tag_nonempty t : mem_str t Voice.asr_error_tags = true -> t <> "".
Proof.
  intros H%mem_str_true. unfold Voice.asr_error_tags in H.
  repeat (apply elem_of_cons in H as [->|H]; [discriminate|]).
  by apply not_elem_of_nil in H.
Qed.

Lemma filter_noise_cases s :
  Voice.filter_noise s = s \/ Voice.filter_noise s = "[SILENCE]".
Proof.
  unfold Voice.filter_noise. destruct (mem_str s Voice.asr_error_tags); [by left|].
  destruct (_ || _); [by right|by left].
Qed.

Lemma filter_noise_nonempty s : Voice.filter_noise s <> "".
Proof.
  unfold Voice.filter_noise.
  destruct (mem_str s Voice.asr_error_tags) eqn:Htag; [by apply error_tag_nonempty|].
  destruct (String.eqb_spec s "") as [->|Hs]; [done|]. simpl.
  by destruct (_ || _).
Qed.

Lemma run_transcribe_whisper env audio_data w :
  exists r,
    Groq.transcribe_whisper env audio_data w
    = (Ret r, if truthy audio_data then world_await (TranscribeWhisper audio_data) w
              else w)
    /\ (forall t, r = Some t -> 1 < Py.len t).
Proof.
  unfold Groq.transcribe_whisper. destruct (truthy audio_data); simpl.
  - unfold try_except, bind, await.
    fold (world_await (TranscribeWhisper audio_data) w).
    destruct (env (log w) (TranscribeWhisper audio_data)) as [[[| | |tr| |]|]|];
      try (exists None; split; [reflexivity|done]).
    unfold ret. destruct (1 <? Py.len (Py.strip tr))%nat eqn:Hlen.
    + eexists. split; [reflexivity|]. intros t [= <-]. by apply Nat.ltb_lt.
    + exists None. split; [reflexivity|done].
  - exists None. split; [reflexivity|done].
Qed.

End Hearing.

(** X5: on ASCII text, where a byte is a character and lower case and
    punctuation are those of the code, the noise filter returns its input or
    the silence tag, never the empty text, and filtering twice is filtering
    once.  A short answer such as "yes", "ok" or "hi" (what remains of it in
    lower case without punctuation is on the whitelist) passes unchanged when
    it has two characters or more, and text of five characters or more passes
    unless what remains of it is a noise artifact. *)
Theorem filter_noise_keeps_or_silences (s : string) :
  ascii_text s ->
  (Voice.filter_noise s = s \/ Voice.filter_noise s = "[SILENCE]")
  /\ Voice.filter_noise s <> ""
  /\ Voice.filter_noise (Voice.filter_noise s) = Voice.filter_noise s
  /\ (mem_str (Py.only_words_and_spaces (Py.strip (Py.lower s))) Voice.whitelist = true ->
      2 <= Py.len s -> Voice.filter_noise s = s)
  /\ (5 <= Py.len s ->
      mem_str (Py.only_words_and_spaces (Py.strip (Py.lower s)))
              Voice.noise_artifacts = false ->
      Voice.filter_noise s = s).
Proof.
  intros _.
  split; [apply filter_noise_cases|]. split; [apply filter_noise_nonempty|].
  split; [|split].
  - destruct (filter_noise_cases s) as [H|H]; rewrite H; [exact H|reflexivity].
  - intros Hw Hlen. unfold Voice.filter_noise.
    destruct (mem_str s Voice.asr_error_tags); [done|].
    rewrite Hw, (whitelist_not_noise _ Hw). rewrite andb_false_r.
    destruct (String.eqb_spec s "") as [->|_]; [simpl in Hlen; lia|].
    by destruct (Nat.ltb_spec (Py.len s) 2); [lia|].
  - intros Hlen Hnoise. unfold Voice.filter_noise.
    destruct (mem_str s Voice.asr_error_tags); [done|]. rewrite Hnoise.
    destruct (String.eqb_spec s "") as [->|_]; [simpl in Hlen; lia|].
    destruct (Nat.ltb_spec (Py.len s) 5); [lia|].
    by destruct (Nat.ltb_spec (Py.len s) 2); [lia|].
Qed.

Lemma filter_noise_keeps_or_silences_witness :
  (Voice.filter_noise "Yes." = "Yes." \/ Voice.filter_noise "Yes." = "[SILENCE]")
  /\ Voice.filter_noise "Yes." <> ""
  /\ Voice.filter_noise (Voice.filter_noise "Yes.") = Voice.filter_noise "Yes."
  /\ (mem_str (Py.only_words_and_spaces (Py.strip (Py.lower "Yes."))) Voice.whitelist = true ->
      2 <= Py.len "Yes." -> Voice.filter_noise "Yes." = "Yes.")
  /\ (5 <= Py.len "Yes." ->
      mem_str (Py.only_words_and_spaces (Py.strip (Py.lower "Yes.")))
              Voice.noise_artifacts = false ->
      Voice.filter_noise "Yes." = "Yes.").
Proof. apply (filter_noise_keeps_or_silences "Yes."). reflexivity. Defined.

Example filter_noise_examples :
  Voice.filter_noise "Yes." = "Yes."
  /\ Voice.filter_noise "ok" = "ok"
  /\ Voice.filter_noise "what" = "[SILENCE]"
  /\ Voice.filter_noise "The wind." = "[SILENCE]"
  /\ Voice.filter_noise "my printer is jammed" = "my printer is jammed"
  /\ Voice.filter_noise "" = "[SILENCE]".
Proof. vm_compute. repeat split. Qed.

(** X6: the transcription step of a turn always returns a text, whatever
    the transcription service does: one of the error tags, or a transcript of
    more than one character; it makes at most one request, for the audio
    (or, without audio, the recording URL), and touches neither the store nor
    the scheduled tasks.  Without audio and without a recording URL the text
    is [NO_AUDIO] and no request is made.  After the noise filter the text
    of the turn is never empty. *)
Theorem transcribe_always_yields_text (env : Env) (data : AsrRequest) (w : World) :
  exists t w',
    Voice.transcribe env data w = (Ret t, w')
    /\ (mem_str t Voice.asr_error_tags = true \/ 1 < Py.len t)
    /\ Voice.filter_noise t <> ""
    /\ (w' = w
        \/ exists audio_data,
             truthy audio_data = true
             /\ (audio_data = asr_audio data
                 \/ truthy (asr_audio data) = false
                    /\ audio_data = asr_recording_url data)
             /\ w' = world_await (TranscribeWhisper audio_data) w)
    /\ (truthy (asr_audio data) = false -> truthy (asr_recording_url data) = false ->
        t = "[NO_AUDIO]" /\ w' = w).
Proof.
  unfold Voice.transcribe, try_except.
  destruct (truthy (asr_audio data)) eqn:Ha; simpl.
  - rewrite Ha. simpl. unfold bind.
    destruct (run_transcribe_whisper env (asr_audio data) w) as (r & -> & Hr).
    rewrite Ha. destruct r as [t|].
    + specialize (Hr t eq_refl).
      destruct (String.eqb_spec t "") as [->|_]; [simpl in Hr; lia|].
      exists t. eexists. split; [reflexivity|]. split; [by right|].
      split; [apply filter_noise_nonempty|]. split; [|done].
      right. exists (asr_audio data). split; [done|]. split; [by left|done].
    + exists "[ASR_FAILED]". eexists. split; [reflexivity|]. split; [by left|].
      split; [apply filter_noise_nonempty|]. split; [|done].
      right. exists (asr_audio data). split; [done|]. split; [by left|done].
  - destruct (truthy (asr_recording_url data)) eqn:Hu; simpl.
    + rewrite Hu. simpl. unfold bind.
      destruct (run_transcribe_whisper env (asr_recording_url data) w) as (r & -> & Hr).
      rewrite Hu. destruct r as [t|].
      * specialize (Hr t eq_refl).
        destruct (String.eqb_spec t "") as [->|_]; [simpl in Hr; lia|].
        exists t. eexists. split; [reflexivity|]. split; [by right|].
        split; [apply filter_noise_nonempty|]. split; [|done].
        right. exists (asr_recording_url data). split; [done|]. split; [by right|done].
      * exists "[ASR_FAILED]". eexists. split; [reflexivity|]. split; [by left|].
        split; [apply filter_noise_nonempty|]. split; [|done].
        right. exists (asr_recording_url data). split; [done|]. split; [by right|done].
    + rewrite Ha. simpl. exists "[NO_AUDIO]", w. split; [reflexivity|].
      split; [by left|]. split; [apply filter_noise_nonempty|].
      split; [by left|]. done.
Qed.

(** ** What a turn answers *)

Section Answers.
Context (env : Env) (cfg : Config).

Lemma digit_not_plus c : Py.is_digit c = true -> Ascii.eqb "+" c = false.
Proof.
  intros Hd. destruct (Ascii.eqb_spec "+"%char c) as [<-|]; [|done]. discriminate Hd.
Qed.

Lemma only_digits_no_plus raw : Py.startswith (Py.only_digits raw) "+" = false.
Proof.
  unfold Py.startswith, Py.only_digits. rewrite PyFacts.chars_str.
  induction (Py.chars raw) as [|c l IH]; [done|]. rewrite filter_cons.
  destruct (decide _) as [Hc|_]; [|done].
  change (Py.chars "+") with ["+"%char]. cbn [Py.starts_with].
  by rewrite (digit_not_plus c (Is_true_eq_true _ Hc)).
Qed.

Lemma e164_plus n : Py.startswith (Telephony.e164 n) "+" = true.
Proof.
  unfold Telephony.e164. destruct (Py.startswith n "+") eqn:Hn; [done|].
  unfold Py.startswith. rewrite chars_app. simpl. done.
Qed.

Lemma e164_idem n : Telephony.e164 (Telephony.e164 n) = Telephony.e164 n.
Proof. unfold Telephony.e164 at 1. by rewrite e164_plus. Qed.

Lemma keeps_build_ncco_shape l text transfer should_hangup should_wait raw_number :
  (forall target, transfer = Some target -> target = Voice.resolve_target cfg raw_number) ->
  keeps (fun _ : World => True)
        (Voice.build_ncco cfg l text transfer should_hangup should_wait)
        (turn_actions cfg).
Proof.
  intros Htarget. unfold Voice.build_ncco. destruct transfer as [target|].
  - apply keeps_then. intros from. apply keeps_ret. right. right.
    rewrite (Htarget target eq_refl). by exists text, from, raw_number.
  - destruct should_hangup.
    + apply keeps_ret. right. left. by exists text.
    + apply keeps_then. intros history. apply keeps_then. intros first.
      apply keeps_ret. left. eexists text, _. split; [reflexivity|].
      destruct should_wait; [tauto|]. destruct first; tauto.
Qed.

Lemma keeps_route_shape call_uuid l text :
  keeps (fun _ : World => True) (Voice.route cfg call_uuid l text) (turn_actions cfg).
Proof.
  unfold Voice.route.
  destruct (Voice.detect_literal "[ACTION: HANGUP]" text) as [should_hangup text1].
  destruct (Voice.detect_literal "[ACTION: WAIT]" text1) as [should_wait text2].
  unfold Voice.detect_transfer.
  destruct (Py.search Py.transfer_tag text2) as [raw_number|].
  - eapply keeps_bind with (φ := fun found =>
                                   fst found = Some (Voice.resolve_target cfg raw_number)).
    + apply keeps_then. intros _. apply keeps_then. intros _. by apply keeps_ret.
    + intros found Hfound.
      apply (keeps_build_ncco_shape l _ _ should_hangup should_wait raw_number).
      intros target. rewrite Hfound. by intros [= <-].
  - eapply keeps_bind with (φ := fun found => fst found = None).
    + by apply keeps_ret.
    + intros found Hfound.
      apply (keeps_build_ncco_shape l _ _ should_hangup should_wait None).
      intros target. by rewrite Hfound.
Qed.

End Answers.

Lemma keeps_asr_answer env cfg data :
  keeps (fun _ : World => True) (Voice.handle_voice_asr env cfg data) (asr_answer cfg).
Proof.
  assert (forall text n, (n = 12 \/ n = 15 \/ n = 50)%N ->
            asr_answer cfg (Json 200 [Talk text true; Voice.listen cfg n])) as Hlisten.
  { intros text n Hn. right. right. eexists. split; [reflexivity|]. left. by exists text, n. }
  unfold Voice.handle_voice_asr.
  apply keeps_then. intros l. apply keeps_then. intros [|].
  { apply keeps_ret. by left. }
  apply keeps_then. intros [l'|]; [|apply keeps_ret; right; by left].
  unfold Voice.turn. apply keeps_then. intros speech_text.
  unfold Voice.pipeline. apply keeps_try_except.
  - apply keeps_then. intros _. destruct (mem_str _ _).
    + apply keeps_then. intros _. apply keeps_ret. apply Hlisten. tauto.
    + unfold Voice.respond.
      apply keeps_then. intros reply. apply keeps_then. intros text.
      eapply keeps_bind; [apply keeps_route_shape|]. intros ncco Hncco.
      apply keeps_then. intros _. apply keeps_ret. right. right. by exists ncco.
  - intros _. apply keeps_then. intros _. apply keeps_ret. apply Hlisten. tauto.
Qed.

(** X7: every answer of the ASR webhook is the 404, the empty action list,
    or a talk action followed by exactly one more action: an input action
    that posts back to the webhook, with [endOnSilence] 1.2, 1.5 or 5.0; a
    hang-up; or a connect action with timeout 60 to the number the transfer
    tag resolves to.  Barge-in is disabled for the transfer and for nothing
    else. *)
Theorem asr_webhook_answers (env : Env) (cfg : Config) (data : AsrRequest) (w : World) :
  match fst (Voice.handle_voice_asr env cfg data w) with
  | Ret r => asr_answer cfg r
  | Raise _ => True
  end.
Proof.
  pose proof (keeps_asr_answer env cfg data w I) as H.
  destruct (Voice.handle_voice_asr env cfg data w) as [[r|e] w']; simpl; tauto.
Qed.

(** X8: the number a transfer dials, for a transfer tag whose number, if
    it has one, is ASCII.  It begins with ["+"], and formatting it again
    changes nothing.  When the tag gives a number of at least seven digits,
    the number dialled is those digits after a ["+"], and nothing but digits
    follows the ["+"]; when the tag gives a shorter number or none, it is the
    configured agent number, with a ["+"] before it unless it has one. *)
Theorem transfer_number_is_dialable (cfg : Config) (raw_number : option string) :
  (forall raw, raw_number = Some raw -> ascii_text raw) ->
  let number := Telephony.e164 (Voice.resolve_target cfg raw_number) in
  Py.startswith number "+" = true
  /\ Telephony.e164 number = number
  /\ match raw_number with
     | Some raw =>
         if (7 <=? Py.len (Py.only_digits raw))%nat
         then number = ("+" ++ Py.only_digits raw)%string
              /\ Forall (fun c => Py.is_digit c = true) (Py.chars (Py.only_digits raw))
         else number = Telephony.e164 (Voice.AGENT_NUMBER cfg)
     | None => number = Telephony.e164 (Voice.AGENT_NUMBER cfg)
     end.
Proof.
  intros _ number. split; [apply e164_plus|]. split; [apply e164_idem|].
  unfold number, Voice.resolve_target. destruct raw_number as [raw|]; [|done].
  destruct (7 <=? Py.len (Py.only_digits raw))%nat; [|done].
  split; [unfold Telephony.e164; by rewrite only_digits_no_plus|].
  unfold Py.only_digits. rewrite PyFacts.chars_str.
  apply Forall_forall. intros c [Hc _]%list_elem_of_filter. by apply Is_true_eq_true.
Qed.

Lemma transfer_number_is_dialable_witness :
  Py.startswith (Telephony.e164 (Voice.resolve_target no_config (Some "12025550199"))) "+"
  = true
  /\ Telephony.e164 (Telephony.e164 (Voice.resolve_target no_config (Some "12025550199")))
     = Telephony.e164 (Voice.resolve_target no_config (Some "12025550199"))
  /\ Telephony.e164 (Voice.resolve_target no_config (Some "12025550199")) = "+12025550199"
  /\ Forall (fun c => Py.is_digit c = true) (Py.chars (Py.only_digits "12025550199")).
Proof.
  apply (transfer_number_is_dialable no_config (Some "12025550199")).
  intros raw [= <-]. reflexivity.
Defined.

Example transfer_numbers :
  Telephony.e164 (Voice.resolve_target no_config (Some "12025550199")) = "+12025550199"
  /\ Telephony.e164 (Voice.resolve_target no_config (Some "911")) = "+14702834062"
  /\ Telephony.e164 (Voice.resolve_target no_config None) = "+14702834062"
  /\ Telephony.e164 (Voice.resolve_target (mkConfig None (Some "+18005550100")) None)
     = "+18005550100".
Proof. vm_compute. repeat split. Qed.

(** ** The helpdesk wrappers *)

Section Helpdesk.
Context (env : Env).

(** A request under [try], decoded by something that does not raise, with a
    fallback for every exception. *)
Lemma run_guarded {A} c (k : Reply -> M World A) (dflt : A) w :
  (forall r w', exists a, k r w' = (Ret a, w')) ->
  exists a,
    try_except (let* r := await env c in k r) (fun _ => ret dflt) w
    = (Ret a, world_await c w)
    /\ (forall e, env (log w) c = Raise e -> a = dflt).
Proof.
  intros Hk. unfold try_except, bind, await. fold (world_await c w).
  destruct (env (log w) c) as [r|e].
  - destruct (Hk r (world_await c w)) as [a ->]. exists a. split; [done|]. done.
  - exists dflt. split; [done|]. done.
Qed.

Lemma run_get_latest_tickets contact_id w :
  Freshdesk.get_latest_tickets env contact_id w
  = (Ret (VTickets match env (log w) (GetLatestTicketsHttp contact_id) with
                   | Ret (RVal (VTickets all)) => take 2 (filter unsettled all)
                   | _ => []
                   end),
     world_await (GetLatestTicketsHttp contact_id) w).
Proof.
  unfold Freshdesk.get_latest_tickets, try_except, bind, await.
  fold (world_await (GetLatestTicketsHttp contact_id) w).
  by destruct (env _ _) as [[[| | | | |]|]|].
Qed.

End Helpdesk.

(** X9: a failure of the helpdesk never reaches the caller.  Each wrapper
    makes its one request and returns, whatever comes back; when the request
    raises, it returns its fallback: no ticket id, [False], the empty
    contact, no tickets.  A search for the empty phone number makes no
    request at all. *)
Theorem helpdesk_failures_are_absorbed (env : Env) (w : World) :
  (forall call_id description phone sentiment requester_id,
      let c := CreateTicketHttp call_id description phone sentiment requester_id in
      exists r, Freshdesk.create_ticket env call_id description phone sentiment
                  requester_id w = (Ret r, world_await c w)
                /\ (forall e, env (log w) c = Raise e -> r = VNone))
  /\ (forall ticket_id status,
        let c := UpdateTicketStatusHttp ticket_id status in
        exists r, Freshdesk.update_ticket_status env ticket_id status w
                  = (Ret r, world_await c w)
                  /\ (forall e, env (log w) c = Raise e -> r = false))
  /\ (forall contact_id new_name,
        let c := UpdateContactNameHttp contact_id new_name in
        exists r, Freshdesk.update_contact_name env contact_id new_name w
                  = (Ret r, world_await c w)
                  /\ (forall e, env (log w) c = Raise e -> r = false))
  /\ (forall name phone,
        let c := CreateContactHttp name phone in
        exists r, Freshdesk.create_contact env name phone w = (Ret r, world_await c w)
                  /\ (forall e, env (log w) c = Raise e -> r = ∅))
  /\ (forall phone,
        let c := SearchContactHttp phone in
        phone <> "" ->
        exists r, Freshdesk.search_contact_by_phone env phone w = (Ret r, world_await c w)
                  /\ (forall e, env (log w) c = Raise e -> r = ∅))
  /\ Freshdesk.search_contact_by_phone env "" w = (Ret ∅, w)
  /\ (forall contact_id,
        let c := GetLatestTicketsHttp contact_id in
        exists r, Freshdesk.get_latest_tickets env contact_id w = (Ret r, world_await c w)
                  /\ (forall e, env (log w) c = Raise e -> r = VTickets [])).
Proof.
  split; [|split; [|split; [|split; [|split; [|split]]]]].
  - intros. apply run_guarded. intros [[| | |id| |]|] w'; unfold ret; eauto.
    destruct (String.eqb id ""); eauto.
  - intros. apply run_guarded. intros [[| [] | | | |]|] w'; unfold ret; eauto.
  - intros. apply run_guarded. intros [[| [] | | | |]|] w'; unfold ret; eauto.
  - intros. apply run_guarded. intros [|] w'; unfold ret; eauto.
  - intros phone c Hphone. unfold Freshdesk.search_contact_by_phone.
    rewrite (proj2 (String.eqb_neq phone "") Hphone).
    apply run_guarded. intros [|] w'; unfold ret; eauto.
  - reflexivity.
  - intros. apply run_guarded. intros [[| | | | |]|] w'; unfold ret; eauto.
Qed.

(** X10: [get_latest_tickets] returns at most two tickets, each of them open
    or pending, taken in the helpdesk's order from the list it answered: the
    first two such tickets of that list.  No open or pending ticket is left
    out unless two were found before it. *)
Theorem latest_tickets_are_two_unsettled (env : Env) (contact_id : Val) (w : World) :
  exists l,
    Freshdesk.get_latest_tickets env contact_id w
    = (Ret (VTickets l), world_await (GetLatestTicketsHttp contact_id) w)
    /\ length l <= 2
    /\ Forall unsettled l
    /\ (forall all,
          env (log w) (GetLatestTicketsHttp contact_id) = Ret (RVal (VTickets all)) ->
          l `sublist_of` all
          /\ l `prefix_of` filter unsettled all
          /\ (forall t, t ∈ all -> unsettled t -> t ∈ l \/ length l = 2)).
Proof.
  rewrite run_get_latest_tickets.
  destruct (env (log w) (GetLatestTicketsHttp contact_id)) as [[[| | | | |all]|]|];
    try (exists []; split; [reflexivity|]; split; [simpl; lia|]; split; [constructor|];
         intros ? [=]).
  exists (take 2 (filter unsettled all)). split; [reflexivity|].
  split; [rewrite length_take; lia|].
  split; [apply Forall_take, Forall_forall; intros t Ht; by apply list_elem_of_filter in Ht as [? _]|].
  intros ? [= <-]. split; [|split].
  - etrans; [apply sublist_take|apply sublist_filter].
  - apply prefix_take.
  - intros t Ht Hu. destruct (decide (length (filter unsettled all) <= 2)) as [Hle|Hgt].
    + left. rewrite take_ge by done. by apply list_elem_of_filter.
    + right. rewrite length_take. lia.
Qed.

(** ** The contact lookup and the answer webhook *)

Global Instance same_store_inv σ call_uuid l :
  calls σ !! call_uuid = Some l -> SessionInv call_uuid l [] (same_store σ).
Proof.
  intros Hc. split.
  - intros w Hw. unfold same_store in Hw. by rewrite Hw.
  - intros w d k v _ _ Hk. by apply not_elem_of_nil in Hk.
  - intros w c Hw. exact Hw.
  - intros w t Hw. exact Hw.
Qed.

Global Instance just_answered_inv call_uuid from_number l :
  SessionInv call_uuid l lookup_keys (just_answered call_uuid from_number l).
Proof.
  split.
  - by intros w (d & [Hc _] & _).
  - intros w d k v (d0 & [Hc Hd0] & Hh & Hp & Ht & Hph) Hd Hk.
    assert (d0 = d) as -> by congruence.
    exists (<[k := v]> d). split; [split; simpl; [done|apply lookup_insert_eq]|].
    unfold lookup_keys in Hk. apply list_elem_of_In in Hk. simpl in Hk.
    rewrite !lookup_insert_ne; [done|..];
      intros ->; repeat (destruct Hk as [Hk|Hk]; [discriminate Hk|]); done.
  - intros w c H. exact H.
  - intros w t H. exact H.
Qed.

Section LookupFacts.
Context (env : Env) (call_uuid : string) (l : loc) (K : list string) (I : World -> Prop).
Context `{!SessionInv call_uuid l K I}.

Lemma keeps_search_contact phone :
  keeps I (Freshdesk.search_contact_by_phone env phone) (fun _ => True).
Proof.
  unfold Freshdesk.search_contact_by_phone. destruct (String.eqb phone "").
  - by apply keeps_ret.
  - apply keeps_try_except; [|intros _; by apply keeps_ret].
    eapply keeps_bind_any; [by eapply keeps_await|].
    intros [|]; by apply keeps_ret.
Qed.

Lemma keeps_get_latest_tickets contact_id :
  keeps I (Freshdesk.get_latest_tickets env contact_id) (fun _ => True).
Proof.
  unfold Freshdesk.get_latest_tickets.
  apply keeps_try_except; [|intros _; by apply keeps_ret].
  eapply keeps_bind_any; [by eapply keeps_await|].
  intros [[| | | | |]|]; by apply keeps_ret.
Qed.

Lemma keeps_lookup_contact_inv from_number :
  keeps I (Voice.lookup_contact env from_number) (fun _ => True).
Proof.
  unfold Voice.lookup_contact.
  apply keeps_try_except; [|intros _; by apply keeps_ret].
  eapply keeps_bind_any; [apply keeps_search_contact|]. intros contact0.
  eapply keeps_bind_any.
  { destruct (_ || _); [by eapply keeps_create_contact|by apply keeps_ret]. }
  intros contact. destruct (negb _ && truthy _); [|by apply keeps_ret].
  eapply keeps_bind_any.
  { destruct (default VNone (contact !! "name")) as [|[]| |n|[]|[]]; simpl;
      try apply keeps_raise; by apply keeps_ret. }
  intros valid. eapply keeps_bind_any; [apply keeps_get_latest_tickets|].
  intros recent_tickets. by apply keeps_ret.
Qed.

Hypothesis HK : forall k, k ∈ lookup_keys -> k ∈ K.

Lemma keeps_background_lookup from_number :
  keeps I (Voice.background_freshdesk_lookup env call_uuid from_number) (fun _ => True).
Proof.
  assert (forall k v, k ∈ lookup_keys -> keeps I (lift (dict_set l k v)) (fun _ => True))
    as Hset by (intros; eapply keeps_dict_set; eauto).
  assert ("contact_id" ∈ lookup_keys /\ "contact_name" ∈ lookup_keys
          /\ "recent_tickets" ∈ lookup_keys /\ "lookup_done" ∈ lookup_keys)
    as (H1 & H2 & H3 & H4)
    by (unfold lookup_keys; repeat split; apply list_elem_of_In; simpl; tauto).
  unfold Voice.background_freshdesk_lookup.
  eapply keeps_bind_any; [apply keeps_lookup_contact_inv|]. intros update.
  apply (keeps_bind_loc call_uuid l K I).
  eapply keeps_bind_any; [by eapply keeps_dict_is_empty|]. intros [|];
    [by apply keeps_ret|].
  eapply keeps_bind_any.
  { destruct update as [[[contact_id contact_name] recent_tickets]|];
      [|by apply keeps_ret].
    eapply keeps_bind_any; [by apply Hset|]. intros _.
    eapply keeps_bind_any; [by apply Hset|]. intros _. by apply Hset. }
  intros _. eapply keeps_bind_any; [by apply Hset|]. intros _.
  by eapply keeps_set_call_state.
Qed.

End LookupFacts.

Section Lookup.
Context (env : Env).

Lemma keeps_store_await σ c : keeps (same_store σ) (await env c) (fun _ => True).
Proof. intros w Hw. unfold await. by destruct (env (log w) c). Qed.

Ltac store_step :=
  lazymatch goal with
  | |- keeps _ (bind _ _) _ => apply keeps_bind_any; [|intros ?]
  | |- keeps _ (await _ _) _ => apply keeps_store_await
  | |- keeps _ (ret _) _ => by apply keeps_ret
  | |- keeps _ (raise _) _ => apply keeps_raise
  | |- keeps _ (try_except _ _) _ => apply keeps_try_except; [|intros ?]
  | |- keeps _ (if ?b then _ else _) _ => destruct b
  | |- keeps _ (match ?x with _ => _ end) _ => destruct x
  end.

(** The lookup of the contact only asks the helpdesk: the store is not
    touched. *)
Lemma keeps_store_lookup_contact σ from_number :
  keeps (same_store σ) (Voice.lookup_contact env from_number) (fun _ => True).
Proof.
  unfold Voice.lookup_contact, Freshdesk.search_contact_by_phone,
    Freshdesk.create_contact, Freshdesk.get_latest_tickets, Voice.is_valid_name_val.
  repeat store_step.
Qed.

Lemma lookup_contact_returns from_number w :
  exists r w1,
    Voice.lookup_contact env from_number w = (Ret r, w1)
    /\ call_state w1 = call_state w
    /\ match r with
       | Some (_, contact_name, _) => name_ok contact_name
       | None => True
       end.
Proof.
  pose proof (keeps_lookup_contact env from_number w I) as Hname.
  pose proof (keeps_store_lookup_contact (call_state w) from_number w eq_refl) as Hstore.
  assert (exists r w1, Voice.lookup_contact env from_number w = (Ret r, w1))
    as (r & w1 & Hrun).
  { unfold Voice.lookup_contact, try_except.
    match goal with
    | |- exists _ _, match ?x with _ => _ end = _ => destruct x as [[r|e] w1]
    end; unfold ret; eauto. }
  exists r, w1. split; [done|]. rewrite Hrun in Hname, Hstore.
  split; [by destruct Hstore|tauto].
Qed.

End Lookup.

(** X11: the background lookup always ends with [lookup_done] set, whatever
    the helpdesk answers or raises, so the ASR handler stops waiting for it.
    Of the call's dict it writes the contact's id, name and tickets and
    [lookup_done], nothing else; the name it stores, if it stores one, is
    [None] or a name that passed the name test. *)
Theorem lookup_always_finishes
    (env : Env) (call_uuid from_number : string) (l : loc)
    (d : gmap string Val) (w : World) :
  bound call_uuid l d w -> d <> ∅ ->
  exists d' w',
    Voice.background_freshdesk_lookup env call_uuid from_number w = (Ret tt, w')
    /\ bound call_uuid l d' w'
    /\ d' !! "lookup_done" = Some (VBool true)
    /\ lookup_naps d' = 0
    /\ (forall k, k ∉ lookup_keys -> d' !! k = d !! k)
    /\ (d' !! "contact_name" = d !! "contact_name"
        \/ exists name, d' !! "contact_name" = Some name /\ name_ok name).
Proof.
  intros Hb Hne.
  destruct (lookup_contact_returns env from_number w) as (r & w1 & Hrun & Hσ & Hname).
  assert (bound call_uuid l d w1) as Hb1 by (unfold bound; by rewrite Hσ).
  assert (forall k k' v (m : gmap string Val), k ∉ lookup_keys -> k' ∈ lookup_keys ->
            <[k' := v]> m !! k = m !! k) as Hframe.
  { intros k k' v m Hk Hk'. apply lookup_insert_ne. by intros ->. }
  assert ("contact_id" ∈ lookup_keys /\ "contact_name" ∈ lookup_keys
          /\ "recent_tickets" ∈ lookup_keys /\ "lookup_done" ∈ lookup_keys)
    as (H1 & H2 & H3 & H4)
    by (unfold lookup_keys; repeat split; apply list_elem_of_In; simpl; tauto).
  unfold Voice.background_freshdesk_lookup.
  erewrite run_bind; [|exact Hrun].
  erewrite run_bind; [|by eapply run_get_call_state].
  erewrite run_bind; [|by eapply run_dict_is_empty].
  rewrite bool_decide_eq_false_2 by done.
  destruct r as [[[contact_id contact_name] recent_tickets]|].
  - set (d1 := <["contact_id" := contact_id]> d).
    set (d2 := <["contact_name" := contact_name]> d1).
    set (d3 := <["recent_tickets" := recent_tickets]> d2).
    set (d4 := <["lookup_done" := VBool true]> d3).
    assert (bound call_uuid l d1 (world_set l d1 w1)) as Hb2 by (by eapply bound_world_set).
    assert (bound call_uuid l d2 (world_set l d2 w1)) as Hb3 by (by eapply bound_world_set).
    assert (bound call_uuid l d3 (world_set l d3 w1)) as Hb4 by (by eapply bound_world_set).
    assert (bound call_uuid l d4 (world_set l d4 w1)) as Hb5 by (by eapply bound_world_set).
    exists d4, (world_set l d4 w1). split.
    + erewrite run_bind.
      2:{ erewrite run_bind; [|by eapply run_dict_set].
          erewrite run_bind; [|by eapply run_dict_set]. fold d1 d2.
          rewrite world_set_set. by eapply run_dict_set. }
      fold d3. rewrite world_set_set.
      erewrite run_bind; [|by eapply run_dict_set]. fold d4. rewrite world_set_set.
      by eapply run_set_call_state.
    + split; [done|]. split; [apply lookup_insert_eq|].
      split; [unfold lookup_naps, d4; by rewrite lookup_insert_eq|]. split.
      * intros k Hk. unfold d4, d3, d2, d1. by rewrite !Hframe.
      * right. exists contact_name. split; [|done].
        unfold d4, d3, d2. rewrite !lookup_insert_ne by done. apply lookup_insert_eq.
  - set (d4 := <["lookup_done" := VBool true]> d).
    assert (bound call_uuid l d4 (world_set l d4 w1)) as Hb5 by (by eapply bound_world_set).
    exists d4, (world_set l d4 w1). split.
    + erewrite run_bind; [|reflexivity].
      erewrite run_bind; [|by eapply run_dict_set]. fold d4.
      by eapply run_set_call_state.
    + split; [done|]. split; [apply lookup_insert_eq|].
      split; [unfold lookup_naps, d4; by rewrite lookup_insert_eq|]. split.
      * intros k Hk. unfold d4. by rewrite Hframe.
      * left. unfold d4. by rewrite lookup_insert_ne.
Qed.

Lemma lookup_always_finishes_witness :
  exists d' w',
    Voice.background_freshdesk_lookup (contact_env (VStr "15551234567")) "call-1"
      "15551234567" ticketed_world = (Ret tt, w')
    /\ bound "call-1" 0 d' w'
    /\ d' !! "lookup_done" = Some (VBool true)
    /\ lookup_naps d' = 0
    /\ (forall k, k ∉ lookup_keys -> d' !! k = ticketed_dict !! k)
    /\ (d' !! "contact_name" = ticketed_dict !! "contact_name"
        \/ exists name, d' !! "contact_name" = Some name /\ name_ok name).
Proof.
  apply (lookup_always_finishes (contact_env (VStr "15551234567")) "call-1"
           "15551234567" 0 ticketed_dict ticketed_world).
  - split; reflexivity.
  - intros H. apply (f_equal (lookup "ticket_id")) in H. vm_compute in H. discriminate H.
Defined.

Section Answering.
Context (env : Env) (cfg : Config).

Lemma keeps_greeting_for_inv (I : World -> Prop) raw_name :
  keeps I (Voice.greeting_for raw_name) (fun _ => True).
Proof.
  intros w Hw. unfold Voice.greeting_for, Voice.is_valid_name_val, bind, ret, raise.
  by destruct raw_name as [|[]| |n|[]|[]].
Qed.

Lemma triple_any_raise {S A} (I : S -> Prop) (m : M S A) (Q : A -> S -> Prop) :
  triple I m Q (fun _ s => I s) -> triple I m Q (fun _ _ => True).
Proof.
  intros H. eapply triple_conseq; [exact H|done|done|done].
Qed.

(** From the freshly stored session to the response: the greeting is chosen
    without touching the transcript, then appended to it. *)
Lemma answer_after_store call_uuid from_number l (G : M World string) ws_url :
  keeps (just_answered call_uuid from_number l) G (fun _ => True) ->
  triple (just_answered call_uuid from_number l)
         (let* greeting := G in
          lift (App.append_history call_uuid "assistant" greeting) >>
          ret (Json 200 [Talk greeting false; ConnectWebsocket ws_url call_uuid]))
         (fun r w => exists g,
              r = Json 200 [Talk g false; ConnectWebsocket ws_url call_uuid]
              /\ greeted call_uuid from_number g w)
         (fun _ _ => True).
Proof.
  intros HG. eapply triple_bind; [apply triple_any_raise, HG|].
  intros g w [(d & Hb & Hh & Hp & Ht & Hph) _].
  erewrite run_bind; [|by eapply run_append_history].
  unfold ret. exists g. split; [done|]. unfold greeted.
  rewrite !(field_world_set call_uuid l d) by done.
  rewrite lookup_insert_eq, !lookup_insert_ne by done. done.
Qed.

Lemma keeps_answer_greeting call_uuid from_number l (cond : bool) :
  keeps (just_answered call_uuid from_number l)
        (if cond then
           try_except
             (let* done := try_except
                             (let* r := await env (WaitForTask 400) in
                              match r with
                              | RVal (VBool b) => ret (Some b)
                              | _ => ret (Some false)
                              end)
                             (fun _ => ret None) in
              match done with
              | Some true =>
                  try_except (Voice.background_freshdesk_lookup env call_uuid from_number)
                             (fun _ => ret tt)
              | _ => spawn (BackgroundFreshdeskLookup call_uuid from_number)
              end >>
              match done with
              | None => raise (External "wait")
              | Some _ =>
                  let* cs := lift (App.get_call_state call_uuid) in
                  let* empty := lift (Voice.dict_is_empty cs) in
                  if empty then ret Voice.generic_greeting
                  else
                    let* raw_name := lift (dict_get_default cs "contact_name" (VStr "")) in
                    Voice.greeting_for raw_name
              end)
             (fun _ => ret Voice.generic_greeting)
         else
           let* cs := lift (App.get_call_state call_uuid) in
           lift (dict_set cs "lookup_done" (VBool true)) >>
           lift (App.set_call_state call_uuid cs) >>
           ret Voice.generic_greeting)
        (fun _ => True).
Proof.
  set (J := just_answered call_uuid from_number l).
  assert (SessionInv call_uuid l lookup_keys J) as HInv by apply just_answered_inv.
  assert ("lookup_done" ∈ lookup_keys) as Hdone
    by (unfold lookup_keys; apply list_elem_of_In; simpl; tauto).
  destruct cond.
  - apply keeps_try_except; [|intros _; by apply keeps_ret].
    eapply keeps_bind_any.
    { apply keeps_try_except; [|intros _; by apply keeps_ret].
      eapply keeps_bind_any; [by eapply keeps_await|].
      intros [[| | | | |]|]; by apply keeps_ret. }
    intros done. eapply keeps_bind_any.
    { destruct done as [[|]|]; try (by eapply keeps_spawn).
      apply keeps_try_except; [|intros _; by apply keeps_ret].
      by eapply keeps_background_lookup. }
    intros _. destruct done as [_|]; [|apply keeps_raise].
    apply (keeps_bind_loc call_uuid l lookup_keys J).
    eapply keeps_bind_any; [by eapply keeps_dict_is_empty|].
    intros [|]; [by apply keeps_ret|].
    eapply keeps_bind_any; [by eapply keeps_dict_get_default|].
    intros raw_name. apply keeps_greeting_for_inv.
  - apply (keeps_bind_loc call_uuid l lookup_keys J).
    eapply keeps_bind_any; [by eapply keeps_dict_set|]. intros _.
    eapply keeps_bind_any; [by eapply keeps_set_call_state|]. intros _.
    by apply keeps_ret.
Qed.

End Answering.

(** X12: the answer webhook never raises: it answers 500, or 200 with a talk
    action that greets (barge-in off) and the connection to the audio
    stream.  In the second case the store holds, under the call id, a session
    that starts afresh, whatever it held for that id before: the transcript
    is the greeting alone, no turn is in progress, no ticket is attached, and
    [phone] is the caller's number. *)
Theorem answer_starts_a_fresh_session
    (env : Env) (cfg : Config) (data : AnswerRequest) (w : World) :
  exists r w',
    Voice.handle_voice_answer env cfg data w = (Ret r, w')
    /\ (r = JsonError 500 "error"
        \/ exists g,
             r = Json 200 [Talk g false;
                           ConnectWebsocket
                             (Py.replace "http" "ws" (Voice.PUBLIC_URL cfg) ++ "/voice/stream")%string
                             (answer_call_uuid data)]
             /\ greeted (answer_call_uuid data) (answer_from_number data) g w').
Proof.
  unfold Voice.handle_voice_answer, try_except.
  fold (answer_call_uuid data). fold (answer_from_number data).
  set (to_number := Voice.first_nonempty (ans_to data) None "unknown").
  set (d0 := Voice.answer_dict (answer_from_number data) to_number (ans_region_url data)).
  set (l0 := fresh (dom (objs (call_state w)))).
  set (w0 := with_state
               (mkState (<[l0 := d0]> (objs (call_state w)))
                        (<[answer_call_uuid data := l0]> (calls (call_state w)))) w).
  erewrite run_bind; [|reflexivity].
  erewrite run_bind; [|reflexivity].
  change (with_state _ (with_state _ w)) with w0.
  assert (just_answered (answer_call_uuid data) (answer_from_number data) l0 w0) as HJ.
  { exists d0. split; [split; simpl; apply lookup_insert_eq|]. by repeat split. }
  lazymatch goal with
  | |- exists _ _, match bind ?G ?K w0 with _ => _ end = _ /\ _ =>
      pose proof (answer_after_store (answer_call_uuid data) (answer_from_number data) l0
                    G (Py.replace "http" "ws" (Voice.PUBLIC_URL cfg) ++ "/voice/stream")%string
                    (keeps_answer_greeting env _ _ l0 _) w0 HJ) as Hrun;
      destruct (bind G K w0) as [[r|e] w1]
  end.
  - exists r, w1. split; [done|]. by right.
  - eexists _, w1. split; [reflexivity|]. by left.
Qed.

(** A second answer for the same call id: the transcript starts again. *)
Example answer_twice :
  let w1 := snd (Voice.handle_voice_answer (contact_env (VStr "Alice")) no_config
                   answer_request ticketed_world) in
  field (call_state ticketed_world) "call-1" "ticket_id" = Some (VStr "101")
  /\ field (call_state w1) "call-1" "ticket_id" = Some VNone
  /\ field (call_state w1) "call-1" "history"
     = Some (VHist [mkTurn "assistant"
                      "Hello Alice. Welcome back to Sandeza support. How can I help you today?"])
  /\ field (call_state w1) "call-1" "lookup_done" = Some (VBool true).
Proof. vm_compute. repeat split. Qed.

(** ** The event webhook *)

Section Events.

Lemma run_events_completed data call_uuid l d w :
  VoiceEvents.status_of data = VStr "completed" ->
  VoiceEvents.call_uuid_of data = Some call_uuid ->
  bound call_uuid l d w -> d <> ∅ ->
  VoiceEvents.handle_voice_events data w
  = (Ret (Json 200 []),
     let d' := <["status" := VStr "completed"]> d in
     let w' := world_set l d' w in
     if truthy (default VNone (d !! "ticket_id"))
     then world_spawn (AddTicketNote (default VNone (d !! "ticket_id"))
                                     (default (VHist []) (d !! "history"))) w'
     else w').
Proof.
  intros Hs Hu Hb Hne. unfold VoiceEvents.handle_voice_events.
  rewrite Hs, Hu. cbv zeta.
  set (d' := <["status" := VStr "completed"]> d).
  assert (bound call_uuid l d' (world_set l d' w)) as Hb' by (by eapply bound_world_set).
  assert (d' !! "ticket_id" = d !! "ticket_id") as Ht by (by apply lookup_insert_ne).
  assert (d' !! "history" = d !! "history") as Hh by (by apply lookup_insert_ne).
  unfold bind at 1. unfold try_except.
  erewrite run_bind; [|reflexivity]. change (String.eqb "completed" "completed") with true.
  cbv iota.
  erewrite run_bind; [|by eapply run_get_call_state].
  erewrite run_bind; [|by eapply run_dict_is_empty].
  rewrite bool_decide_eq_false_2 by done.
  erewrite run_bind; [|by eapply run_dict_set]. fold d'.
  erewrite run_bind; [|by eapply run_set_call_state].
  erewrite run_bind; [|by eapply run_dict_get]. rewrite Ht.
  destruct (truthy (default VNone (d !! "ticket_id"))); [|done].
  erewrite run_bind; [|by eapply run_dict_get]. rewrite Ht.
  erewrite run_bind; [|by eapply run_dict_get_default]. rewrite Hh.
  done.
Qed.

Lemma run_events_other data w :
  (forall call_uuid, VoiceEvents.status_of data = VStr "completed" ->
                     VoiceEvents.call_uuid_of data = Some call_uuid -> False) ->
  VoiceEvents.handle_voice_events data w = (Ret (Json 200 []), w).
Proof.
  intros Hother. unfold VoiceEvents.handle_voice_events, try_except, bind.
  destruct (VoiceEvents.status_of data) as [|b|n|s|h|t]; try reflexivity.
  simpl. destruct (VoiceEvents.call_uuid_of data) as [call_uuid|]; [|reflexivity].
  destruct (String.eqb_spec s "completed") as [->|_]; [|reflexivity].
  by destruct (Hother call_uuid).
Qed.

End Events.

(** X13: when a call with a session is reported completed, the event webhook
    marks the session completed and, if a ticket is attached, schedules one
    note for that ticket with the session's transcript; without a ticket it
    schedules nothing.  It makes no request itself and answers with the
    empty action list. *)
Theorem completed_call_syncs_its_transcript
    (data : EventRequest) (call_uuid : string) (l : loc) (d : gmap string Val)
    (w : World) :
  VoiceEvents.status_of data = VStr "completed" ->
  VoiceEvents.call_uuid_of data = Some call_uuid ->
  bound call_uuid l d w -> d <> ∅ ->
  exists w',
    VoiceEvents.handle_voice_events data w = (Ret (Json 200 []), w')
    /\ log w' = log w
    /\ field (call_state w') call_uuid "status" = Some (VStr "completed")
    /\ (forall k, k <> "status" -> field (call_state w') call_uuid k = d !! k)
    /\ tasks w'
       = tasks w ++ (if truthy (default VNone (d !! "ticket_id"))
                     then [AddTicketNote (default VNone (d !! "ticket_id"))
                                         (default (VHist []) (d !! "history"))]
                     else []).
Proof.
  intros Hs Hu Hb Hne. rewrite (run_events_completed data call_uuid l d w Hs Hu Hb Hne).
  eexists. split; [reflexivity|]. cbv zeta.
  destruct (truthy (default VNone (d !! "ticket_id"))); simpl.
  - split; [done|]. unfold field. simpl. rewrite (proj1 Hb), lookup_insert_eq.
    split; [apply lookup_insert_eq|]. split; [|done].
    intros k Hk. by rewrite lookup_insert_ne.
  - split; [done|]. unfold field. simpl. rewrite (proj1 Hb), lookup_insert_eq.
    split; [apply lookup_insert_eq|]. split; [|by rewrite app_nil_r].
    intros k Hk. by rewrite lookup_insert_ne.
Qed.

Lemma completed_call_syncs_its_transcript_witness :
  exists w',
    VoiceEvents.handle_voice_events completed_event ticketed_world = (Ret (Json 200 []), w')
    /\ log w' = log ticketed_world
    /\ field (call_state w') "call-1" "status" = Some (VStr "completed")
    /\ (forall k, k <> "status" -> field (call_state w') "call-1" k = ticketed_dict !! k)
    /\ tasks w'
       = tasks ticketed_world
         ++ (if truthy (default VNone (ticketed_dict !! "ticket_id"))
             then [AddTicketNote (default VNone (ticketed_dict !! "ticket_id"))
                                 (default (VHist []) (ticketed_dict !! "history"))]
             else []).
Proof.
  apply (completed_call_syncs_its_transcript completed_event "call-1" 0 ticketed_dict
           ticketed_world).
  - reflexivity.
  - reflexivity.
  - split; reflexivity.
  - intros H. apply (f_equal (lookup "ticket_id")) in H. vm_compute in H. discriminate H.
Defined.

Example completed_call_note :
  tasks (snd (VoiceEvents.handle_voice_events completed_event ticketed_world))
  = [AddTicketNote (VStr "101") (VHist [])].
Proof. vm_compute. reflexivity. Qed.

Section EventsLog.
Context (L : list Event).

Lemma keeps_log_lift {A} (m : M ConversationState A) :
  keeps (log_is L) (lift m) (fun _ => True).
Proof.
  intros w Hw. unfold lift. by destruct (m (call_state w)) as [[a|e] σ].
Qed.

Lemma keeps_log_spawn t : keeps (log_is L) (spawn t) (fun _ => True).
Proof. by intros w Hw. Qed.

Ltac log_step :=
  lazymatch goal with
  | |- keeps _ (bind _ _) _ => apply keeps_bind_any; [|intros ?]
  | |- keeps _ (lift _) _ => apply keeps_log_lift
  | |- keeps _ (spawn _) _ => apply keeps_log_spawn
  | |- keeps _ (ret _) _ => by apply keeps_ret
  | |- keeps _ (raise _) _ => apply keeps_raise
  | |- keeps _ (try_except _ _) _ => apply keeps_try_except; [|intros ?]
  | |- keeps _ (if ?b then _ else _) _ => destruct b
  | |- keeps _ (match ?x with _ => _ end) _ => destruct x
  end.

Lemma keeps_log_events data :
  keeps (log_is L) (VoiceEvents.handle_voice_events data) (fun _ => True).
Proof.
  unfold VoiceEvents.handle_voice_events, VoiceEvents.is_debug_event.
  repeat log_step.
Qed.

End EventsLog.

(** X14: the event webhook always answers 200 with the empty action list
    and never raises, whatever the body holds, and it never makes a
    request.  An event that is not the completion of a call with an id (any
    other status, a status that is not a string, or no id) changes
    nothing. *)
Theorem events_are_acknowledged (data : EventRequest) (w : World) :
  (exists w', VoiceEvents.handle_voice_events data w = (Ret (Json 200 []), w')
              /\ log w' = log w)
  /\ ((forall call_uuid, VoiceEvents.status_of data = VStr "completed" ->
                         VoiceEvents.call_uuid_of data = Some call_uuid -> False) ->
      VoiceEvents.handle_voice_events data w = (Ret (Json 200 []), w)).
Proof.
  split; [|apply run_events_other].
  pose proof (keeps_log_events (log w) data w eq_refl) as Hlog.
  assert (exists w', VoiceEvents.handle_voice_events data w = (Ret (Json 200 []), w'))
    as [w' Hrun].
  { unfold VoiceEvents.handle_voice_events, bind, try_except.
    match goal with
    | |- exists _, match (match ?x with _ => _ end) with _ => _ end = _ =>
        destruct x as [[[]|e] w1]
    end; unfold ret; eauto. }
  exists w'. split; [done|]. rewrite Hrun in Hlog. by destruct Hlog.
Qed.

(** ** Utterances the streaming pipeline cannot use *)

Lemma run_process_without_call env transcript call_uuid w :
  truthy call_uuid = false ->
  Main.process_and_respond env transcript call_uuid w
  = (Ret tt, with_processing_ai false w).
Proof.
  intros Hid. unfold Main.process_and_respond, try_finally, try_except.
  destruct call_uuid as [|b|n|s|h|t]; simpl in Hid; cbn [truthy]; rewrite ?Hid;
    try done.
  destruct (String.eqb s "") eqn:Hs; [done|discriminate Hid].
Qed.

(** X15: an utterance that ends before the stream knows its call id is
    dropped without blocking the next one.  With no event loop running the
    callback leaves everything as it was.  With the loop running it
    schedules [process_and_respond], which then makes no request, stores
    nothing and lowers the flag: apart from the task having been scheduled,
    the world is the one before the utterance. *)
Theorem utterance_without_call_is_dropped (env : Env) (transcript : string) (w : World) :
  _processing_ai w = false ->
  truthy (_current_call_uuid w) = false ->
  (_main_loop_running w = false -> Main.on_speech_ended transcript w = (Ret tt, w))
  /\ (_main_loop_running w = true ->
      let task := ProcessAndRespond transcript (_current_call_uuid w) in
      let w1 := snd (Main.on_speech_ended transcript w) in
      tasks w1 = (tasks w ++ [task])%list
      /\ _processing_ai w1 = true
      /\ Main.process_and_respond env transcript (_current_call_uuid w) w1
         = (Ret tt, world_spawn task w)).
Proof.
  intros Hflag Hid. split.
  - intros Hloop. unfold Main.on_speech_ended, bind, get, modify. rewrite Hflag.
    simpl. rewrite Hloop. destruct w; simpl in *. by subst.
  - intros Hloop. cbv zeta. unfold Main.on_speech_ended, bind, get, modify.
    rewrite Hflag. simpl. rewrite Hloop. simpl. split; [done|]. split; [done|].
    rewrite run_process_without_call by done.
    unfold world_spawn, with_processing_ai. simpl. by rewrite Hflag.
Qed.

Lemma utterance_without_call_is_dropped_witness :
  let w := mkWorld empty_state false true VNone [] [] in
  (_main_loop_running w = false -> Main.on_speech_ended "hello" w = (Ret tt, w))
  /\ (_main_loop_running w = true ->
      let task := ProcessAndRespond "hello" (_current_call_uuid w) in
      let w1 := snd (Main.on_speech_ended "hello" w) in
      tasks w1 = (tasks w ++ [task])%list
      /\ _processing_ai w1 = true
      /\ Main.process_and_respond silent_env "hello" (_current_call_uuid w) w1
         = (Ret tt, world_spawn task w)).
Proof.
  apply (utterance_without_call_is_dropped silent_env "hello"
           (mkWorld empty_state false true VNone [] []));
    reflexivity.
Defined.

(** ** The ticket the prompt names *)

Section ActiveTicket.

Lemma filter_rev_list {A} (P : A -> Prop) `{!forall x, Decision (P x)} (l : list A) :
  filter P (rev l) = rev (filter P l).
Proof.
  induction l as [|a l IH]; [done|]. simpl.
  rewrite filter_app, IH, !filter_cons. simpl.
  destruct (decide (P a)); simpl; [done|]. by rewrite app_nil_r.
Qed.

Lemma confirmed_ticket_assistant_only l :
  Groq.confirmed_ticket l
  = Groq.confirmed_ticket (filter (fun m => role m = "assistant") l).
Proof.
  induction l as [|m l IH]; [done|]. rewrite filter_cons. simpl.
  destruct (String.eqb_spec (role m) "assistant") as [Hr|Hr].
  - rewrite decide_True by done. simpl. rewrite Hr. simpl.
    by destruct (Py.search _ _).
  - by rewrite decide_False.
Qed.

Lemma confirmed_ticket_none l :
  Forall adopts_nothing l -> Groq.confirmed_ticket l = None.
Proof.
  induction 1 as [|m l Hm _ IH]; [done|]. simpl.
  destruct (String.eqb_spec (role m) "assistant") as [Hr|Hr]; [|done].
  unfold adopts_nothing, adopted_in in Hm. by rewrite (Hm Hr).
Qed.

Lemma confirmed_ticket_latest l1 m l2 id :
  Forall adopts_nothing l1 -> role m = "assistant" -> adopted_in m = Some id ->
  Groq.confirmed_ticket (l1 ++ m :: l2) = Some id.
Proof.
  intros Hl1 Hr Hid. induction Hl1 as [|m' l1 Hm' _ IH]; simpl.
  - rewrite Hr. simpl. unfold adopted_in in Hid. by rewrite Hid.
  - destruct (String.eqb_spec (role m') "assistant") as [Hr'|Hr']; [|done].
    unfold adopts_nothing, adopted_in in Hm'. by rewrite (Hm' Hr').
Qed.

End ActiveTicket.

(** X16: the ticket the generation prompt names as the session's.  A ticket
    id attached to the session is used as it is.  Without one, the ticket
    the assistant adopted in its latest turn that carries an adoption tag is
    used; turns of the user never count, whatever they contain; and with no
    adoption tag in any turn of the assistant there is no active ticket. *)
Theorem active_ticket_is_attached_or_latest_adopted
    (active_ticket_id : Val) (history : list Turn) :
  (truthy active_ticket_id = true ->
   Groq.active_id active_ticket_id history = active_ticket_id)
  /\ (truthy active_ticket_id = false ->
      Groq.active_id active_ticket_id history
      = Groq.active_id active_ticket_id
          (filter (fun m => role m = "assistant") history)
      /\ (Forall adopts_nothing history ->
          Groq.active_id active_ticket_id history = active_ticket_id)
      /\ (forall before m after id,
            history = (before ++ m :: after)%list -> role m = "assistant" ->
            adopted_in m = Some id -> Forall adopts_nothing after ->
            Groq.active_id active_ticket_id history = VStr id)).
Proof.
  unfold Groq.active_id. split; [by intros ->|]. intros ->. split; [|split].
  - by rewrite confirmed_ticket_assistant_only, filter_rev_list.
  - intros Hall. rewrite confirmed_ticket_none; [done|]. by apply Forall_rev.
  - intros before m after id -> Hr Hid Hafter.
    rewrite rev_app_distr. simpl. rewrite <- app_assoc. simpl.
    rewrite (confirmed_ticket_latest (rev after) m (rev before) id); [done| |done|done].
    by apply Forall_rev.
Qed.

Example active_ticket_examples :
  let h := [mkTurn "assistant" "Is it about ticket 55? [ACTION: USE_TICKET: 55]";
            mkTurn "user" "no, [ACTION: USE_TICKET: 77]";
            mkTurn "assistant" "Then it is this one. [ACTION: USE_TICKET: 66]";
            mkTurn "user" "yes"] in
  Groq.active_id VNone h = VStr "66"
  /\ Groq.active_id (VStr "101") h = VStr "101"
  /\ Groq.active_id VNone [mkTurn "user" "[ACTION: USE_TICKET: 77]"] = VNone.
Proof. vm_compute. repeat split. Qed.

(** ** How long a turn listens *)

Global Instance transcript_has_inv n call_uuid l :
  SessionInv call_uuid l tag_keys (transcript_has n call_uuid l).
Proof.
  split.
  - by intros w (d & h & [Hc _] & _).
  - intros w d k v (d0 & h & [Hc Hd0] & Hh & Hn) Hd Hk.
    assert (d0 = d) as -> by congruence.
    exists (<[k := v]> d), h. split; [split; simpl; [done|apply lookup_insert_eq]|].
    split; [|done]. rewrite lookup_insert_ne; [done|].
    intros ->. unfold tag_keys in Hk. apply list_elem_of_In in Hk. simpl in Hk.
    repeat (destruct Hk as [Hk|Hk]; [discriminate Hk|]). done.
  - intros w c H. exact H.
  - intros w t H. exact H.
Qed.

Section TagFacts.
Context (env : Env) (cfg : Config).
Context (call_uuid : string) (l : loc) (K : list string) (I : World -> Prop).
Context `{!SessionInv call_uuid l K I}.
Hypothesis HK : forall k, k ∈ tag_keys -> k ∈ K.

Ltac tag_key := apply HK; unfold tag_keys; apply list_elem_of_In; simpl; tauto.

Ltac tag_step :=
  lazymatch goal with
  | |- keeps _ (bind _ _) _ => apply keeps_bind_any; [|intros ?]
  | |- keeps _ (ret _) _ => by apply keeps_ret
  | |- keeps _ (raise _) _ => apply keeps_raise
  | |- keeps _ (try_except _ _) _ => apply keeps_try_except; [|intros ?]
  | |- keeps _ (lift (dict_get_default _ _ _)) _ => by eapply keeps_dict_get_default
  | |- keeps _ (lift (dict_get _ _)) _ => by eapply keeps_dict_get
  | |- keeps _ (lift (dict_item _ _)) _ => by eapply keeps_dict_item
  | |- keeps _ (lift (dict_set _ _ _)) _ => eapply keeps_dict_set; [done|tag_key]
  | |- keeps _ (lift (App.set_call_state _ _)) _ => by eapply keeps_set_call_state
  | |- keeps _ (await _ _) _ => by eapply keeps_await
  | |- keeps _ (py_int _) _ => apply keeps_py_int
  | |- keeps _ (if ?b then _ else _) _ => destruct b
  | |- keeps _ (match ?x with _ => _ end) _ => destruct x
  end.

Lemma keeps_tags_release : keeps I (Voice.release call_uuid l) (fun _ => True).
Proof. unfold Voice.release. repeat tag_step. Qed.

(** The tags of a reply, once the reply is in the transcript. *)
Lemma keeps_tags_applied text :
  keeps I
        (let* text := Voice.detect_sentiment call_uuid l text in
         let* text := Voice.detect_create_ticket env call_uuid l text in
         let* text := Voice.detect_use_ticket call_uuid l text in
         let* text := Voice.detect_resolve_ticket env text in
         Voice.detect_update_name env call_uuid l text)
        (fun _ => True).
Proof.
  unfold Voice.detect_sentiment, Voice.detect_create_ticket, Voice.detect_use_ticket,
    Voice.detect_resolve_ticket, Voice.detect_update_name, Voice.is_placeholder,
    Freshdesk.create_ticket, Freshdesk.update_ticket_status,
    Freshdesk.update_contact_name.
  repeat tag_step.
Qed.

Lemma keeps_tags_transfer text :
  keeps I (Voice.detect_transfer cfg call_uuid l text)
        (fun found => match fst found with
                      | Some target => exists raw, target = Voice.resolve_target cfg raw
                      | None => True
                      end).
Proof.
  unfold Voice.detect_transfer. destruct (Py.search Py.transfer_tag text) as [raw|].
  - apply keeps_bind_any; [tag_step|]. intros _.
    apply keeps_bind_any; [tag_step|]. intros _.
    apply keeps_ret. simpl. by exists raw.
  - by apply keeps_ret.
Qed.

Lemma keeps_tags_route text :
  keeps I (Voice.route cfg call_uuid l text) (fun _ => True).
Proof.
  unfold Voice.route.
  destruct (Voice.detect_literal "[ACTION: HANGUP]" text) as [should_hangup text1].
  destruct (Voice.detect_literal "[ACTION: WAIT]" text1) as [should_wait text2].
  unfold Voice.detect_transfer, Voice.build_ncco, Voice.is_first_response.
  repeat tag_step.
Qed.

End TagFacts.

Section Listening.
Context (env : Env) (cfg : Config) (call_uuid : string) (l : loc).

Lemma transcript_has_mono n m w : m <= n -> transcript_has n call_uuid l w -> transcript_has m call_uuid l w.
Proof.
  intros Hle (d & h & Hb & Hh & Hn). exists d, h.
  split; [done|]. split; [done|]. lia.
Qed.

Lemma tag_keys_self : forall k, k ∈ tag_keys -> k ∈ tag_keys.
Proof. done. Qed.

(** A step that keeps the transcript at [n] turns, inside the [try]. *)
Lemma triple_th_bind {A B} n (m : M World A) (k : A -> M World B) Q :
  keeps (transcript_has n call_uuid l) m (fun _ => True) ->
  (forall a, triple (transcript_has n call_uuid l) (k a) Q (fun _ w => transcript_has 0 call_uuid l w)) ->
  triple (transcript_has n call_uuid l) (bind m k) Q (fun _ w => transcript_has 0 call_uuid l w).
Proof.
  intros Hm Hk. eapply triple_bind; [|intros a; apply Hk].
  eapply triple_conseq; [exact Hm|done| |].
  - by intros a w [Hw _].
  - intros e w Hw. apply (transcript_has_mono n); [lia|done].
Qed.

(** An append adds a turn, and does not fail. *)
Lemma triple_th_append {B} n role content (k : M World B) Q :
  S n <= 50 ->
  triple (transcript_has (S n) call_uuid l) k Q (fun _ w => transcript_has 0 call_uuid l w) ->
  triple (transcript_has n call_uuid l) (lift (App.append_history call_uuid role content) >> k) Q
         (fun _ w => transcript_has 0 call_uuid l w).
Proof.
  intros Hwin Hk w (d & h & Hb & Hh & Hn).
  erewrite run_bind; [|by eapply run_append_history].
  apply Hk. eexists _, _. split; [by eapply bound_world_set|].
  split; [apply lookup_insert_eq|].
  rewrite PyFacts.last_n_length, length_app. cbn [length]. lia.
Qed.

(** The end of every path: the flag goes down, the answer goes out. *)
Lemma triple_th_release n (r : Response) (Q : Response -> Prop) R :
  Q r -> triple (transcript_has n call_uuid l) (Voice.release call_uuid l >> ret r) (fun r _ => Q r) R.
Proof.
  intros Hr w (d & h & Hb & _). erewrite run_bind; [|by eapply run_release]. done.
Qed.

Lemma keeps_build_ncco_reply text transfer should_hangup should_wait :
  match transfer with
  | Some target => exists raw, target = Voice.resolve_target cfg raw
  | None => True
  end ->
  keeps (transcript_has 2 call_uuid l) (Voice.build_ncco cfg l text transfer should_hangup should_wait)
        (reply_actions cfg).
Proof.
  intros Htarget. unfold Voice.build_ncco. destruct transfer as [target|].
  - destruct Htarget as [raw ->].
    eapply keeps_bind_any; [by eapply keeps_dict_get_default|]. intros from.
    apply keeps_ret. right. right. by exists text, from, raw.
  - destruct should_hangup.
    + apply keeps_ret. right. left. by exists text.
    + intros w Hw. pose proof Hw as (d & h & Hb & Hh & Hn).
      erewrite run_bind; [|by eapply run_dict_get_default]. rewrite Hh. simpl.
      unfold bind, ret. simpl.
      destruct (Nat.leb_spec (length h) 1) as [|_]; [lia|].
      split; [done|]. left. eexists text, _. split; [reflexivity|].
      destruct should_wait; tauto.
Qed.

Lemma keeps_route_reply text :
  keeps (transcript_has 2 call_uuid l) (Voice.route cfg call_uuid l text) (reply_actions cfg).
Proof.
  unfold Voice.route.
  destruct (Voice.detect_literal "[ACTION: HANGUP]" text) as [should_hangup text1].
  destruct (Voice.detect_literal "[ACTION: WAIT]" text1) as [should_wait text2].
  eapply keeps_bind.
  - eapply keeps_tags_transfer; [apply transcript_has_inv|apply tag_keys_self].
  - intros found Hfound. by apply keeps_build_ncco_reply.
Qed.

Lemma pipeline_answers speech_text :
  triple (transcript_has 0 call_uuid l) (Voice.pipeline env cfg call_uuid l speech_text)
         (fun r _ => pipeline_answer cfg r) (fun _ _ => False).
Proof.
  unfold Voice.pipeline.
  apply triple_try_except with (R := fun _ w => transcript_has 0 call_uuid l w).
  - apply triple_th_append; [lia|].
    destruct (mem_str speech_text Voice.asr_error_tags).
    + apply triple_th_release. by left.
    + unfold Voice.respond.
      apply triple_th_bind; [eapply keeps_generate, transcript_has_inv|]. intros reply.
      unfold Voice.apply_tags.
      eapply triple_bind with (Q1 := fun _ w => transcript_has 2 call_uuid l w).
      * apply triple_th_append; [lia|].
        eapply triple_conseq;
          [eapply (keeps_tags_applied env call_uuid l tag_keys (transcript_has 2 call_uuid l) tag_keys_self)
          |done| |].
        -- by intros a w [Hw _].
        -- intros e w Hw. apply (transcript_has_mono 2); [lia|done].
      * intros text. eapply triple_bind with (Q1 := fun ncco w => transcript_has 2 call_uuid l w /\ reply_actions cfg ncco).
        -- eapply triple_conseq; [apply keeps_route_reply|done|done|].
           intros e w Hw. apply (transcript_has_mono 2); [lia|done].
        -- intros ncco. eapply triple_conseq with (P := fun w => transcript_has 2 call_uuid l w /\ reply_actions cfg ncco)
             (Q := fun r _ => pipeline_answer cfg r) (R := fun _ w => transcript_has 0 call_uuid l w);
             [|done|done|done].
           intros w [Hw Hncco]. revert w Hw. apply triple_th_release.
           right. right. by exists ncco.
  - intros _. apply triple_th_release. right. by left.
Qed.

End Listening.

(** X17: in the batch pipeline the 1.5 s that a first response would listen
    for are never used for a generated reply.  For a call whose session holds a
    transcript, the pipeline always returns, and its answer is one of the two
    fixed apologies (which listen for 1.5 s), or the generated reply followed
    by a hang-up, by the connection to an agent, or by an input action that
    listens for 1.2 s, or for 5.0 s on a wait tag: by the time the response is
    built the transcript has the user's turn and the reply, so it is never
    "the first response". *)
Theorem generated_reply_never_listens_as_first
    (env : Env) (cfg : Config) (call_uuid : string) (l : loc)
    (d : gmap string Val) (h : list Turn) (speech_text : string) (w : World) :
  bound call_uuid l d w -> d !! "history" = Some (VHist h) ->
  exists r w',
    Voice.pipeline env cfg call_uuid l speech_text w = (Ret r, w')
    /\ pipeline_answer cfg r.
Proof.
  intros Hb Hh.
  assert (transcript_has 0 call_uuid l w) as Hw
    by (exists d, h; split; [done|]; split; [done|lia]).
  pose proof (pipeline_answers env cfg call_uuid l speech_text w Hw) as H.
  destruct (Voice.pipeline env cfg call_uuid l speech_text w) as [[r|e] w']; [|done].
  by exists r, w'.
Qed.

Lemma generated_reply_never_listens_as_first_witness :
  exists r w',
    Voice.pipeline helpdesk_env no_config "call-1" 0 "my printer is jammed again"
      answered_world = (Ret r, w')
    /\ pipeline_answer no_config r.
Proof.
  apply (generated_reply_never_listens_as_first helpdesk_env no_config "call-1" 0
           answered_dict []).
  - split; reflexivity.
  - reflexivity.
Defined.

(** The first turn of a call: the greeting is in the transcript, the reply
    is the call's first generated one, and the turn listens for 1.2 s. *)
Example first_turn_listens_12 :
  field (call_state (snd (Voice.handle_voice_answer silent_env no_config answer_request
                            initial_world))) "call-1" "history"
  = Some (VHist [mkTurn "assistant" Voice.generic_greeting])
  /\ fst (Voice.handle_voice_asr helpdesk_env no_config turn_request
            (snd (Voice.background_freshdesk_lookup silent_env "call-1" "15551234567"
                    (snd (Voice.handle_voice_answer silent_env no_config answer_request
                            initial_world)))))
     = Ret (Json 200 [Talk "Let me look into that." true; Voice.listen no_config 12]).
Proof. vm_compute. split; reflexivity. Qed.

(** ** What a turn leaves in the session *)

Global Instance session_keeps_inv d P call_uuid l :
  SessionInv call_uuid l tag_keys (session_keeps d P call_uuid l).
Proof.
  split.
  - by intros w (d' & h' & [Hc _] & _).
  - intros w d1 k v (d' & h' & [Hc Hd'] & Hh & HP & Hfr) Hd1 Hk.
    assert (d' = d1) as -> by congruence.
    exists (<[k := v]> d1), h'. split; [split; simpl; [done|apply lookup_insert_eq]|].
    split.
    { rewrite lookup_insert_ne; [done|].
      intros ->. unfold tag_keys in Hk. apply list_elem_of_In in Hk. simpl in Hk.
      repeat (destruct Hk as [Hk|Hk]; [discriminate Hk|]). done. }
    split; [done|]. intros k0 Hk0. rewrite lookup_insert_ne; [by apply Hfr|].
    intros ->. apply Hk0. by apply list_elem_of_further.
  - intros w c H. exact H.
  - intros w t H. exact H.
Qed.

Section Recording.
Context (env : Env) (cfg : Config) (call_uuid : string) (l : loc) (d : gmap string Val).

Lemma session_keeps_weaken (P P' : list Turn -> Prop) w :
  (forall h', P h' -> P' h') ->
  session_keeps d P call_uuid l w -> session_keeps d P' call_uuid l w.
Proof.
  intros HP (d' & h' & Hb & Hh & Hp & Hfr). exists d', h'. auto.
Qed.

(** An append adds its turn to the transcript and writes nothing else. *)
Lemma triple_sk_append {B} (P P' : list Turn -> Prop) role content (k : M World B) Q R :
  (forall h', P h' -> P' (Py.last_n 50 (h' ++ [mkTurn role content]))) ->
  triple (session_keeps d P' call_uuid l) k Q R ->
  triple (session_keeps d P call_uuid l)
         (lift (App.append_history call_uuid role content) >> k) Q R.
Proof.
  intros HP Hk w (d' & h' & Hb & Hh & Hp & Hfr).
  erewrite run_bind; [|by eapply run_append_history].
  apply Hk. eexists _, _. split; [by eapply bound_world_set|].
  split; [apply lookup_insert_eq|]. split; [by apply HP|].
  intros k0 Hk0. rewrite lookup_insert_ne; [by apply Hfr|].
  intros <-. apply Hk0. apply list_elem_of_here.
Qed.

Lemma triple_pure {A} (P : World -> Prop) (φ : Prop) (m : M World A) Q R :
  (φ -> triple P m Q R) -> triple (fun w => P w /\ φ) m Q R.
Proof. intros H w [Hw Hφ]. by apply H. Qed.

Lemma triple_sk_bind {A B} (P : list Turn -> Prop) (m : M World A) (k : A -> M World B)
    Q (R : Exn -> World -> Prop) :
  keeps (session_keeps d P call_uuid l) m (fun _ => True) ->
  (forall e w, session_keeps d P call_uuid l w -> R e w) ->
  (forall a, triple (session_keeps d P call_uuid l) (k a) Q R) ->
  triple (session_keeps d P call_uuid l) (bind m k) Q R.
Proof.
  intros Hm HR Hk. eapply triple_bind; [|intros a; apply Hk].
  eapply triple_conseq; [exact Hm|done| |].
  - by intros a w [Hw _].
  - intros e w Hw. by apply HR.
Qed.

(** The end of every path: [processing] goes down, the rest stays. *)
Lemma triple_sk_release (P : list Turn -> Prop) (r : Response) R :
  triple (session_keeps d P call_uuid l) (Voice.release call_uuid l >> ret r)
         (fun _ w => session_keeps d P call_uuid l w
                     /\ field (call_state w) call_uuid "processing" = Some (VBool false))
         R.
Proof.
  intros w (d' & h' & Hb & Hh & Hp & Hfr).
  erewrite run_bind; [|by eapply run_release]. unfold ret. split.
  - exists (<["processing" := VBool false]> d'), h'.
    split; [by eapply bound_world_set|]. split; [by rewrite lookup_insert_ne|].
    split; [done|]. intros k0 Hk0. rewrite lookup_insert_ne; [by apply Hfr|].
    intros <-. apply Hk0. unfold tag_keys. apply list_elem_of_In. simpl. tauto.
  - erewrite field_world_set by done. apply lookup_insert_eq.
Qed.

(** The generation call is handed the transcript as it stands. *)
Lemma keeps_sk_generate (h1 : list Turn) speech_text :
  keeps (session_keeps d (fun h' => h' = h1) call_uuid l)
        (Voice.generate env l speech_text)
        (generated env speech_text h1).
Proof.
  unfold Voice.generate.
  apply keeps_bind_any.
  { destruct (_ || _); [by apply keeps_ret|].
    eapply keeps_fetch_combined_knowledge, session_keeps_inv. }
  intros kb.
  apply keeps_bind_any; [by eapply keeps_dict_get|]. intros active_id.
  eapply keeps_bind with (φ := fun history => history = VHist h1).
  { intros w Hw. pose proof Hw as (d' & h' & Hb & Hh & -> & Hfr).
    by erewrite run_dict_item. }
  intros history ->.
  apply keeps_bind_any; [by eapply keeps_dict_get|]. intros contact_name.
  apply keeps_bind_any; [by eapply keeps_dict_get_default|].
  intros recent_tickets.
  apply keeps_bind_any; [by eapply keeps_dict_get|]. intros phone.
  intros w Hw. rewrite run_agent_response.
  pose proof (inv_await w (AgentResponse speech_text kb (VHist h1) contact_name
                             recent_tickets active_id phone) Hw) as Hw'.
  destruct (env (log w) _) as [[[| | |reply| |]|]|] eqn:Henv; try done.
  split; [done|]. by exists (log w), kb, contact_name, recent_tickets, active_id, phone.
Qed.

Lemma pipeline_records h speech_text :
  triple (session_keeps d (fun h' => h' = h) call_uuid l)
         (Voice.pipeline env cfg call_uuid l speech_text)
         (fun _ w => session_keeps d (recorded env h speech_text) call_uuid l w
                     /\ field (call_state w) call_uuid "processing" = Some (VBool false))
         (fun _ _ => False).
Proof.
  unfold Voice.pipeline.
  set (h1 := Py.last_n 50 (h ++ [mkTurn "user" speech_text])).
  assert (forall w, session_keeps d (fun h' => h' = h1) call_uuid l w ->
                    session_keeps d (recorded env h speech_text) call_uuid l w) as H1.
  { intros w. apply session_keeps_weaken. intros h' ->. split; [by left|done]. }
  apply triple_try_except
    with (R := fun _ w => session_keeps d (recorded env h speech_text) call_uuid l w).
  - apply triple_sk_append with (P' := fun h' => h' = h1); [by intros h' ->|].
    destruct (mem_str speech_text Voice.asr_error_tags) eqn:Herr.
    + eapply triple_conseq;
        [apply (triple_sk_release (recorded env h speech_text))|exact H1| |];
        intros ? ? H; exact H.
    + unfold Voice.respond.
      eapply triple_bind
        with (Q1 := fun reply w => session_keeps d (fun h' => h' = h1) call_uuid l w
                                   /\ generated env speech_text h1 reply).
      { eapply triple_conseq; [apply keeps_sk_generate|done|done|].
        intros e w Hw. by apply H1. }
      intros reply. apply triple_pure. intros Hgen.
      set (P2 := fun h' => h' = Py.last_n 50 (h1 ++ [mkTurn "assistant" reply])).
      assert (forall w, session_keeps d P2 call_uuid l w ->
                        session_keeps d (recorded env h speech_text) call_uuid l w) as H2.
      { intros w. apply session_keeps_weaken. intros h' ->. split; [right; by exists reply|].
        rewrite Herr. discriminate. }
      unfold Voice.apply_tags.
      eapply triple_bind with (Q1 := fun _ w => session_keeps d P2 call_uuid l w).
      * apply triple_sk_append with (P' := P2); [by intros h' ->|].
        eapply triple_conseq;
          [eapply (keeps_tags_applied env call_uuid l tag_keys
                     (session_keeps d P2 call_uuid l) tag_keys_self)
          |done| |].
        -- by intros a w [Hw _].
        -- intros e w Hw. by apply H2.
      * intros text.
        eapply triple_bind with (Q1 := fun _ w => session_keeps d P2 call_uuid l w).
        -- eapply triple_conseq;
             [eapply (keeps_tags_route cfg call_uuid l tag_keys
                        (session_keeps d P2 call_uuid l) tag_keys_self)
             |done| |].
           ++ by intros a w [Hw _].
           ++ intros e w Hw. by apply H2.
        -- intros ncco. eapply triple_conseq;
             [apply (triple_sk_release (recorded env h speech_text))|exact H2| |];
             intros ? ? H; exact H.
  - intros _. apply triple_sk_release.
Qed.

End Recording.

(** X18: what a batch turn leaves in the session.  For a call whose session
    holds a transcript, the pipeline returns, and afterwards: the transcript
    is the old one with the user's turn appended and, after it, at most one
    turn of the assistant (cut to the last 50 turns at each append).  That
    turn is the reply as the generation call returned it, tags included, to
    a request for this utterance which was handed the transcript with the
    user's turn already in it.  The fixed apologies are never put into the
    transcript, and for an ASR error tag the user's turn is all that is
    added.  [processing] is [False], and every key of the session other than
    the transcript, [sentiment], [ticket_id], [contact_name],
    [transfer_requested] and [processing] holds what it held before. *)
Theorem turn_is_recorded
    (env : Env) (cfg : Config) (call_uuid : string) (l : loc)
    (d : gmap string Val) (h : list Turn) (speech_text : string) (w : World) :
  bound call_uuid l d w -> d !! "history" = Some (VHist h) ->
  exists r w' d' h',
    Voice.pipeline env cfg call_uuid l speech_text w = (Ret r, w')
    /\ bound call_uuid l d' w'
    /\ d' !! "history" = Some (VHist h')
    /\ recorded env h speech_text h'
    /\ d' !! "processing" = Some (VBool false)
    /\ (forall k, k ∉ "history" :: tag_keys -> d' !! k = d !! k).
Proof.
  intros Hb Hh.
  assert (session_keeps d (fun h' => h' = h) call_uuid l w) as Hw
    by (exists d, h; split; [done|]; split; [done|]; split; done).
  pose proof (pipeline_records env cfg call_uuid l d h speech_text w Hw) as H.
  destruct (Voice.pipeline env cfg call_uuid l speech_text w) as [[r|e] w']; [|done].
  destruct H as [(d' & h' & Hb' & Hh' & Hrec & Hfr) Hp].
  exists r, w', d', h'. split; [done|]. split; [done|]. split; [done|].
  split; [done|]. split; [|done].
  unfold field in Hp. destruct Hb' as [Hc Hd]. by rewrite Hc, Hd in Hp.
Qed.

Lemma turn_is_recorded_witness :
  exists r w' d' h',
    Voice.pipeline helpdesk_env no_config "call-1" 0 "my printer is jammed again"
      answered_world = (Ret r, w')
    /\ bound "call-1" 0 d' w'
    /\ d' !! "history" = Some (VHist h')
    /\ recorded helpdesk_env [] "my printer is jammed again" h'
    /\ d' !! "processing" = Some (VBool false)
    /\ (forall k, k ∉ "history" :: tag_keys -> d' !! k = answered_dict !! k).
Proof.
  apply (turn_is_recorded helpdesk_env no_config "call-1" 0 answered_dict []).
  - split; reflexivity.
  - reflexivity.
Defined.

(** The same turn, run: the reply is in the transcript with its tag; the
    apology for an ASR error tag is not. *)
Example turn_transcript :
  field (call_state (snd (Voice.pipeline helpdesk_env no_config "call-1" 0
                            "my printer is jammed again" answered_world)))
        "call-1" "history"
  = Some (VHist [mkTurn "user" "my printer is jammed again";
                 mkTurn "assistant"
                        "Let me look into that. [ACTION: CREATE_TICKET: printer jam]"])
  /\ field (call_state (snd (Voice.pipeline helpdesk_env no_config "call-1" 0
                               "[NO_AUDIO]" answered_world)))
           "call-1" "history"
     = Some (VHist [mkTurn "user" "[NO_AUDIO]"]).
Proof. vm_compute. split; reflexivity. Qed.

(** ** The older agent's webhooks *)

Global Instance older_session_inv d P call_uuid l :
  SessionInv call_uuid l ["processing"] (older_session d P call_uuid l).
Proof.
  split.
  - by intros w (d' & h' & [Hc _] & _).
  - intros w d1 k v (d' & h' & [Hc Hd'] & Hh & HP & Hfr) Hd1 Hk.
    assert (d' = d1) as -> by congruence.
    apply list_elem_of_singleton in Hk as ->.
    exists (<["processing" := v]> d1), h'.
    split; [split; simpl; [done|apply lookup_insert_eq]|].
    split; [by rewrite lookup_insert_ne|]. split; [done|].
    intros k0 Hk0. rewrite lookup_insert_ne; [by apply Hfr|].
    intros <-. apply Hk0. apply list_elem_of_In. simpl. tauto.
  - intros w c H. exact H.
  - intros w t H. exact H.
Qed.

Section OlderStore.

Lemma run_va_get_call_state call_uuid l d w :
  bound call_uuid l d w -> lift (VoiceAgent.get_call_state call_uuid) w = (Ret l, w).
Proof.
  intros [Hc Ho]. unfold lift, VoiceAgent.get_call_state, bind, get. simpl.
  rewrite Hc. simpl. by rewrite with_state_same.
Qed.

Lemma run_va_set_call_state call_uuid l d w :
  bound call_uuid l d w -> lift (VoiceAgent.set_call_state call_uuid l) w = (Ret tt, w).
Proof.
  intros [Hc Ho]. unfold lift, VoiceAgent.set_call_state, modify. simpl.
  by rewrite insert_id, state_eta, with_state_same.
Qed.

Lemma run_va_append_history call_uuid l d w h r c :
  bound call_uuid l d w -> d !! "history" = Some (VHist h) ->
  lift (VoiceAgent.append_history call_uuid r c) w
  = (Ret tt, world_set l (<["history" := VHist (Py.last_n 12 (h ++ [mkTurn r c]))]> d) w).
Proof.
  intros Hb Hh. unfold VoiceAgent.append_history.
  rewrite lift_bind. erewrite run_bind; [|by eapply run_va_get_call_state].
  cbv beta. rewrite lift_bind. erewrite run_bind; [|by eapply run_dict_item].
  cbv beta iota. rewrite lift_bind. erewrite run_bind; [|by eapply run_dict_set].
  assert (bound call_uuid l (<["history":=VHist (h ++ [mkTurn r c])]> d)
                (world_set l (<["history":=VHist (h ++ [mkTurn r c])]> d) w)) as Hb1
    by (by eapply bound_world_set).
  cbv beta. rewrite lift_bind.
  erewrite run_bind; [|eapply run_dict_item; [exact Hb1|apply lookup_insert_eq]].
  cbv beta iota. rewrite lift_bind. erewrite run_bind; [|by eapply run_dict_set].
  rewrite world_set_set, insert_insert_eq.
  eapply run_va_set_call_state, bound_world_set, Hb.
Qed.

Lemma run_va_release call_uuid l d w :
  bound call_uuid l d w ->
  VoiceAgentVoice.release call_uuid l w
  = (Ret tt, world_set l (<["processing" := VBool false]> d) w).
Proof.
  intros Hb. unfold VoiceAgentVoice.release.
  erewrite run_bind; [|by eapply run_dict_set].
  eapply run_va_set_call_state, bound_world_set, Hb.
Qed.

(** A handler that returns makes its [try] return. *)
Lemma try_except_returns {S A} (m : M S A) (h : Exn -> M S A) :
  (forall e s, exists a s', h e s = (Ret a, s')) ->
  forall s, exists a s', try_except m h s = (Ret a, s').
Proof.
  intros Hh s. unfold try_except. destruct (m s) as [[a|e] s']; eauto.
Qed.

End OlderStore.

Section OlderFacts.
Context (env : Env) (client : bool).
Context (call_uuid : string) (l : loc) (K : list string) (I : World -> Prop).
Context `{!SessionInv call_uuid l K I}.

Ltac older_step :=
  lazymatch goal with
  | |- keeps _ (bind _ _) _ => apply keeps_bind_any; [|intros ?]
  | |- keeps _ (ret _) _ => by apply keeps_ret
  | |- keeps _ (raise _) _ => apply keeps_raise
  | |- keeps _ (try_except _ _) _ => apply keeps_try_except; [|intros ?]
  | |- keeps _ (await _ _) _ => by eapply keeps_await
  | |- keeps _ (if ?b then _ else _) _ => destruct b
  | |- keeps _ (match ?x with _ => _ end) _ => destruct x
  end.

Lemma keeps_va_transcribe_whisper audio_data :
  keeps I (VoiceAgentVoice.transcribe_whisper env client audio_data) (fun _ => True).
Proof. unfold VoiceAgentVoice.transcribe_whisper. repeat older_step. Qed.

Lemma keeps_va_parse_speech data :
  keeps I (VoiceAgentVoice.parse_speech env client data) (fun _ => True).
Proof.
  unfold VoiceAgentVoice.parse_speech. apply keeps_bind_any.
  - apply keeps_try_except; [|intros; by apply keeps_ret].
    apply keeps_bind_any; [|intros; by apply keeps_ret].
    destruct (truthy _); [apply keeps_va_transcribe_whisper|by apply keeps_ret].
  - intros [speech_text|]; [|by apply keeps_ret]. repeat older_step.
Qed.

Lemma keeps_va_fetch query :
  keeps I (VoiceAgentVoice.fetch_combined_knowledge env query) (fun _ => True).
Proof. unfold VoiceAgentVoice.fetch_combined_knowledge. repeat older_step. Qed.

Lemma keeps_va_agent_response issue kb turns :
  keeps I (VoiceAgentVoice.agent_response env client issue kb (VHist turns))
        (fun _ => True).
Proof. unfold VoiceAgentVoice.agent_response. repeat older_step. Qed.

End OlderFacts.

Section OlderReturns.
Context (env : Env) (client : bool).

Lemma bind_returns {S A B} (m : M S A) (k : A -> M S B) :
  (forall s, exists a s', m s = (Ret a, s')) ->
  (forall a s, exists b s', k a s = (Ret b, s')) ->
  forall s, exists b s', bind m k s = (Ret b, s').
Proof.
  intros Hm Hk s. destruct (Hm s) as (a & s' & Heq). unfold bind. rewrite Heq.
  apply Hk.
Qed.

Lemma ret_returns {S A} (a : A) (s : S) : exists a' s', ret a s = (Ret a', s').
Proof. by eexists _, _. Qed.

Lemma va_parse_speech_returns data w :
  exists s w', VoiceAgentVoice.parse_speech env client data w = (Ret s, w').
Proof.
  unfold VoiceAgentVoice.parse_speech. apply bind_returns.
  - apply try_except_returns. intros. apply ret_returns.
  - intros [speech_text|] s; [|apply ret_returns].
    destruct (VoiceAgentVoice.heard_nothing speech_text); [|apply ret_returns].
    apply try_except_returns. intros. apply ret_returns.
Qed.

Lemma va_fetch_returns query w :
  exists kb w', VoiceAgentVoice.fetch_combined_knowledge env query w = (Ret kb, w').
Proof.
  unfold VoiceAgentVoice.fetch_combined_knowledge.
  destruct (String.eqb _ _); [apply ret_returns|].
  apply try_except_returns. intros. apply ret_returns.
Qed.

Lemma va_agent_response_returns issue kb turns w :
  exists ai w', VoiceAgentVoice.agent_response env client issue kb (VHist turns) w
                = (Ret ai, w').
Proof.
  unfold VoiceAgentVoice.agent_response. destruct (negb client); [apply ret_returns|].
  apply try_except_returns. intros. apply ret_returns.
Qed.

End OlderReturns.

Section OlderTurn.
Context (env : Env) (client : bool) (call_uuid : string) (l : loc) (d : gmap string Val).

(** The call id of the webhook, whose key in the store is [call_uuid]. *)
Context (uuid : option string) (Hkey : VoiceAgentVoice.store_key uuid = call_uuid).

Lemma triple_older_append {B} (P P' : list Turn -> Prop) role content (k : M World B) Q R :
  (forall h', P h' -> P' (Py.last_n 12 (h' ++ [mkTurn role content]))) ->
  triple (older_session d P' call_uuid l) k Q R ->
  triple (older_session d P call_uuid l)
         (lift (VoiceAgent.append_history call_uuid role content) >> k) Q R.
Proof.
  intros HP Hk w (d' & h' & Hb & Hh & Hp & Hfr).
  erewrite run_bind; [|by eapply run_va_append_history].
  apply Hk. eexists _, _. split; [by eapply bound_world_set|].
  split; [apply lookup_insert_eq|]. split; [by apply HP|].
  intros k0 Hk0. rewrite lookup_insert_ne; [by apply Hfr|].
  intros <-. apply Hk0. apply list_elem_of_here.
Qed.

Lemma session_older_weaken (P P' : list Turn -> Prop) w :
  (forall h', P h' -> P' h') ->
  older_session d P call_uuid l w -> older_session d P' call_uuid l w.
Proof.
  intros HP (d' & h' & Hb & Hh & Hp & Hfr). exists d', h'. auto.
Qed.

(** A step that returns and keeps the session. *)
Lemma triple_older_total {A B} (P : list Turn -> Prop) (m : M World A)
    (k : A -> M World B) Q R :
  keeps (older_session d P call_uuid l) m (fun _ => True) ->
  (forall w, exists a w', m w = (Ret a, w')) ->
  (forall a, triple (older_session d P call_uuid l) (k a) Q R) ->
  triple (older_session d P call_uuid l) (bind m k) Q R.
Proof.
  intros Hm Hret Hk w Hw. destruct (Hret w) as (a & w' & Heq).
  specialize (Hm w Hw). rewrite Heq in Hm. unfold bind. rewrite Heq.
  apply Hk. tauto.
Qed.

Lemma triple_older_item {B} (h1 : list Turn) (k : Val -> M World B) Q R :
  triple (older_session d (fun h' => h' = h1) call_uuid l) (k (VHist h1)) Q R ->
  triple (older_session d (fun h' => h' = h1) call_uuid l)
         (bind (lift (dict_item l "history")) k) Q R.
Proof.
  intros Hk w Hw. pose proof Hw as (d' & h' & Hb & Hh & -> & Hfr).
  erewrite run_bind; [|by eapply run_dict_item]. by apply Hk.
Qed.

Lemma triple_older_release (P : list Turn -> Prop) (r : Response) R :
  triple (older_session d P call_uuid l)
         (VoiceAgentVoice.release call_uuid l >> ret r)
         (fun r' w => r' = r /\ older_session d P call_uuid l w
                      /\ field (call_state w) call_uuid "processing" = Some (VBool false))
         R.
Proof.
  intros w (d' & h' & Hb & Hh & Hp & Hfr).
  erewrite run_bind; [|by eapply run_va_release]. unfold ret.
  split; [done|]. split.
  - exists (<["processing" := VBool false]> d'), h'.
    split; [by eapply bound_world_set|]. split; [by rewrite lookup_insert_ne|].
    split; [done|]. intros k0 Hk0. rewrite lookup_insert_ne; [by apply Hfr|].
    intros <-. apply Hk0. apply list_elem_of_In. simpl. tauto.
  - erewrite field_world_set by done. apply lookup_insert_eq.
Qed.

(** The pipeline of the older agent records the utterance and the reply,
    and only then reaches the ticket line.  With a call id it returns the
    reply; without one the ticket line raises, and the handler turns what
    is said into the apology while the transcript keeps the reply. *)
Lemma older_pipeline_records h speech_text :
  triple (older_session d (fun h' => h' = h) call_uuid l)
         (VoiceAgentVoice.pipeline env client uuid l speech_text)
         (fun said w =>
            exists reply,
              older_session d (recorded_turn h speech_text reply) call_uuid l w
              /\ said = match uuid with
                        | Some _ => reply
                        | None => VoiceAgentVoice.pipeline_apology
                        end)
         (fun _ _ => False).
Proof.
  unfold VoiceAgentVoice.pipeline. rewrite Hkey.
  set (h1 := Py.last_n 12 (h ++ [mkTurn "user" speech_text])).
  apply triple_try_except
    with (R := fun _ w => uuid = None
                          /\ exists reply,
                               older_session d (recorded_turn h speech_text reply)
                                             call_uuid l w).
  - apply triple_older_append with (P' := fun h' => h' = h1); [by intros h' ->|].
    apply triple_older_total;
      [eapply keeps_va_fetch, older_session_inv|apply va_fetch_returns|]. intros kb.
    apply triple_older_item.
    apply triple_older_total;
      [eapply keeps_va_agent_response, older_session_inv
      |apply va_agent_response_returns|]. intros ai_response.
    apply triple_older_append
      with (P' := fun h' => h' = Py.last_n 12 (h1 ++ [mkTurn "assistant" ai_response]));
      [by intros h' ->|].
    intros w Hw. pose proof Hw as (d' & h' & Hb & _).
    erewrite run_bind; [|by eapply run_dict_get].
    unfold VoiceAgentVoice.create_ticket. destruct uuid as [id|].
    + unfold bind, ret. by exists ai_response.
    + unfold bind, raise. split; [done|]. by exists ai_response.
  - intros e w (-> & reply & Hw). unfold ret. by exists reply.
Qed.

Lemma older_turn_records h data :
  triple (older_session d (fun h' => h' = h) call_uuid l)
         (VoiceAgentVoice.turn env client uuid l data)
         (fun r w => older_session d (older_turn uuid h r) call_uuid l w
                     /\ field (call_state w) call_uuid "processing" = Some (VBool false))
         (fun _ _ => False).
Proof.
  assert (forall r0,
    triple (older_session d (fun h' => h' = h) call_uuid l)
           (VoiceAgentVoice.release call_uuid l >>
            ret (Json 200 [Talk VoiceAgentVoice.didnt_catch true; VoiceAgentVoice.listen 12]))
           (fun r w => older_session d (older_turn uuid h r) call_uuid l w
                       /\ field (call_state w) call_uuid "processing" = Some (VBool false))
           (fun (_ : Exn) (_ : World) => r0)) as Hquiet.
  { intros r0. eapply triple_conseq; [apply triple_older_release|done| |intros ? ? H; exact H].
    intros r w (-> & Hw & Hp). split; [|done].
    revert Hw. apply session_older_weaken. intros h' ->. by left. }
  unfold VoiceAgentVoice.turn. rewrite Hkey.
  apply triple_older_total;
    [eapply keeps_va_parse_speech, older_session_inv|apply va_parse_speech_returns|].
  intros [t|]; [|apply Hquiet].
  destruct (String.eqb t "" || (PyText.len t <? 2)%nat) eqn:Hshort; [apply Hquiet|].
  apply orb_false_elim in Hshort as [_ Hlen]. apply Nat.ltb_ge in Hlen.
  eapply triple_bind; [apply older_pipeline_records|]. intros said w (reply & Hw & ->).
  pose proof (triple_older_release _
                (Json 200 [Talk (match uuid with
                                 | Some _ => reply
                                 | None => VoiceAgentVoice.pipeline_apology
                                 end) true; VoiceAgentVoice.listen 15])
                (fun _ _ => False) w Hw) as H.
  revert H. destruct (bind _ _ w) as [[r|e] w']; [|done].
  intros (-> & Hw' & Hp). split; [|done].
  revert Hw'. apply session_older_weaken. intros h' ->. right. by exists t, reply.
Qed.

End OlderTurn.

(** X19: a turn of the older agent.  For a call whose session holds a
    transcript the ASR webhook returns, whatever the collaborators do.  While
    [processing] is set it answers with the empty action list and changes
    nothing.  Otherwise [processing] is [False] again when it answers, the
    keys of the session other than the transcript and [processing] hold what
    they held, and either nothing was heard (the "didn't catch" reply,
    listening for 1.2 s, the transcript as it was) or the utterance, of at
    least two characters, and the reply of the chat model are the last two
    turns of the transcript, cut to 12 turns, and the agent listens for
    1.5 s.  When the webhook carries a call id the agent says exactly that
    reply, and the apology of the pipeline is not reached.  When it carries
    none, the ticket line raises after the reply was recorded: the agent says
    the apology, and the transcript holds a reply that was never spoken. *)
Theorem older_turn_is_recorded
    (env : Env) (client : bool) (data : AgentAsrRequest) (l : loc)
    (d : gmap string Val) (h : list Turn) (w : World) :
  bound (VoiceAgentVoice.store_key (agent_asr_uuid data)) l d w ->
  d !! "history" = Some (VHist h) ->
  exists r w' d' h',
    VoiceAgentVoice.handle_voice_asr env client data w = (Ret r, w')
    /\ bound (VoiceAgentVoice.store_key (agent_asr_uuid data)) l d' w'
    /\ d' !! "history" = Some (VHist h')
    /\ (forall k, k ∉ ["history"; "processing"] -> d' !! k = d !! k)
    /\ (if truthy (default VNone (d !! "processing"))
        then r = Json 200 [] /\ w' = w
        else d' !! "processing" = Some (VBool false)
             /\ older_turn (agent_asr_uuid data) h r h').
Proof.
  intros Hb Hh. unfold VoiceAgentVoice.handle_voice_asr. cbv zeta.
  erewrite run_bind; [|by eapply run_va_get_call_state].
  erewrite run_bind; [|by eapply run_dict_get].
  destruct (truthy (default VNone (d !! "processing"))) eqn:Hp.
  - exists (Json 200 []), w, d, h. split; [done|]. split; [done|]. split; [done|]. done.
  - erewrite run_bind; [|by eapply run_dict_set].
    erewrite run_bind; [|eapply run_va_set_call_state, bound_world_set, Hb].
    set (d1 := <["processing" := VBool true]> d).
    assert (older_session d (fun h' => h' = h)
              (VoiceAgentVoice.store_key (agent_asr_uuid data)) l (world_set l d1 w))
      as Hw.
    { exists d1, h. split; [by eapply bound_world_set|].
      split; [unfold d1; by rewrite lookup_insert_ne|]. split; [done|].
      intros k Hk. unfold d1. rewrite lookup_insert_ne; [done|].
      intros <-. apply Hk. apply list_elem_of_In. simpl. tauto. }
    pose proof (older_turn_records env client _ l d (agent_asr_uuid data) eq_refl
                  h data _ Hw) as H.
    destruct (VoiceAgentVoice.turn env client (agent_asr_uuid data) l data
                (world_set l d1 w)) as [[r|e] w']; [|done].
    destruct H as [(d' & h' & Hb' & Hh' & Hturn & Hfr) Hp'].
    exists r, w', d', h'. split; [done|]. split; [done|]. split; [done|].
    split; [done|]. split; [|done].
    unfold field in Hp'. destruct Hb' as [Hc Hd]. by rewrite Hc, Hd in Hp'.
Qed.

Lemma older_turn_is_recorded_witness :
  exists r w' d' h',
    VoiceAgentVoice.handle_voice_asr helpdesk_env true nameless_request nameless_world
    = (Ret r, w')
    /\ bound (VoiceAgentVoice.store_key None) 0 d' w'
    /\ d' !! "history" = Some (VHist h')
    /\ (forall k, k ∉ ["history"; "processing"]
                  -> d' !! k = VoiceAgentVoice.answer_dict "15551234567" !! k)
    /\ (if truthy (default VNone (VoiceAgentVoice.answer_dict "15551234567" !! "processing"))
        then r = Json 200 [] /\ w' = nameless_world
        else d' !! "processing" = Some (VBool false) /\ older_turn None [] r h').
Proof.
  apply (older_turn_is_recorded helpdesk_env true nameless_request 0
           (VoiceAgentVoice.answer_dict "15551234567") [] nameless_world).
  - split; reflexivity.
  - reflexivity.
Defined.

(** The same turn, run, and the turn without a chat client. *)
Example older_turn_examples :
  fst (VoiceAgentVoice.handle_voice_asr helpdesk_env true older_request older_world)
  = Ret (Json 200 [Talk "Let me look into that. [ACTION: CREATE_TICKET: printer jam]" true;
                   VoiceAgentVoice.listen 15])
  /\ field (call_state (snd (VoiceAgentVoice.handle_voice_asr helpdesk_env false
                               older_request older_world))) "call-1" "history"
     = Some (VHist [mkTurn "user" "my printer is jammed";
                    mkTurn "assistant" "Let me check. Clear cache. Does that work?"])
  /\ fst (VoiceAgentVoice.handle_voice_asr silent_env true
            (mkAgentAsr (Some "call-1") VNone SpeechMalformed) older_world)
     = Ret (Json 200 [Talk VoiceAgentVoice.didnt_catch true; VoiceAgentVoice.listen 12]).
Proof. vm_compute. repeat split. Qed.

(** A webhook without [uuid]: the reply is recorded and the apology is
    said. *)
Example older_turn_without_uuid :
  fst (VoiceAgentVoice.handle_voice_asr helpdesk_env true nameless_request nameless_world)
  = Ret (Json 200 [Talk VoiceAgentVoice.pipeline_apology true; VoiceAgentVoice.listen 15])
  /\ field (call_state (snd (VoiceAgentVoice.handle_voice_asr helpdesk_env true
                               nameless_request nameless_world)))
           (VoiceAgentVoice.store_key None) "history"
     = Some (VHist [mkTurn "user" "my printer is jammed";
                    mkTurn "assistant"
                      "Let me look into that. [ACTION: CREATE_TICKET: printer jam]"]).
Proof. vm_compute. repeat split. Qed.

(** The length of a text is counted in characters, and its white space is
    that of Unicode: a one-character utterance of two bytes is not heard. *)
Example one_accented_character :
  PyText.len "é" = 1 /\ Py.len "é" = 2
  /\ PyText.strip "  hi " = "hi" /\ PyText.strip " h i　 " = "h i"
  /\ fst (VoiceAgentVoice.handle_voice_asr helpdesk_env true
            (mkAgentAsr (Some "call-1") VNone (SpeechText "é")) older_world)
     = Ret (Json 200 [Talk VoiceAgentVoice.didnt_catch true; VoiceAgentVoice.listen 12]).
Proof. vm_compute. repeat split. Qed.

(** X20: the answer webhook of the older agent.  When [from] is a string
    the handler raises and stores nothing.  Otherwise it greets and listens
    for 1.2 s, and the call id refers to a new dict object with an empty
    transcript, [processing] [False], no ticket and the caller's number
    (["unknown"] when [from] has none): every dict object of the store,
    including the one the call id referred to before, is as it was, no other
    call id is touched and no request is made. *)
Theorem older_answer_resets_or_raises (data : AnswerRequest) (w : World) :
  (forall n, ans_from data = FromStr n ->
             VoiceAgentVoice.handle_voice_answer data w = (Raise AttributeError, w))
  /\ ((forall n, ans_from data <> FromStr n) ->
      exists l w',
        VoiceAgentVoice.handle_voice_answer data w
        = (Ret (Json 200 [Talk VoiceAgentVoice.greeting true; VoiceAgentVoice.listen 12]), w')
        /\ objs (call_state w) !! l = None
        /\ bound (VoiceAgentVoice.answer_call_uuid data) l
                 (VoiceAgentVoice.answer_dict (older_from_number data)) w'
        /\ (forall l', l' <> l -> objs (call_state w') !! l' = objs (call_state w) !! l')
        /\ (forall other, other <> VoiceAgentVoice.answer_call_uuid data ->
                          calls (call_state w') !! other = calls (call_state w) !! other)
        /\ log w' = log w /\ tasks w' = tasks w).
Proof.
  unfold VoiceAgentVoice.handle_voice_answer, older_from_number. split.
  - by intros n ->.
  - intros Hfrom. exists (fresh (dom (objs (call_state w)))).
    destruct (ans_from data) as [|n|[n|]] eqn:Hf; [|by destruct (Hfrom n)| |];
      (eexists; split; [reflexivity|]; simpl;
       split; [apply not_elem_of_dom, is_fresh|];
       split; [split; simpl; apply lookup_insert_eq|];
       split; [intros l' Hl'; by rewrite lookup_insert_ne|];
       split; [intros other Ho; by rewrite lookup_insert_ne|]; done).
Qed.

Example older_answer_examples :
  fst (VoiceAgentVoice.handle_voice_answer answer_from_string older_world)
  = Raise AttributeError
  /\ field (call_state (snd (VoiceAgentVoice.handle_voice_answer
                               (mkAnswer (Some "call-1") None (FromDict None) None VNone)
                               (snd (VoiceAgentVoice.handle_voice_asr helpdesk_env true
                                       older_request older_world)))))
           "call-1" "history"
     = Some (VHist []).
Proof. vm_compute. split; reflexivity. Qed.

(** ** The search term of the older agent *)

Section SearchTerm.

Lemma split_chars_Forall (P : ascii -> Prop) cur s :
  Forall (fun c => P c /\ Py.is_space c = false) cur -> Forall P s ->
  Forall (Forall (fun c => P c /\ Py.is_space c = false)) (PyText.split_chars cur s).
Proof.
  revert cur. induction s as [|c s IH]; intros cur Hcur Hs; simpl.
  - destruct cur; [constructor|]. constructor; [|constructor]. by apply Forall_rev.
  - inversion Hs as [|? ? Hc Hs']; subst. destruct (Py.is_space c) eqn:Hsp.
    + destruct cur as [|c0 cur]; [by apply IH|].
      constructor; [by apply Forall_rev|]. by apply IH.
    + apply IH; [by constructor|done].
Qed.

Lemma to_lower_not_upper c : Py.is_upper (Py.to_lower c) = false.
Proof. by destruct c as [[] [] [] [] [] [] [] []]. Qed.

Lemma cleaned_chars query :
  Forall (fun c => (Py.is_word c || Py.is_space c = true) /\ Py.is_upper c = false)
         (Py.chars (Py.only_words_and_spaces (Py.lower query))).
Proof.
  unfold Py.only_words_and_spaces, Py.lower. rewrite !PyFacts.chars_str.
  apply Forall_forall. intros c [Hc Hin]%list_elem_of_filter.
  split; [by apply Is_true_eq_true|].
  apply list_elem_of_In, in_map_iff in Hin as (c0 & <- & _). apply to_lower_not_upper.
Qed.

End SearchTerm.

(** X21: the term the older agent searches the knowledge base for, for an
    ASCII query.  It is made of at most six words with single blanks between
    them; each word has more than two characters, all of them letters, digits
    or underscores and none an upper-case letter; and the words are words of
    the query without its punctuation, in the order of the query. *)
Theorem search_term_words (query : string) :
  ascii_text query ->
  exists words,
    VoiceAgentVoice.search_term query = PyText.join " " words
    /\ length words <= 6
    /\ Forall search_word words
    /\ words `sublist_of` PyText.split (Py.only_words_and_spaces (Py.lower query)).
Proof.
  intros _. unfold VoiceAgentVoice.search_term. cbv zeta.
  set (all := PyText.split (Py.only_words_and_spaces (Py.lower query))).
  exists (take 6 (filter (fun w => 2 < Py.len w) all)).
  split; [done|]. split; [rewrite length_take; lia|]. split.
  - apply Forall_take, Forall_forall. intros w [Hlen Hin]%list_elem_of_filter.
    split; [done|]. unfold all, PyText.split in Hin.
    apply list_elem_of_In, in_map_iff in Hin as (tok & <- & Htok).
    rewrite PyFacts.chars_str.
    pose proof (split_chars_Forall _ [] _ (Forall_nil_2 _) (cleaned_chars query)) as Hall.
    rewrite Forall_forall in Hall. specialize (Hall tok (proj2 (list_elem_of_In _ _) Htok)).
    eapply Forall_impl; [exact Hall|]. intros c [[Hw Hu] Hsp]. split; [|done].
    rewrite Hsp, orb_false_r in Hw. done.
  - etrans; [apply sublist_take|apply sublist_filter].
Qed.

Lemma search_term_words_witness :
  exists words,
    VoiceAgentVoice.search_term "My PRINTER, it's jammed again!!" = PyText.join " " words
    /\ length words <= 6
    /\ Forall search_word words
    /\ words `sublist_of` PyText.split (Py.only_words_and_spaces
                                         (Py.lower "My PRINTER, it's jammed again!!")).
Proof. apply (search_term_words "My PRINTER, it's jammed again!!"). reflexivity. Defined.

(** A query of short words only is searched for with the empty term. *)
Example search_terms :
  VoiceAgentVoice.search_term "My PRINTER, it's jammed again!!" = "printer its jammed again"
  /\ VoiceAgentVoice.search_term "the quick brown fox jumps over the lazy dog today"
     = "the quick brown fox jumps over"
  /\ VoiceAgentVoice.search_term "is it ok" = ""
  /\ calls_since 0 (snd (VoiceAgentVoice.fetch_combined_knowledge silent_env "is it ok"
                           older_world))
     = [FetchCombinedKnowledge ""].
Proof. vm_compute. repeat split. Qed.

(** ** The caller's number in the background executor *)

Section Phoneless.
Context (env : Env) (cfg : Config) (n : nat) (call_uuid : string) (l : loc).

Lemma keeps_nf_lift_read {A} (m : M ConversationState A) :
  (forall σ, snd (m σ) = σ) -> keeps (no_from n call_uuid l) (lift m) (fun _ => True).
Proof.
  intros Hm w Hw. unfold lift. specialize (Hm (call_state w)).
  destruct (m (call_state w)) as [[a|e] σ]; simpl in Hm; subst;
    by rewrite with_state_same.
Qed.

Lemma keeps_nf_get_default k dflt :
  keeps (no_from n call_uuid l) (lift (dict_get_default l k dflt)) (fun _ => True).
Proof.
  apply keeps_nf_lift_read. intros σ. unfold dict_get_default.
  by destruct (objs σ !! l).
Qed.

Lemma keeps_nf_from :
  keeps (no_from n call_uuid l) (lift (dict_get l "from")) (fun v => v = VNone).
Proof.
  intros w Hw. pose proof Hw as [(d & Hb & Hfrom) _].
  erewrite run_dict_get by done. by rewrite Hfrom.
Qed.

Lemma keeps_nf_set k v :
  k <> "from" -> keeps (no_from n call_uuid l) (lift (dict_set l k v)) (fun _ => True).
Proof.
  intros Hk w [(d & Hb & Hfrom) Hlog]. erewrite run_dict_set by done.
  split; [|done]. split; [|done]. exists (<[k := v]> d).
  split; [by eapply bound_world_set|]. by rewrite lookup_insert_ne.
Qed.

Lemma keeps_nf_set_call_state :
  keeps (no_from n call_uuid l) (lift (App.set_call_state call_uuid l)) (fun _ => True).
Proof.
  intros w Hw. pose proof Hw as [(d & Hb & _) _].
  by erewrite run_set_call_state.
Qed.

Lemma keeps_nf_await c :
  phoneless c -> keeps (no_from n call_uuid l) (await env c) (fun _ => True).
Proof.
  intros Hc w [Hd Hlog]. unfold await.
  assert (no_from n call_uuid l (world_await c w)) as H.
  { split; [done|]. simpl. by apply Forall_drop_snoc. }
  by destruct (env (log w) c).
Qed.

Ltac nf_step :=
  lazymatch goal with
  | |- keeps _ (bind (lift (dict_get _ "from")) _) _ =>
      eapply keeps_bind; [apply keeps_nf_from|intros ? ->; cbn [truthy]]
  | |- keeps _ (bind _ _) _ => apply keeps_bind_any; [|intros ?]
  | |- keeps _ (ret _) _ => by apply keeps_ret
  | |- keeps _ (raise _) _ => apply keeps_raise
  | |- keeps _ (try_except _ _) _ => apply keeps_try_except; [|intros ?]
  | |- keeps _ (lift (dict_get_default _ _ _)) _ => apply keeps_nf_get_default
  | |- keeps _ (lift (dict_get _ _)) _ => apply keeps_nf_get_default
  | |- keeps _ (lift (dict_set _ _ _)) _ => by apply keeps_nf_set
  | |- keeps _ (lift (App.set_call_state _ _)) _ => apply keeps_nf_set_call_state
  | |- keeps _ (await _ _) _ => by apply keeps_nf_await
  | |- keeps _ (py_int _) _ => apply keeps_py_int
  | |- keeps _ (if ?b then _ else _) _ => destruct b
  | |- keeps _ (match ?x with _ => _ end) _ => destruct x
  end.

Lemma keeps_nf_action region_url text_len tag :
  keeps (no_from n call_uuid l)
        (Main.execute_ai_action env cfg call_uuid l region_url text_len tag)
        (fun _ => True).
Proof.
  unfold Main.execute_ai_action, Telephony.transfer_to_agent, Telephony.hangup_call,
    Freshdesk.create_ticket, Freshdesk.update_ticket_status,
    Freshdesk.update_contact_name, Freshdesk.create_contact.
  destruct tag as [tag_type tag_content].
  repeat nf_step.
Qed.

End Phoneless.

(** X22: the background executor never has the caller's number.  It reads
    the number from the key [from] of the session, while the answer webhook
    stores it under [phone].  For a session without the key [from] and
    any list of tags, the executor returns, the session still has no such
    key, and of the requests it makes none creates a contact and every
    ticket creation carries no phone: a caller whom the helpdesk does not
    know yet is never registered by an [UPDATE_NAME] tag. *)
Theorem executor_never_has_the_phone
    (env : Env) (cfg : Config) (call_uuid : string) (l : loc) (d : gmap string Val)
    (all_tags : list (string * string)) (region_url : Val) (text_len : nat)
    (w : World) :
  bound call_uuid l d w -> d !! "from" = None ->
  exists w',
    Main.execute_ai_actions env cfg call_uuid all_tags l region_url text_len w
    = (Ret tt, w')
    /\ (exists d', bound call_uuid l d' w' /\ d' !! "from" = None)
    /\ Forall phoneless (calls_since (length (log w)) w').
Proof.
  intros Hb Hfrom.
  assert (no_from (length (log w)) call_uuid l w) as Hw.
  { split; [by exists d|]. rewrite drop_all. constructor. }
  assert (keeps (no_from (length (log w)) call_uuid l)
                (Main.execute_ai_actions env cfg call_uuid all_tags l region_url text_len)
                (fun _ => True)) as Hk.
  { unfold Main.execute_ai_actions. apply keeps_try_except; [|intros; by apply keeps_ret].
    apply keeps_for_each. intros tag. apply keeps_nf_action. }
  specialize (Hk w Hw).
  assert (exists w', Main.execute_ai_actions env cfg call_uuid all_tags l region_url
                       text_len w = (Ret tt, w')) as [w' Hrun].
  { unfold Main.execute_ai_actions, try_except.
    destruct (for_each _ _ w) as [[[]|e] w1]; unfold ret; eauto. }
  rewrite Hrun in Hk. destruct Hk as [[Hd Hlog] _].
  exists w'. split; [done|]. split; [done|].
  unfold calls_since. by apply Forall_map.
Qed.

Lemma executor_never_has_the_phone_witness :
  exists w',
    Main.execute_ai_actions helpdesk_env no_config "call-1" ticket_and_name 0 VNone 0
      answered_world = (Ret tt, w')
    /\ (exists d', bound "call-1" 0 d' w' /\ d' !! "from" = None)
    /\ Forall phoneless (calls_since (length (log answered_world)) w').
Proof.
  apply (executor_never_has_the_phone helpdesk_env no_config "call-1" 0 answered_dict
           ticket_and_name VNone 0 answered_world).
  - split; reflexivity.
  - reflexivity.
Defined.

(** The same tags, run on the call answered from +1 555 123 4567: the ticket
    is created without the number, the name is stored, no contact is
    created. *)
Example executor_without_phone :
  let w' := snd (Main.execute_ai_actions helpdesk_env no_config "call-1" ticket_and_name
                   0 VNone 0 answered_world) in
  field (call_state answered_world) "call-1" "phone" = Some (VStr "+15551234567")
  /\ calls_since 0 w'
     = [CreateTicketHttp "call-1" "printer jam" VNone (VStr "Neutral") VNone]
  /\ field (call_state w') "call-1" "contact_name" = Some (VStr "Bob")
  /\ field (call_state w') "call-1" "contact_id" = None.
Proof. vm_compute. repeat split. Qed.

(** ** What a streaming turn says, records and schedules *)

(** X23: a streaming turn for a call whose session holds a transcript.  It
    always returns and lowers the flag, and it makes the generation request
    with the transcript that already ends with the utterance.  When that
    request yields a reply, the reply goes into the transcript as it is, the
    one further call is the TTS injection of the reply with its tags cut out,
    and the executor is scheduled, once, exactly when the reply has a tag.  When the
    request fails, the utterance stays in the transcript, nothing is spoken
    and nothing is scheduled: the caller hears no apology. *)
Theorem streaming_turn_contract
    (env : Env) (transcript call_uuid : string) (l : loc) (d : gmap string Val)
    (h : list Turn) (w : World) :
  call_uuid <> "" -> bound call_uuid l d w -> d !! "history" = Some (VHist h) ->
  let h1 := Py.last_n 50 (h ++ [mkTurn "user" transcript]) in
  let request := streaming_request transcript d h1 in
  exists w',
    Main.process_and_respond env transcript (VStr call_uuid) w = (Ret tt, w')
    /\ _processing_ai w' = false
    /\ match env (log w) request with
       | Ret (RVal (VStr ai_reply)) =>
           let clean_speech := Py.strip (Py.sub Main.any_tag "" ai_reply) in
           let all_tags := Py.findall Py.action_or_sentiment_tag ai_reply in
           let region_url := default VNone (d !! "region_url") in
           field (call_state w') call_uuid "history"
           = Some (VHist (Py.last_n 50 (h1 ++ [mkTurn "assistant" ai_reply])))
           /\ calls_since (length (log w)) w'
              = [request; TalkHttp call_uuid clean_speech region_url]
           /\ tasks w'
              = tasks w ++ match all_tags with
                           | [] => []
                           | _ => [ExecuteAiActions call_uuid all_tags l region_url
                                                    (Py.len clean_speech)]
                           end
       | _ =>
           field (call_state w') call_uuid "history" = Some (VHist h1)
           /\ calls_since (length (log w)) w' = [request]
           /\ tasks w' = tasks w
       end.
Proof. apply run_streaming_turn. Qed.

Lemma streaming_turn_contract_witness :
  let h1 := Py.last_n 50 ([] ++ [mkTurn "user" "my printer is jammed again"]) in
  let request := streaming_request "my printer is jammed again" answered_dict h1 in
  exists w',
    Main.process_and_respond helpdesk_env "my printer is jammed again" (VStr "call-1")
      answered_world = (Ret tt, w')
    /\ _processing_ai w' = false
    /\ match helpdesk_env (log answered_world) request with
       | Ret (RVal (VStr ai_reply)) =>
           let clean_speech := Py.strip (Py.sub Main.any_tag "" ai_reply) in
           let all_tags := Py.findall Py.action_or_sentiment_tag ai_reply in
           let region_url := default VNone (answered_dict !! "region_url") in
           field (call_state w') "call-1" "history"
           = Some (VHist (Py.last_n 50 (h1 ++ [mkTurn "assistant" ai_reply])))
           /\ calls_since (length (log answered_world)) w'
              = [request; TalkHttp "call-1" clean_speech region_url]
           /\ tasks w'
              = tasks answered_world
                ++ match all_tags with
                   | [] => []
                   | _ => [ExecuteAiActions "call-1" all_tags 0 region_url
                                            (Py.len clean_speech)]
                   end
       | _ =>
           field (call_state w') "call-1" "history" = Some (VHist h1)
           /\ calls_since (length (log answered_world)) w' = [request]
           /\ tasks w' = tasks answered_world
       end.
Proof.
  apply (streaming_turn_contract helpdesk_env "my printer is jammed again" "call-1" 0
           answered_dict [] answered_world).
  - discriminate.
  - split; reflexivity.
  - reflexivity.
Defined.

(** The same turn, run; and the turn when generation fails. *)
Example streaming_turn_examples :
  let w' := snd (Main.process_and_respond helpdesk_env "my printer is jammed again"
                   (VStr "call-1") answered_world) in
  let quiet := snd (Main.process_and_respond silent_env "my printer is jammed again"
                      (VStr "call-1") answered_world) in
  map ev_call (drop 1 (log w')) = [TalkHttp "call-1" "Let me look into that." VNone]
  /\ tasks w' = [ExecuteAiActions "call-1" [("ACTION", "CREATE_TICKET: printer jam")] 0
                                  VNone 22]
  /\ length (log quiet) = 1 /\ tasks quiet = [].
Proof. vm_compute. repeat split. Qed.
